(** * Fractal turning-point strategy: indicators, detector, simulators, monitor

    Shallow embedding of the two strategy scripts of the repository
    ([底分型.py] and [底分型微信通知.py]).

    Conventions of the embedding.
    - Prices, volumes and indicator values are rationals ([Q]): every
      arithmetic step of the scripts is taken exactly, binary64 rounding is
      not modelled.  The score weights 1, 2 and 1.5 and their sums are exact
      in binary64 as well.  The stop tests are also given as the scripts
      evaluate them on binary64 prices ([trailing_test_binary64],
      [stop_loss_test_binary64]), for the statements that depend on the
      rounding of a stop level.
    - A pandas cell that holds NaN is [None]; a column that was never added
      to the frame is [None] at the column level.  A comparison against NaN
      is false, as in numpy.
    - A trade date is a day number ([Z]); [pd.to_datetime(a) -
      pd.to_datetime(b)).days] is the difference of the day numbers.
    - Printing, logging and chart drawing do not feed back into the
      computations and are left out.  So are the notification calls, but for
      the one of the trailing-stop branch of [底分型.py], which raises when
      the notifier is disabled ([Fractal.sell_block_raises]). *)

From Stdlib Require Import ZArith QArith Qabs Qminmax Lia Lqa List Bool Permutation Sorted.
From Stdlib Require Import PrimFloat.
From stdpp Require Import gmap strings.
Import ListNotations.

Set Implicit Arguments.

(** ** Rational helpers standing for the numpy / Python primitives *)

Definition Qlt_bool (x y : Q) : bool := negb (Qle_bool y x).

Definition Qsum (l : list Q) : Q := fold_left Qplus l 0%Q.

Definition Qlen (l : list Q) : Q := inject_Z (Z.of_nat (length l)).

(** [np.mean] *)
Definition mean (l : list Q) : Q := (Qsum l / Qlen l)%Q.

(** [a[lo:hi]] for [0 <= lo], [0 <= hi] *)
Definition slice {A} (l : list A) (lo hi : nat) : list A :=
  firstn (hi - lo) (skipn lo l).

(** [.iloc[i]] / [a[i]] on a numeric column, for an index inside the
    column.  Every index the modelled loops use is inside (see
    [backtest_indices_in_range]); the default is never read there. *)
Definition iloc (col : list Q) (i : nat) : Q := nth i col 0%Q.

(** [.iloc[i]] on a column that may hold NaN (the rolling means). *)
Definition iloc_nan (col : list (option Q)) (i : nat) : option Q :=
  nth i col None.

(** [np.diff] *)
Fixpoint diff (l : list Q) : list Q :=
  match l with
  | a :: (b :: _) as t => (b - a)%Q :: diff t
  | _ => []
  end.

(** [x < c] where the cell [c] may be NaN *)
Definition lt_cell (x : Q) (c : option Q) : bool :=
  match c with Some v => Qlt_bool x v | None => false end.

(** [x > c] where the cell [c] may be NaN *)
Definition gt_cell (x : Q) (c : option Q) : bool :=
  match c with Some v => Qlt_bool v x | None => false end.

(** ** Indicator engine (identical text in both scripts) *)

Module Indicators.

(** [100. - 100./(1. + rs)] with [rs = up/down if down != 0 else 0] *)
Definition rsi_value (up down : Q) : Q :=
  let rs := if negb (Qeq_bool down 0) then (up / down)%Q else 0%Q in
  (100 - 100 / (1 + rs))%Q.

(** One pass of the loop [for i in range(period, len(prices))]; [ds] holds
    the deltas [deltas[i-1]] still to be visited. *)
Fixpoint rsi_loop (period : Q) (up down : Q) (ds : list Q) : list Q :=
  match ds with
  | [] => []
  | delta :: ds' =>
      let upval := if Qlt_bool 0 delta then delta else 0%Q in
      let downval := if Qlt_bool 0 delta then 0%Q else (- delta)%Q in
      let up' := ((up * (period - 1) + upval) / period)%Q in
      let down' := ((down * (period - 1) + downval) / period)%Q in
      rsi_value up' down' :: rsi_loop period up' down' ds'
  end.

(** The seed averages: [seed = deltas[:period+1]],
    [up = seed[seed >= 0].sum()/period],
    [down = -seed[seed < 0].sum()/period]. *)
Definition rsi_seed_up (period : nat) (deltas : list Q) : Q :=
  let seed := firstn (period + 1) deltas in
  (Qsum (List.filter (fun d => Qle_bool 0 d) seed) / inject_Z (Z.of_nat period))%Q.

Definition rsi_seed_down (period : nat) (deltas : list Q) : Q :=
  let seed := firstn (period + 1) deltas in
  (- Qsum (List.filter (fun d => Qlt_bool d 0) seed) / inject_Z (Z.of_nat period))%Q.

(** [calculate_rsi(prices, period)], for [1 <= period] and a non-empty
    price array.  [rsi[:period]] receives the seed value (all of the array
    when it is shorter than [period]); entry [i >= period] is produced by the
    loop from [deltas[i-1]]. *)
Definition calculate_rsi (prices : list Q) (period : nat) : list Q :=
  let deltas := diff prices in
  let up := rsi_seed_up period deltas in
  let down := rsi_seed_down period deltas in
  repeat (rsi_value up down) (Nat.min period (length prices))
  ++ rsi_loop (inject_Z (Z.of_nat period)) up down (skipn (period - 1) deltas).

(** The loop [for i in range(start+1, len(xs)): e[i] = (xs[i] - e[i-1]) *
    mult + e[i-1]]. *)
Fixpoint ema_loop (mult prev : Q) (xs : list Q) : list Q :=
  match xs with
  | [] => []
  | x :: xs' =>
      let e := ((x - prev) * mult + prev)%Q in
      e :: ema_loop mult e xs'
  end.

(** A zero-initialised array whose entry [start] is [seedv] and whose later
    entries follow the exponential recurrence over [xs]. *)
Definition ema_from (start : nat) (seedv mult : Q) (xs : list Q) : list Q :=
  repeat 0%Q start ++ seedv :: ema_loop mult seedv (skipn (S start) xs).

Definition Qsub_list (a b : list Q) : list Q :=
  map (fun p => (fst p - snd p)%Q) (combine a b).

(** [calculate_macd(prices, fast_period, slow_period, signal_period)].
    The two array stores [ema_fast[slow_period-1] = ...] and
    [signal_line[slow_period+signal_period-1] = ...] raise [IndexError] on a
    shorter array: the result is [None] then. *)
Definition calculate_macd (prices : list Q) (fast_period slow_period signal_period : nat)
  : option (list Q * list Q * list Q) :=
  if (length prices <? slow_period + signal_period)%nat then None else
  let seedv := mean (firstn slow_period prices) in
  let fast_multiplier := (2 / inject_Z (Z.of_nat (fast_period + 1)))%Q in
  let slow_multiplier := (2 / inject_Z (Z.of_nat (slow_period + 1)))%Q in
  let ema_fast := ema_from (slow_period - 1) seedv fast_multiplier prices in
  let ema_slow := ema_from (slow_period - 1) seedv slow_multiplier prices in
  let macd_line := Qsub_list ema_fast ema_slow in
  let signal_seed :=
    mean (slice macd_line (slow_period - 1) (slow_period + signal_period - 1)) in
  let signal_multiplier := (2 / inject_Z (Z.of_nat (signal_period + 1)))%Q in
  let signal_line :=
    ema_from (slow_period + signal_period - 1) signal_seed signal_multiplier macd_line in
  let histogram := Qsub_list macd_line signal_line in
  Some (macd_line, signal_line, histogram).

Section Bollinger.

(** The square root behind [np.std]: numpy is not part of the repository,
    the root is taken as a parameter. *)
Variable np_sqrt : Q -> Q.

(** [np.std(window)]: population standard deviation *)
Definition np_std (window : list Q) : Q :=
  let m := mean window in
  np_sqrt (mean (map (fun x => ((x - m) * (x - m))%Q) window)).

(** The three values stored at index [i >= period-1]. *)
Definition bollinger_at (prices : list Q) (period : nat) (num_std : Q) (i : nat)
  : Q * Q * Q :=
  let window := slice prices (i - (period - 1)) (i + 1) in
  let middle := mean window in
  let std_dev := np_std window in
  ((middle + std_dev * num_std)%Q, middle, (middle - std_dev * num_std)%Q).

(** [calculate_bollinger_bands(prices, period, num_std)]: three
    zero-initialised arrays, filled from index [period-1] on (in exact
    arithmetic; the scripts round each sum and product to binary64). *)
Definition calculate_bollinger_bands (prices : list Q) (period : nat) (num_std : Q)
  : list Q * list Q * list Q :=
  let cells :=
    map (fun i => if (i <? period - 1)%nat then (0%Q, 0%Q, 0%Q)
                  else bollinger_at prices period num_std i)
        (seq 0 (length prices)) in
  (map (fun c => fst (fst c)) cells,
   map (fun c => snd (fst c)) cells,
   map (fun c => snd c) cells).

End Bollinger.

(** True range array: [tr[0] = 0], [tr[i] = max(hl, hpc, lpc)]. *)
Fixpoint true_ranges (prev_close : Q) (hlc : list (Q * Q * Q)) : list Q :=
  match hlc with
  | [] => []
  | (h, l, c) :: rest =>
      let hl := (h - l)%Q in
      let hpc := Qabs (h - prev_close) in
      let lpc := Qabs (l - prev_close) in
      Qmax (Qmax hl hpc) lpc :: true_ranges c rest
  end.

Fixpoint atr_loop (period prev : Q) (trs : list Q) : list Q :=
  match trs with
  | [] => []
  | t :: trs' =>
      let a := ((prev * (period - 1) + t) / period)%Q in
      a :: atr_loop period a trs'
  end.

(** [calculate_atr(high, low, close, period)]; the store [atr[period] = ...]
    raises [IndexError] unless [period < len(high)]. *)
Definition calculate_atr (high low close : list Q) (period : nat) : option (list Q) :=
  if (length high <=? period)%nat then None else
  let tr :=
    match combine (combine high low) close with
    | [] => []
    | (_, _, c0) :: rest => 0%Q :: true_ranges c0 rest
    end in
  let seedv := mean (slice tr 1 (period + 1)) in
  Some (repeat 0%Q period
        ++ seedv :: atr_loop (inject_Z (Z.of_nat period)) seedv (skipn (S period) tr)).

End Indicators.

(** ** Data model *)

Definition Date := Z.

(** One daily bar as delivered by the market-data provider. *)
Record Bar := mkBar {
  b_date : Date;
  b_open : Q;
  b_high : Q;
  b_low : Q;
  b_close : Q;
  b_vol : Q
}.

(** The data frame [self.data], column by column.  The four rolling means
    are always present and hold NaN ([None]) during their warm-up; the other
    indicator columns exist only when [get_data] added them. *)
Record Frame := mkFrame {
  trade_date : list Date;
  open : list Q;
  high : list Q;
  low : list Q;
  close : list Q;
  vol : list Q;
  ma5 : list (option Q);
  ma10 : list (option Q);
  ma20 : list (option Q);
  ma60 : list (option Q);
  rsi : option (list Q);
  macd : option (list Q);
  macd_signal : option (list Q);
  macd_hist : option (list Q);
  bb_upper : option (list Q);
  bb_middle : option (list Q);
  bb_lower : option (list Q);
  atr : option (list Q)
}.

(** [len(df)] *)
Definition frame_len (df : Frame) : nat := length (trade_date df).

(** [df.iloc[:n]]: every column is cut to its first [n] rows; the indicator
    cells keep the values they were given on the whole frame. *)
Definition frame_prefix (df : Frame) (n : nat) : Frame :=
  {| trade_date := firstn n (trade_date df);
     open := firstn n (open df);
     high := firstn n (high df);
     low := firstn n (low df);
     close := firstn n (close df);
     vol := firstn n (vol df);
     ma5 := firstn n (ma5 df);
     ma10 := firstn n (ma10 df);
     ma20 := firstn n (ma20 df);
     ma60 := firstn n (ma60 df);
     rsi := option_map (firstn n) (rsi df);
     macd := option_map (firstn n) (macd df);
     macd_signal := option_map (firstn n) (macd_signal df);
     macd_hist := option_map (firstn n) (macd_hist df);
     bb_upper := option_map (firstn n) (bb_upper df);
     bb_middle := option_map (firstn n) (bb_middle df);
     bb_lower := option_map (firstn n) (bb_lower df);
     atr := option_map (firstn n) (atr df) |}.

(** [df['trade_date'].iloc[i]] *)
Definition date_at (df : Frame) (i : nat) : Date := nth i (trade_date df) 0%Z.

(** ['c' in df.columns and df['c'].iloc[i] < x], and the variants the
    detector uses, on a column that may be missing. *)
Definition col_lt (col : option (list Q)) (i : nat) (x : Q) : bool :=
  match col with Some c => Qlt_bool (iloc c i) x | None => false end.

Definition col_gt (col : option (list Q)) (i : nat) (x : Q) : bool :=
  match col with Some c => Qlt_bool x (iloc c i) | None => false end.

(** ['c' in df.columns and x <= df['c'].iloc[i]] *)
Definition le_col (x : Q) (col : option (list Q)) (i : nat) : bool :=
  match col with Some c => Qle_bool x (iloc c i) | None => false end.

(** ['c' in df.columns and x >= df['c'].iloc[i]] *)
Definition ge_col (x : Q) (col : option (list Q)) (i : nat) : bool :=
  match col with Some c => Qle_bool (iloc c i) x | None => false end.

(** ** get_data (identical text in both scripts) *)

(** [df['close'].rolling(n).mean()]: NaN on the first [n-1] rows. *)
Definition rolling_mean (n : nat) (xs : list Q) : list (option Q) :=
  map (fun i => if (i + 1 <? n)%nat then None
                else Some (mean (slice xs (i + 1 - n) (i + 1))))
      (seq 0 (length xs)).

(** [df.sort_values('trade_date')] *)
Fixpoint insert_by_date (b : Bar) (l : list Bar) : list Bar :=
  match l with
  | [] => [b]
  | c :: l' => if (b_date b <? b_date c)%Z then b :: l else c :: insert_by_date b l'
  end.

Definition sort_values (l : list Bar) : list Bar :=
  fold_right insert_by_date [] l.

Section GetData.

Variable np_sqrt : Q -> Q.

(** [get_data], from the rows returned by the provider on.  An exception
    raised while the indicator columns are computed is caught by the method,
    which then leaves [self.data] unset: the result is [None]. *)
Definition get_data (fetched : list Bar) : option Frame :=
  let bars := sort_values fetched in
  let n := length bars in
  let closes := map b_close bars in
  let highs := map b_high bars in
  let lows := map b_low bars in
  let rsi_col :=
    if (14 <? n)%nat then Some (Indicators.calculate_rsi closes 14) else None in
  let macd_cols :=
    if (26 <? n)%nat then
      match Indicators.calculate_macd closes 12 26 9 with
      | Some (m, s, h) => Some (Some m, Some s, Some h)
      | None => None
      end
    else Some (None, None, None) in
  let bb_cols :=
    if (20 <? n)%nat then
      let '(u, m, l) := Indicators.calculate_bollinger_bands np_sqrt closes 20 2 in
      (Some u, Some m, Some l)
    else (None, None, None) in
  let atr_col :=
    if (14 <? n)%nat then
      match Indicators.calculate_atr highs lows closes 14 with
      | Some a => Some (Some a)
      | None => None
      end
    else Some None in
  match macd_cols, atr_col with
  | Some (m, s, h), Some a =>
      Some {| trade_date := map b_date bars;
              open := map b_open bars;
              high := highs;
              low := lows;
              close := closes;
              vol := map b_vol bars;
              ma5 := rolling_mean 5 closes;
              ma10 := rolling_mean 10 closes;
              ma20 := rolling_mean 20 closes;
              ma60 := rolling_mean 60 closes;
              rsi := rsi_col;
              macd := m;
              macd_signal := s;
              macd_hist := h;
              bb_upper := fst (fst bb_cols);
              bb_middle := snd (fst bb_cols);
              bb_lower := snd bb_cols;
              atr := a |}
  | _, _ => None
  end.

End GetData.

(** ** Pattern detector, batch mode (identical text in both scripts) *)

(** The labels appended to [reason]. *)
Inductive Reason :=
| Yang                 (* "阳线" *)
| FangLiang            (* "放量" *)
| DownTrend            (* "下降趋势" *)
| RsiLow               (* "RSI低位" *)
| BollLowerSupport     (* "布林下轨支撑" *)
| MacdBottomReversal   (* "MACD底部反转" *)
| Yin                  (* "阴线" *)
| UpTrend              (* "上升趋势" *)
| RsiHigh              (* "RSI高位" *)
| BollUpperResistance  (* "布林上轨阻力" *)
| MacdTopTurn.         (* "MACD顶部转向" *)

(** [if cond: score += w; reason.append(lbl)] *)
Definition bump (cond : bool) (w : Q) (lbl : Reason) (acc : Q * list Reason)
  : Q * list Reason :=
  if cond then ((fst acc + w)%Q, snd acc ++ [lbl]) else acc.

(** [if cond: score += w] *)
Definition bump_score (cond : bool) (w : Q) (score : Q) : Q :=
  if cond then (score + w)%Q else score.

(** The entry of the pattern dictionaries. *)
Record Pattern := mkPattern {
  p_date : Date;
  p_price : Q;
  p_extreme : Q;     (* 'low' for a bottom, 'high' for a top *)
  p_volume : Q;
  p_score : Q;
  p_reason : list Reason
}.

Module Detector.

(** [df['low'].iloc[i] < df['low'].iloc[i-1] and
     df['low'].iloc[i] < df['low'].iloc[i+1]] *)
Definition is_bottom_fractal (df : Frame) (i : nat) : bool :=
  Qlt_bool (iloc (low df) i) (iloc (low df) (i - 1))
  && Qlt_bool (iloc (low df) i) (iloc (low df) (i + 1)).

Definition is_top_fractal (df : Frame) (i : nat) : bool :=
  Qlt_bool (iloc (high df) (i - 1)) (iloc (high df) i)
  && Qlt_bool (iloc (high df) (i + 1)) (iloc (high df) i).

(** ['macd' and 'macd_hist' in df.columns and macd[i] < 0 and i > 0 and
     macd_hist[i] > macd_hist[i-1]] *)
Definition macd_bottom_cond (df : Frame) (i : nat) : bool :=
  match macd df, macd_hist df with
  | Some m, Some h =>
      Qlt_bool (iloc m i) 0 && (0 <? i)%nat && Qlt_bool (iloc h (i - 1)) (iloc h i)
  | _, _ => false
  end.

Definition macd_top_cond (df : Frame) (i : nat) : bool :=
  match macd df, macd_hist df with
  | Some m, Some h =>
      Qlt_bool 0 (iloc m i) && (0 <? i)%nat && Qlt_bool (iloc h i) (iloc h (i - 1))
  | _, _ => false
  end.

(** [score = 0; reason = []] followed by the six [if] statements of
    [identify_bottom_pattern] for index [i]. *)
Definition bottom_score (df : Frame) (i : nat) : Q * list Reason :=
  let acc := (0%Q, []) in
  let acc := bump (Qlt_bool (iloc (open df) i) (iloc (close df) i)) 1 Yang acc in
  let acc := bump ((0 <? i)%nat && Qlt_bool (iloc (vol df) (i - 1)) (iloc (vol df) i))
                  1 FangLiang acc in
  let acc := bump (lt_cell (iloc (close df) i) (iloc_nan (ma10 df) i)) 1 DownTrend acc in
  let acc := bump (col_lt (rsi df) i 30) 2 RsiLow acc in
  let acc := bump (le_col (iloc (low df) i) (bb_lower df) i) (3 # 2)
                  BollLowerSupport acc in
  bump (macd_bottom_cond df i) (3 # 2) MacdBottomReversal acc.

(** The same for [identify_top_pattern]. *)
Definition top_score (df : Frame) (i : nat) : Q * list Reason :=
  let acc := (0%Q, []) in
  let acc := bump (Qlt_bool (iloc (close df) i) (iloc (open df) i)) 1 Yin acc in
  let acc := bump ((0 <? i)%nat && Qlt_bool (iloc (vol df) (i - 1)) (iloc (vol df) i))
                  1 FangLiang acc in
  let acc := bump (gt_cell (iloc (close df) i) (iloc_nan (ma10 df) i)) 1 UpTrend acc in
  let acc := bump (col_gt (rsi df) i 70) 2 RsiHigh acc in
  let acc := bump (ge_col (iloc (high df) i) (bb_upper df) i) (3 # 2)
                  BollUpperResistance acc in
  bump (macd_top_cond df i) (3 # 2) MacdTopTurn acc.

(** The body of the [for] loop of [identify_bottom_pattern] at index [i]:
    the pattern appended there, if any. *)
Definition bottom_pattern_at (df : Frame) (i : nat) : option Pattern :=
  if is_bottom_fractal df i then
    let '(score, reason) := bottom_score df i in
    if Qle_bool 3 score then
      Some {| p_date := date_at df i;
              p_price := iloc (close df) i;
              p_extreme := iloc (low df) i;
              p_volume := iloc (vol df) i;
              p_score := score;
              p_reason := reason |}
    else None
  else None.

Definition top_pattern_at (df : Frame) (i : nat) : option Pattern :=
  if is_top_fractal df i then
    let '(score, reason) := top_score df i in
    if Qle_bool 3 score then
      Some {| p_date := date_at df i;
              p_price := iloc (close df) i;
              p_extreme := iloc (high df) i;
              p_volume := iloc (vol df) i;
              p_score := score;
              p_reason := reason |}
    else None
  else None.

(** [for i in range(1, len(df) - 1)] *)
Definition scan_range (df : Frame) : list nat := seq 1 (frame_len df - 2).

(** Collects what the loop body appends, in index order. *)
Fixpoint collect (body : nat -> option Pattern) (idxs : list nat) : list Pattern :=
  match idxs with
  | [] => []
  | i :: rest =>
      match body i with
      | Some p => p :: collect body rest
      | None => collect body rest
      end
  end.

Definition identify_bottom_pattern (df : Frame) : list Pattern :=
  collect (bottom_pattern_at df) (scan_range df).

Definition identify_top_pattern (df : Frame) : list Pattern :=
  collect (top_pattern_at df) (scan_range df).

End Detector.

(** ** Execution simulator: shared records *)

(** The value of ['sell_reason'] in a trade dictionary. *)
Inductive SellReason :=
| EmptyReason                  (* "" , the initial [pending_sell_reason] *)
| TopPattern                   (* "顶分型" *)
| StopLoss (pct : Q)           (* f"止损 -{stop_loss_pct}%" *)
| TrailingStop                 (* "跟踪止损 -5%" *)
| MaxHold (days : Z)           (* f"持有天数达到 {hold_days} 天" *)
| EndOfBacktest.               (* "回测结束" *)

(** One closed trade.  [t_buy_date] and [t_buy_reason] copy the variables
    [buy_date] and [buy_reason], whose initial values ([''], [[]], [None])
    are not dates or label lists: [None] stands for them. *)
Record Trade := mkTrade {
  t_buy_date : option Date;
  t_buy_price : Q;
  t_buy_reason : option (list Reason);
  t_sell_date : Date;
  t_sell_price : Q;
  t_sell_reason : SellReason;
  t_profit_pct : Q;
  t_hold_days : Z
}.

(** The keyword arguments of [backtest_strategy_realtime]. *)
Record Params := mkParams {
  hold_days : Z;
  use_stop_loss : bool;
  stop_loss_pct : Q;
  use_trailing_stop : bool
}.

(** [(sell_price - buy_price) / buy_price * 100] *)
Definition profit_of (buy_price sell_price : Q) : Q :=
  ((sell_price - buy_price) / buy_price * 100)%Q.

(** [(pd.to_datetime(sell_date) - pd.to_datetime(buy_date)).days] *)
Definition days_between (sell_date : Date) (buy_date : option Date) : Z :=
  match buy_date with
  | Some b => (sell_date - b)%Z
  | None => 0%Z
  end.

Definition make_trade (buy_date : option Date) (buy_price : Q)
    (buy_reason : option (list Reason)) (sell_date : Date) (sell_price : Q)
    (sell_reason : SellReason) : Trade :=
  {| t_buy_date := buy_date;
     t_buy_price := buy_price;
     t_buy_reason := buy_reason;
     t_sell_date := sell_date;
     t_sell_price := sell_price;
     t_sell_reason := sell_reason;
     t_profit_pct := profit_of buy_price sell_price;
     t_hold_days := days_between sell_date buy_date |}.

(** The dictionary returned when there are trades. *)
Record Stats := mkStats {
  total_trades : nat;
  avg_profit_pct : Q;
  win_rate : Q;
  total_profit_pct : Q;
  max_profit_pct : Q;
  max_loss_pct : Q;
  avg_hold_days : Q;
  details : list Trade
}.

Inductive BacktestResult :=
| NoData                       (* "没有数据可供回测" *)
| NoTrades                     (* the "no trades" message of either script *)
| Report (s : Stats).

(** [max(...)] / [min(...)] over a non-empty sequence *)
Definition Qmax_list (l : list Q) : Q :=
  match l with
  | [] => 0%Q
  | x :: r => fold_left (fun m y => if Qlt_bool m y then y else m) r x
  end.

Definition Qmin_list (l : list Q) : Q :=
  match l with
  | [] => 0%Q
  | x :: r => fold_left (fun m y => if Qlt_bool y m then y else m) r x
  end.

Definition nat_Q (n : nat) : Q := inject_Z (Z.of_nat n).

(** The aggregate block at the end of [backtest_strategy_realtime]; the sums
    and the quotients are exact here, the scripts round them to binary64. *)
Definition summarize (trades : list Trade) : BacktestResult :=
  match trades with
  | [] => NoTrades
  | _ =>
      let profits := map t_profit_pct trades in
      let n := nat_Q (length trades) in
      Report {| total_trades := length trades;
                avg_profit_pct := (Qsum profits / n)%Q;
                win_rate :=
                  (nat_Q (length (List.filter (fun p => Qlt_bool 0 p) profits)) / n)%Q;
                total_profit_pct := Qsum profits;
                max_profit_pct := Qmax_list profits;
                max_loss_pct := Qmin_list profits;
                avg_hold_days :=
                  (inject_Z (fold_left Z.add (map t_hold_days trades) 0%Z) / n)%Q;
                details := trades |}
  end.

(** [df['c'].iloc[-1]] *)
Definition iloc_last (col : list Q) : Q := List.last col 0%Q.

(** [for i in range(2, len(df))] *)
Definition backtest_range (df : Frame) : list nat := seq 2 (frame_len df - 2).

(** ** Execution simulator of [底分型.py] *)

Module Fractal.

(** The local variables of [backtest_strategy_realtime] that live across
    loop iterations. *)
Record State := mkState {
  holding : bool;
  buy_price : Q;
  buy_date : option Date;
  buy_reason : list Reason;
  highest_price : Q;
  pending_buy_signal : bool;
  pending_buy_reason : list Reason;
  pending_sell_signal : bool;
  pending_sell_reason : SellReason;
  trades : list Trade
}.

Definition init : State :=
  {| holding := false; buy_price := 0; buy_date := None; buy_reason := [];
     highest_price := 0; pending_buy_signal := false; pending_buy_reason := [];
     pending_sell_signal := false; pending_sell_reason := EmptyReason;
     trades := [] |}.

(** [score = 0; reason = []] followed by the six [if] statements of the
    causal bottom score, on [current_data] at [prev_idx]. *)
Definition causal_bottom_score (cd : Frame) (p : nat) : Q * list Reason :=
  let acc := (0%Q, []) in
  let acc := bump (Qlt_bool (iloc (open cd) p) (iloc (close cd) p)) 1 Yang acc in
  let acc := bump (Qlt_bool (iloc (vol cd) (p - 1)) (iloc (vol cd) p)) 1 FangLiang acc in
  let acc := bump (lt_cell (iloc (close cd) p) (iloc_nan (ma10 cd) p)) 1 DownTrend acc in
  let acc := bump (col_lt (rsi cd) p 30) 2 RsiLow acc in
  let acc := bump (le_col (iloc (low cd) p) (bb_lower cd) p) (3 # 2)
                  BollLowerSupport acc in
  bump (match macd cd, macd_hist cd with
        | Some m, Some h =>
            Qlt_bool (iloc m p) 0 && Qlt_bool (iloc h (p - 1)) (iloc h p)
        | _, _ => false
        end) (3 # 2) MacdBottomReversal acc.

(** [score = 0] followed by the six [if] statements of the causal top score
    (this script keeps no reasons for the top). *)
Definition causal_top_score (cd : Frame) (p : nat) : Q :=
  let score := 0%Q in
  let score := bump_score (Qlt_bool (iloc (close cd) p) (iloc (open cd) p)) 1 score in
  let score := bump_score (Qlt_bool (iloc (vol cd) (p - 1)) (iloc (vol cd) p)) 1 score in
  let score := bump_score (gt_cell (iloc (close cd) p) (iloc_nan (ma10 cd) p)) 1 score in
  let score := bump_score (col_gt (rsi cd) p 70) 2 score in
  let score := bump_score (ge_col (iloc (high cd) p) (bb_upper cd) p) (3 # 2) score in
  bump_score (match macd cd, macd_hist cd with
              | Some m, Some h =>
                  Qlt_bool 0 (iloc m p) && Qlt_bool (iloc h p) (iloc h (p - 1))
              | _, _ => false
              end) (3 # 2) score.

(** The causal bottom decision taken at processing step [i]:
    [current_data = df.iloc[:i+1]], [prev_idx = i - 1]; the result is the
    score and the reasons when a buy signal is raised. *)
Definition bottom_signal (df : Frame) (i : nat) : option (Q * list Reason) :=
  let current_data := frame_prefix df (i + 1) in
  let prev_idx := i - 1 in
  if Detector.is_bottom_fractal current_data prev_idx then
    let '(score, reason) := causal_bottom_score current_data prev_idx in
    if Qle_bool 3 score then Some (score, reason) else None
  else None.

(** The causal top decision taken at processing step [i]. *)
Definition top_signal (df : Frame) (i : nat) : option Q :=
  let current_data := frame_prefix df (i + 1) in
  let prev_idx := i - 1 in
  if Detector.is_top_fractal current_data prev_idx then
    let score := causal_top_score current_data prev_idx in
    if Qle_bool 3 score then Some score else None
  else None.

(** [if holding and current_high > highest_price: highest_price =
     current_high] *)
Definition update_highest (df : Frame) (i : nat) (st : State) : State :=
  if holding st && Qlt_bool (highest_price st) (iloc (high df) i) then
    {| holding := holding st; buy_price := buy_price st; buy_date := buy_date st;
       buy_reason := buy_reason st; highest_price := iloc (high df) i;
       pending_buy_signal := pending_buy_signal st;
       pending_buy_reason := pending_buy_reason st;
       pending_sell_signal := pending_sell_signal st;
       pending_sell_reason := pending_sell_reason st; trades := trades st |}
  else st.

(** [if pending_buy_signal and not holding: ...] : the deferred entry. *)
Definition fill_pending_buy (df : Frame) (i : nat) (st : State) : State :=
  if pending_buy_signal st && negb (holding st) then
    {| holding := true; buy_price := iloc (open df) i;
       buy_date := Some (date_at df i);
       buy_reason := pending_buy_reason st; highest_price := iloc (open df) i;
       pending_buy_signal := false;
       pending_buy_reason := pending_buy_reason st;
       pending_sell_signal := pending_sell_signal st;
       pending_sell_reason := pending_sell_reason st; trades := trades st |}
  else st.

(** Appends a closed trade and leaves the position ([holding = False]). *)
Definition close_position (st : State) (sell_date : Date) (sell_price : Q)
    (r : SellReason) (pending_sell : bool) : State :=
  {| holding := false; buy_price := buy_price st; buy_date := buy_date st;
     buy_reason := buy_reason st; highest_price := highest_price st;
     pending_buy_signal := pending_buy_signal st;
     pending_buy_reason := pending_buy_reason st;
     pending_sell_signal := pending_sell;
     pending_sell_reason := pending_sell_reason st;
     trades := trades st ++ [make_trade (buy_date st) (buy_price st)
                                        (Some (buy_reason st)) sell_date sell_price r] |}.

(** [if pending_sell_signal and holding: ...] : the deferred exit. *)
Definition fill_pending_sell (df : Frame) (i : nat) (st : State) : State :=
  if pending_sell_signal st && holding st then
    close_position st (date_at df i) (iloc (open df) i) (pending_sell_reason st) false
  else st.

(** [if not holding and not pending_buy_signal and i >= 2: ...] *)
Definition detect_bottom (df : Frame) (i : nat) (st : State) : State :=
  if negb (holding st) && negb (pending_buy_signal st) && (2 <=? i)%nat then
    match bottom_signal df i with
    | Some (_, reason) =>
        {| holding := holding st; buy_price := buy_price st; buy_date := buy_date st;
           buy_reason := buy_reason st; highest_price := highest_price st;
           pending_buy_signal := true; pending_buy_reason := reason;
           pending_sell_signal := pending_sell_signal st;
           pending_sell_reason := pending_sell_reason st; trades := trades st |}
    | None => st
    end
  else st.

(** The fixed stop-loss test on the current close, in exact arithmetic
    ([stop_loss_test_binary64] is the test on binary64 prices). *)
Definition stop_loss_hit (P : Params) (df : Frame) (i : nat) (st : State) : bool :=
  use_stop_loss P
  && Qle_bool (iloc (close df) i) (buy_price st * (1 - stop_loss_pct P / 100))%Q.

(** The trailing-stop test on the current close, in exact arithmetic
    ([trailing_test_binary64] is the test on binary64 prices). *)
Definition trailing_stop_hit (P : Params) (df : Frame) (i : nat) (st : State) : bool :=
  use_trailing_stop P
  && Qlt_bool (buy_price st) (highest_price st)
  && Qle_bool (iloc (close df) i) (highest_price st * (95 # 100))%Q.

(** [if holding and not pending_sell_signal: ...]: top detection, then the
    two stops (each ends the iteration with [continue]), then the deferred
    exit flag.  This is what the block does to the loop variables; the
    trailing-stop branch completes only when the notifier is enabled, see
    [sell_block_raises]. *)
Definition sell_block (P : Params) (df : Frame) (i : nat) (st : State) : State :=
  if holding st && negb (pending_sell_signal st) then
    let sell_reason_text :=
      if (2 <=? i)%nat then
        match top_signal df i with Some _ => Some TopPattern | None => None end
      else None in
    if stop_loss_hit P df i st then
      close_position st (date_at df i) (iloc (close df) i) (StopLoss (stop_loss_pct P))
                     (pending_sell_signal st)
    else if trailing_stop_hit P df i st then
      close_position st (date_at df i) (iloc (close df) i) TrailingStop
                     (pending_sell_signal st)
    else
      match sell_reason_text with
      | Some r =>
          {| holding := holding st; buy_price := buy_price st; buy_date := buy_date st;
             buy_reason := buy_reason st; highest_price := highest_price st;
             pending_buy_signal := pending_buy_signal st;
             pending_buy_reason := pending_buy_reason st;
             pending_sell_signal := true; pending_sell_reason := r;
             trades := trades st |}
      | None => st
      end
  else st.

(** The trailing-stop branch ends with

      if self.wechat.enabled:
          title = ...
          content = ...
      level = "warning" if profit_pct >= 0 else "error"
      self.wechat.send_notification(title, content, level)

    The call stands outside the guard that binds [title] and [content]: with
    a disabled notifier (the default [WeChatNotifier()] without its three
    settings) the two names were never bound and the call raises
    [UnboundLocalError], after the trade was appended to the local list.  No
    other statement of the loop depends on the notifier.  Whether the block
    raises on the state [st]: *)
Definition sell_block_raises (wechat_enabled : bool) (P : Params) (df : Frame)
    (i : nat) (st : State) : bool :=
  holding st && negb (pending_sell_signal st)
  && negb (stop_loss_hit P df i st) && trailing_stop_hit P df i st
  && negb wechat_enabled.

(** The part of an iteration that precedes the [if holding and not
    pending_sell_signal] block. *)
Definition before_exits (df : Frame) (i : nat) (st : State) : State :=
  let st := update_highest df i st in
  let st := fill_pending_buy df i st in
  let st := fill_pending_sell df i st in
  detect_bottom df i st.

(** One iteration of [for i in range(2, len(df))]. *)
Definition step (P : Params) (df : Frame) (st : State) (i : nat) : State :=
  sell_block P df i (before_exits df i st).

(** The state after the iterations [2 .. 2+k-1]. *)
Definition run_steps (P : Params) (df : Frame) (k : nat) : State :=
  fold_left (step P df) (seq 2 k) init.

(** [if holding and len(df) > 0: ...] after the loop. *)
Definition close_at_end (df : Frame) (st : State) : list Trade :=
  if holding st && (0 <? frame_len df)%nat then
    trades st ++ [make_trade (buy_date st) (buy_price st) (Some (buy_reason st))
                             (List.last (trade_date df) 0%Z) (iloc_last (close df))
                             EndOfBacktest]
  else trades st.

(** The trade list built by a whole run. *)
Definition backtest_trades (P : Params) (df : Frame) : list Trade :=
  close_at_end df (run_steps P df (frame_len df - 2)).

(** [backtest_strategy_realtime(hold_days, use_stop_loss, stop_loss_pct,
     use_trailing_stop)] on the frame [self.data], when no iteration
    raises. *)
Definition backtest_strategy_realtime (P : Params) (df : Frame) : BacktestResult :=
  summarize (backtest_trades P df).

(** The loop over the indices [idxs] from the state [st] on, with the
    notifier taken into account: [None] when an iteration raises, which ends
    the method without a result. *)
Fixpoint run_loop (wechat_enabled : bool) (P : Params) (df : Frame) (idxs : list nat)
    (st : State) : option State :=
  match idxs with
  | [] => Some st
  | i :: rest =>
      let st1 := before_exits df i st in
      if sell_block_raises wechat_enabled P df i st1 then None
      else run_loop wechat_enabled P df rest (sell_block P df i st1)
  end.

(** The method on the frame [self.data] of a strategy whose notifier has
    [enabled = wechat_enabled]: its result, or [None] when it raises. *)
Definition backtest_with_notifier (wechat_enabled : bool) (P : Params) (df : Frame)
  : option BacktestResult :=
  option_map (fun st => summarize (close_at_end df st))
             (run_loop wechat_enabled P df (seq 2 (frame_len df - 2)) init).

End Fractal.

(** ** Execution simulator of [底分型微信通知.py] *)

Module FractalNotify.

Record State := mkState {
  holding : bool;
  buy_price : Q;
  buy_date : option Date;
  buy_reason : option (list Reason);
  highest_price : Q;
  pending_buy_signal : bool;
  pending_buy_reason : option (list Reason);
  pending_sell_signal : bool;
  trades : list Trade
}.

Definition init : State :=
  {| holding := false; buy_price := 0; buy_date := None; buy_reason := None;
     highest_price := 0; pending_buy_signal := false; pending_buy_reason := None;
     pending_sell_signal := false; trades := [] |}.

(** The causal bottom decision at processing step [i]: the six [if]
    statements are those of the batch detector, [prev_idx > 0] guards
    included, read on [current_data] at [prev_idx]. *)
Definition bottom_signal (df : Frame) (i : nat) : option (Q * list Reason) :=
  let current_data := frame_prefix df (i + 1) in
  let prev_idx := i - 1 in
  if Detector.is_bottom_fractal current_data prev_idx then
    let '(score, reason) := Detector.bottom_score current_data prev_idx in
    if Qle_bool 3 score then Some (score, reason) else None
  else None.

(** The causal top decision at processing step [i] (the script keeps the
    score only). *)
Definition top_signal (df : Frame) (i : nat) : option Q :=
  let current_data := frame_prefix df (i + 1) in
  let prev_idx := i - 1 in
  if Detector.is_top_fractal current_data prev_idx then
    let score := fst (Detector.top_score current_data prev_idx) in
    if Qle_bool 3 score then Some score else None
  else None.

(** Appends a closed trade and resets [holding], [buy_price], [buy_date]
    and [highest_price]; [pending_sell] is the value the branch leaves in
    [pending_sell_signal]. *)
Definition close_position (st : State) (sell_date : Date) (sell_price : Q)
    (r : SellReason) (pending_sell : bool) : State :=
  {| holding := false; buy_price := 0; buy_date := None;
     buy_reason := buy_reason st; highest_price := 0;
     pending_buy_signal := pending_buy_signal st;
     pending_buy_reason := pending_buy_reason st;
     pending_sell_signal := pending_sell;
     trades := trades st ++ [make_trade (buy_date st) (buy_price st) (buy_reason st)
                                        sell_date sell_price r] |}.

(** [if pending_buy_signal and not holding: ... elif pending_sell_signal and
     holding: ...] *)
Definition fill_pending (df : Frame) (i : nat) (st : State) : State :=
  if pending_buy_signal st && negb (holding st) then
    {| holding := true; buy_price := iloc (open df) i;
       buy_date := Some (date_at df i);
       buy_reason := pending_buy_reason st; highest_price := iloc (open df) i;
       pending_buy_signal := false; pending_buy_reason := None;
       pending_sell_signal := pending_sell_signal st; trades := trades st |}
  else if pending_sell_signal st && holding st then
    close_position st (date_at df i) (iloc (open df) i) TopPattern false
  else st.

(** [if holding and current_price > highest_price: highest_price =
     current_price] *)
Definition update_highest (df : Frame) (i : nat) (st : State) : State :=
  if holding st && Qlt_bool (highest_price st) (iloc (close df) i) then
    {| holding := holding st; buy_price := buy_price st; buy_date := buy_date st;
       buy_reason := buy_reason st; highest_price := iloc (close df) i;
       pending_buy_signal := pending_buy_signal st;
       pending_buy_reason := pending_buy_reason st;
       pending_sell_signal := pending_sell_signal st; trades := trades st |}
  else st.

(** [if not holding and not pending_buy_signal: if i >= 3: ...] *)
Definition detect_bottom (df : Frame) (i : nat) (st : State) : State :=
  if negb (holding st) && negb (pending_buy_signal st) && (3 <=? i)%nat then
    match bottom_signal df i with
    | Some (_, reason) =>
        {| holding := holding st; buy_price := buy_price st; buy_date := buy_date st;
           buy_reason := buy_reason st; highest_price := highest_price st;
           pending_buy_signal := true; pending_buy_reason := Some reason;
           pending_sell_signal := pending_sell_signal st; trades := trades st |}
    | None => st
    end
  else st.

(** [if holding and not pending_sell_signal: if i >= 3: ...]; the flag is
    stored as soon as the score reaches the threshold. *)
Definition detect_top (df : Frame) (i : nat) (st : State) : State :=
  if holding st && negb (pending_sell_signal st) && (3 <=? i)%nat then
    match top_signal df i with
    | Some _ =>
        {| holding := holding st; buy_price := buy_price st; buy_date := buy_date st;
           buy_reason := buy_reason st; highest_price := highest_price st;
           pending_buy_signal := pending_buy_signal st;
           pending_buy_reason := pending_buy_reason st;
           pending_sell_signal := true; trades := trades st |}
    | None => st
    end
  else st.

(** The two stop tests, in exact arithmetic as in the first script. *)
Definition stop_loss_hit (P : Params) (df : Frame) (i : nat) (st : State) : bool :=
  holding st && use_stop_loss P
  && Qle_bool (iloc (close df) i) (buy_price st * (1 - stop_loss_pct P / 100))%Q.

Definition trailing_stop_hit (P : Params) (df : Frame) (i : nat) (st : State) : bool :=
  holding st && use_trailing_stop P
  && Qlt_bool (buy_price st) (highest_price st)
  && Qle_bool (iloc (close df) i) (highest_price st * (95 # 100))%Q.

(** [days_held = (pd.to_datetime(current_date) -
     pd.to_datetime(buy_date)).days] *)
Definition days_held (df : Frame) (i : nat) (st : State) : Z :=
  days_between (date_at df i) (buy_date st).

(** [holding and buy_date and hold_days > 0] followed by
    [days_held >= hold_days] *)
Definition max_hold_hit (P : Params) (df : Frame) (i : nat) (st : State) : bool :=
  holding st
  && (match buy_date st with Some _ => true | None => false end)
  && (0 <? hold_days P)%Z
  && (hold_days P <=? days_held df i st)%Z.

(** The three same-bar exits, each ending the iteration with [continue]. *)
Definition risk_exits (P : Params) (df : Frame) (i : nat) (st : State) : State :=
  if stop_loss_hit P df i st then
    close_position st (date_at df i) (iloc (close df) i) (StopLoss (stop_loss_pct P))
                   (pending_sell_signal st)
  else if trailing_stop_hit P df i st then
    close_position st (date_at df i) (iloc (close df) i) TrailingStop
                   (pending_sell_signal st)
  else if max_hold_hit P df i st then
    close_position st (date_at df i) (iloc (close df) i) (MaxHold (hold_days P))
                   (pending_sell_signal st)
  else st.

(** The part of an iteration that precedes the three exits. *)
Definition before_exits (df : Frame) (i : nat) (st : State) : State :=
  let st := fill_pending df i st in
  let st := update_highest df i st in
  let st := detect_bottom df i st in
  detect_top df i st.

(** One iteration of [for i in range(2, len(df))]. *)
Definition step (P : Params) (df : Frame) (st : State) (i : nat) : State :=
  risk_exits P df i (before_exits df i st).

Definition run_steps (P : Params) (df : Frame) (k : nat) : State :=
  fold_left (step P df) (seq 2 k) init.

(** [if holding: ...] after the loop. *)
Definition close_at_end (df : Frame) (st : State) : list Trade :=
  if holding st then
    trades st ++ [make_trade (buy_date st) (buy_price st) (buy_reason st)
                             (List.last (trade_date df) 0%Z) (iloc_last (close df))
                             EndOfBacktest]
  else trades st.

Definition backtest_trades (P : Params) (df : Frame) : list Trade :=
  close_at_end df (run_steps P df (frame_len df - 2)).

(** [backtest_strategy_realtime(...)]; [data] is [self.data]. *)
Definition backtest_strategy_realtime (P : Params) (data : option Frame) : BacktestResult :=
  match data with
  | None => NoData
  | Some df =>
      if (frame_len df =? 0)%nat then NoData
      else summarize (backtest_trades P df)
  end.

End FractalNotify.

(** ** Live monitor *)

Module Monitor.

Inductive AlertKind := BottomAlert | TopAlert.

(** One outward notification: which signal, and the pattern it reports. *)
Record Alert := mkAlert {
  a_kind : AlertKind;
  a_pattern : Pattern
}.

(** [last_bottom_date], [last_top_date] (first script);
    [last_signals[code]["bottom"]], [last_signals[code]["top"]] (second). *)
Record WatchState := mkWatch {
  last_bottom : option Date;
  last_top : option Date
}.

Definition watch_init : WatchState := {| last_bottom := None; last_top := None |}.

(** [patterns[-1]], when [patterns] is not empty *)
Definition last_pattern (patterns : list Pattern) : option Pattern :=
  List.last (map Some patterns) None.

(** [d != last], where [last] may still be [None] *)
Definition differs (d : Date) (last_date : option Date) : bool :=
  match last_date with
  | Some l => negb (d =? l)%Z
  | None => true
  end.

(** The block

      if patterns and patterns[-1]['date'] != last:
          last = patterns[-1]['date']
          if (now - pattern_date).days <= 3: notify

    It returns the new stored date and the pattern that was notified, if
    any. *)
Definition check_new_pattern (now : Date) (patterns : list Pattern)
    (last_date : option Date) : option Date * option Pattern :=
  match last_pattern patterns with
  | Some p =>
      if differs (p_date p) last_date then
        (Some (p_date p),
         if (now - p_date p <=? 3)%Z then Some p else None)
      else (last_date, None)
  | None => (last_date, None)
  end.

Definition alert_of (k : AlertKind) (sent : option Pattern) : list Alert :=
  match sent with Some p => [mkAlert k p] | None => [] end.

(** One pass of the body of [while True] for one instrument, from the frame
    returned by [get_data] on ([None]: the fetch failed; an empty frame is
    skipped as well).  The alerts are those passed to the notifier. *)
Definition check_instrument (now : Date) (data : option Frame) (w : WatchState)
  : WatchState * list Alert :=
  match data with
  | None => (w, [])
  | Some df =>
      if (frame_len df =? 0)%nat then (w, []) else
      let '(lb, sent_b) :=
        check_new_pattern now (Detector.identify_bottom_pattern df) (last_bottom w) in
      let '(lt, sent_t) :=
        check_new_pattern now (Detector.identify_top_pattern df) (last_top w) in
      ({| last_bottom := lb; last_top := lt |},
       alert_of BottomAlert sent_b ++ alert_of TopAlert sent_t)
  end.

(** [run_live_monitor]: the successive cycles of one instrument, each with
    the current day and the frame fetched in that cycle. *)
Fixpoint run_live_monitor (cycles : list (Date * option Frame)) (w : WatchState)
  : WatchState * list Alert :=
  match cycles with
  | [] => (w, [])
  | (now, data) :: rest =>
      let '(w1, out1) := check_instrument now data w in
      let '(w2, out2) := run_live_monitor rest w1 in
      (w2, out1 ++ out2)
  end.

(** [last_signals = {item["code"]: {"bottom": None, "top": None} for item in
     watchlist}] *)
Definition init_signals (watchlist : list string) : gmap string WatchState :=
  list_to_map (map (fun c => (c, watch_init)) watchlist).

(** The [for stock in watchlist] loop of one cycle of [run_multi_monitor];
    [fetch] gives the frame obtained for a code in this cycle.  A code
    missing from [last_signals] raises inside the per-instrument [try] and is
    skipped. *)
Fixpoint multi_cycle (now : Date) (fetch : string -> option Frame)
    (watchlist : list string) (signals : gmap string WatchState)
  : gmap string WatchState * list (string * Alert) :=
  match watchlist with
  | [] => (signals, [])
  | code :: rest =>
      match signals !! code with
      | None => multi_cycle now fetch rest signals
      | Some w =>
          let '(w', out) := check_instrument now (fetch code) w in
          let '(signals', outs) := multi_cycle now fetch rest (<[code := w']> signals) in
          (signals', map (fun a => (code, a)) out ++ outs)
      end
  end.

(** [run_multi_monitor]: the successive cycles over the watch-list, each
    with the current day and the frames fetched in that cycle, started from
    [last_signals] as initialised. *)
Fixpoint multi_cycles (cycles : list (Date * (string -> option Frame)))
    (watchlist : list string) (signals : gmap string WatchState)
  : gmap string WatchState * list (string * Alert) :=
  match cycles with
  | [] => (signals, [])
  | (now, fetch) :: rest =>
      let '(s1, out1) := multi_cycle now fetch watchlist signals in
      let '(s2, out2) := multi_cycles rest watchlist s1 in
      (s2, out1 ++ out2)
  end.

Definition run_multi_monitor (cycles : list (Date * (string -> option Frame)))
    (watchlist : list string) : gmap string WatchState * list (string * Alert) :=
  multi_cycles cycles watchlist (init_signals watchlist).

End Monitor.

(** ** Notions used by the statements *)

(** One confirmation factor of the score model: its condition as evaluated
    on a candidate, its weight, its label. *)
Record Factor := mkFactor {
  satisfied : bool;
  weight : Q;
  label : Reason
}.

Definition add_factor (f : Factor) (acc : Q * list Reason) : Q * list Reason :=
  bump (satisfied f) (weight f) (label f) acc.

(** The score and the reasons of a list of factors taken in order. *)
Definition score_factors (fs : list Factor) : Q * list Reason :=
  fold_left (fun acc f => add_factor f acc) fs (0%Q, []).

(** The factor table of a bottom candidate: weight, condition, label. *)
Definition bottom_factors (df : Frame) (i : nat) : list Factor :=
  [ mkFactor (Qlt_bool (iloc (open df) i) (iloc (close df) i)) 1 Yang;
    mkFactor ((0 <? i)%nat && Qlt_bool (iloc (vol df) (i - 1)) (iloc (vol df) i))
             1 FangLiang;
    mkFactor (lt_cell (iloc (close df) i) (iloc_nan (ma10 df) i)) 1 DownTrend;
    mkFactor (col_lt (rsi df) i 30) 2 RsiLow;
    mkFactor (le_col (iloc (low df) i) (bb_lower df) i) (3 # 2) BollLowerSupport;
    mkFactor (Detector.macd_bottom_cond df i) (3 # 2) MacdBottomReversal ].

(** The factor table of a top candidate. *)
Definition top_factors (df : Frame) (i : nat) : list Factor :=
  [ mkFactor (Qlt_bool (iloc (close df) i) (iloc (open df) i)) 1 Yin;
    mkFactor ((0 <? i)%nat && Qlt_bool (iloc (vol df) (i - 1)) (iloc (vol df) i))
             1 FangLiang;
    mkFactor (gt_cell (iloc (close df) i) (iloc_nan (ma10 df) i)) 1 UpTrend;
    mkFactor (col_gt (rsi df) i 70) 2 RsiHigh;
    mkFactor (ge_col (iloc (high df) i) (bb_upper df) i) (3 # 2) BollUpperResistance;
    mkFactor (Detector.macd_top_cond df i) (3 # 2) MacdTopTurn ].

(** The factor tables of the causal decisions of the first script: the
    conditions are read on [current_data] at [prev_idx]. *)
Definition causal_bottom_factors (cd : Frame) (p : nat) : list Factor :=
  [ mkFactor (Qlt_bool (iloc (open cd) p) (iloc (close cd) p)) 1 Yang;
    mkFactor (Qlt_bool (iloc (vol cd) (p - 1)) (iloc (vol cd) p)) 1 FangLiang;
    mkFactor (lt_cell (iloc (close cd) p) (iloc_nan (ma10 cd) p)) 1 DownTrend;
    mkFactor (col_lt (rsi cd) p 30) 2 RsiLow;
    mkFactor (le_col (iloc (low cd) p) (bb_lower cd) p) (3 # 2) BollLowerSupport;
    mkFactor (match macd cd, macd_hist cd with
              | Some m, Some h =>
                  Qlt_bool (iloc m p) 0 && Qlt_bool (iloc h (p - 1)) (iloc h p)
              | _, _ => false
              end) (3 # 2) MacdBottomReversal ].

Definition causal_top_factors (cd : Frame) (p : nat) : list Factor :=
  [ mkFactor (Qlt_bool (iloc (close cd) p) (iloc (open cd) p)) 1 Yin;
    mkFactor (Qlt_bool (iloc (vol cd) (p - 1)) (iloc (vol cd) p)) 1 FangLiang;
    mkFactor (gt_cell (iloc (close cd) p) (iloc_nan (ma10 cd) p)) 1 UpTrend;
    mkFactor (col_gt (rsi cd) p 70) 2 RsiHigh;
    mkFactor (ge_col (iloc (high cd) p) (bb_upper cd) p) (3 # 2) BollUpperResistance;
    mkFactor (match macd cd, macd_hist cd with
              | Some m, Some h =>
                  Qlt_bool 0 (iloc m p) && Qlt_bool (iloc h p) (iloc h (p - 1))
              | _, _ => false
              end) (3 # 2) MacdTopTurn ].

(** The weights of the factors whose condition holds. *)
Definition satisfied_weights (fs : list Factor) : list Q :=
  map weight (List.filter satisfied fs).

Definition satisfied_labels (fs : list Factor) : list Reason :=
  map label (List.filter satisfied fs).

(** The weights of the two score tables. *)
Definition table_weights : list Q := [1; 1; 1; 2; 3 # 2; 3 # 2]%Q.

(** The dictionary appended for index [i], given its score and reasons. *)
Definition bottom_entry (df : Frame) (i : nat) : Pattern :=
  {| p_date := date_at df i; p_price := iloc (close df) i;
     p_extreme := iloc (low df) i; p_volume := iloc (vol df) i;
     p_score := fst (Detector.bottom_score df i);
     p_reason := snd (Detector.bottom_score df i) |}.

Definition top_entry (df : Frame) (i : nat) : Pattern :=
  {| p_date := date_at df i; p_price := iloc (close df) i;
     p_extreme := iloc (high df) i; p_volume := iloc (vol df) i;
     p_score := fst (Detector.top_score df i);
     p_reason := snd (Detector.top_score df i) |}.

(** ** The averages as the specification words them

    Wilder's scheme as the specification describes [calculate_rsi]: the two
    averages are seeded from the first [period] deltas and then updated, one
    delta at a time, with the deltas that follow the seed.  The result lists
    the RSI after the seed and after each later delta. *)

Definition gain (d : Q) : Q := if Qlt_bool 0 d then d else 0%Q.

Definition loss (d : Q) : Q := if Qlt_bool d 0 then (- d)%Q else 0%Q.

Definition spec_seed_gain (period : nat) (deltas : list Q) : Q :=
  (Qsum (map gain (firstn period deltas)) / inject_Z (Z.of_nat period))%Q.

Definition spec_seed_loss (period : nat) (deltas : list Q) : Q :=
  (Qsum (map loss (firstn period deltas)) / inject_Z (Z.of_nat period))%Q.

Definition spec_rsi (prices : list Q) (period : nat) : list Q :=
  let deltas := diff prices in
  let g := spec_seed_gain period deltas in
  let l := spec_seed_loss period deltas in
  Indicators.rsi_value g l
  :: Indicators.rsi_loop (inject_Z (Z.of_nat period)) g l (skipn period deltas).

(** ** The two stop levels in binary64

    The stop tests of the scripts are evaluated in binary64.  [0.95] is the
    double nearest to 0.95, which is also the value of [1 - 5/100]. *)

Definition trailing_level_binary64 (highest_price : float) : float :=
  PrimFloat.mul highest_price 0x1.e666666666666p-1%float.

Definition stop_level_binary64 (buy_price stop_loss_pct : float) : float :=
  PrimFloat.mul buy_price (PrimFloat.sub 1 (PrimFloat.div stop_loss_pct 100)).



(** ** Concrete inputs *)

(** A square root for the concrete runs: the root of the reduced fraction,
    rounded down to nine decimals. *)
Definition sqrt_floor (x : Q) : Q :=
  let r := Qred x in
  (Z.sqrt (Qnum r * Zpos (Qden r) * 10 ^ 18) # (Qden r * 10 ^ 9)).

(** A bar whose prices are given in hundredths. *)
Definition bar (d : Date) (o h l c : Z) (v : Z) : Bar :=
  mkBar d (o # 100) (h # 100) (l # 100) (c # 100) (inject_Z v).

Arguments bar (d o h l c v)%_Z.

(** The defaults of the keyword arguments:
    [hold_days=10, use_stop_loss=True, stop_loss_pct=5,
     use_trailing_stop=True]. *)
Definition default_params : Params :=
  {| hold_days := 10; use_stop_loss := true; stop_loss_pct := 5;
     use_trailing_stop := true |}.

(** The three bars of the worked example of the specification. *)
Definition worked_bars : list Bar :=
  [ bar 1 1000 1100 900 1050 100;
    bar 2 1050 1060 950 980 90;
    bar 3 980 1020 960 1000 150 ].

(** Sixteen bars with a bottom fractal at index 2, and the same bars with
    bar 4 alone replaced. *)
Definition lookahead_head : list Bar :=
  [ bar 1 1050 1080 1030 1050 100;
    bar 2 1040 1060 1010 1020 100;
    bar 3 960 1000 950 990 120;
    bar 4 1005 1010 970 1000 130 ].

Definition lookahead_tail : list Bar :=
  [ bar 6 990 995 975 980 100;
    bar 7 980 985 965 970 100;
    bar 8 970 975 955 960 100;
    bar 9 960 965 945 950 100;
    bar 10 950 955 935 940 100;
    bar 11 940 945 925 930 100;
    bar 12 930 935 915 920 100;
    bar 13 920 925 905 910 100;
    bar 14 910 915 895 900 100;
    bar 15 900 905 885 890 100;
    bar 16 890 895 875 880 100 ].

Definition lookahead_bars : list Bar :=
  lookahead_head ++ [bar 5 1000 1005 980 990 100] ++ lookahead_tail.

Definition lookahead_bars_mutated : list Bar :=
  lookahead_head ++ [bar 5 1000 1210 990 1200 100] ++ lookahead_tail.

(** The sixteen bars above followed by five more: long enough for the
    Bollinger columns. *)
Definition warmup_bars : list Bar :=
  lookahead_bars
  ++ [ bar 17 880 885 865 870 100;
       bar 18 870 875 855 860 100;
       bar 19 860 865 845 850 100;
       bar 20 850 855 835 840 100;
       bar 21 840 845 825 830 100 ].

(** Sixteen closes: [+2, -1] seven times, then [-7]. *)
Definition rsi_seed_prices : list Q :=
  map inject_Z
      [100; 102; 101; 103; 102; 104; 103; 105; 104; 106; 105; 107; 106; 108; 107; 100]%Z.

(** Sixteen bars: a bottom at index 9, a top at index 10, a five-percent
    drop on bar 11, a second bottom at index 12. *)
Definition stale_exit_bars : list Bar :=
  [ bar 1 2000 2050 1950 2000 100;
    bar 2 2000 2050 1950 2000 100;
    bar 3 2000 2050 1950 2000 100;
    bar 4 2000 2050 1950 2000 100;
    bar 5 2000 2050 1950 2000 100;
    bar 6 2000 2050 1950 2000 100;
    bar 7 2000 2050 1950 2000 100;
    bar 8 2000 2050 1950 2000 100;
    bar 9 2000 2050 1950 2000 100;
    bar 10 1800 1900 1750 1850 150;
    bar 11 2100 2200 2000 2050 200;
    bar 12 2000 2020 1800 1850 100;
    bar 13 1700 1800 1650 1750 150;
    bar 14 1750 1850 1700 1800 100;
    bar 15 1800 1860 1780 1840 100;
    bar 16 1850 1900 1830 1880 100 ].

(** Fourteen bars: entry at 100 on bar 11, a peak of 101 on bar 12, a close
    of 90 on bar 13. *)
Definition stop_precedence_bars : list Bar :=
  [ bar 1 11000 11200 10800 11000 100;
    bar 2 11000 11200 10800 11000 100;
    bar 3 11000 11200 10800 11000 100;
    bar 4 11000 11200 10800 11000 100;
    bar 5 11000 11200 10800 11000 100;
    bar 6 11000 11200 10800 11000 100;
    bar 7 11000 11200 10800 11000 100;
    bar 8 11000 11200 10800 11000 100;
    bar 9 11000 11200 10800 11000 100;
    bar 10 9900 10400 9700 10100 150;
    bar 11 10100 10300 9900 10200 100;
    bar 12 10000 10050 9950 10000 100;
    bar 13 10000 10100 9980 10100 100;
    bar 14 10000 10050 8900 9000 100 ].

(** Fourteen bars: entry at 100 at the open of bar 12, a high and a close of
    120 on bar 13, and a last bar that closes at [last_close] hundredths. *)
Definition trailing_boundary_bars (last_close : Z) : list Bar :=
  [ bar 1 11000 11200 10800 11000 100;
    bar 2 11000 11200 10800 11000 100;
    bar 3 11000 11200 10800 11000 100;
    bar 4 11000 11200 10800 11000 100;
    bar 5 11000 11200 10800 11000 100;
    bar 6 11000 11200 10800 11000 100;
    bar 7 11000 11200 10800 11000 100;
    bar 8 11000 11200 10800 11000 100;
    bar 9 11000 11200 10800 11000 100;
    bar 10 9900 10400 9700 10100 150;
    bar 11 10100 10300 9900 10200 100;
    bar 12 10000 10050 9950 10000 100;
    bar 13 11000 12000 10900 12000 100;
    mkBar 14%Z 118%Q 119%Q 113%Q (last_close # 100)%Q 100%Q ].

(** Thirteen daily bars with a bottom at index 10, and the bar of the
    following day. *)
Definition monitor_history : list Bar :=
  [ bar 1 2000 2050 1950 2000 100;
    bar 2 2000 2050 1950 2000 100;
    bar 3 2000 2050 1950 2000 100;
    bar 4 2000 2050 1950 2000 100;
    bar 5 2000 2050 1950 2000 100;
    bar 6 2000 2050 1950 2000 100;
    bar 7 2000 2050 1950 2000 100;
    bar 8 2000 2050 1950 2000 100;
    bar 9 2000 2050 1950 2000 100;
    bar 10 1950 1980 1850 1900 100;
    bar 11 1750 1860 1700 1850 150;
    bar 12 1850 1900 1800 1820 100;
    bar 13 1760 1840 1720 1830 150 ].

Definition monitor_day14_early : list Bar :=
  monitor_history ++ [bar 14 1830 1850 1800 1840 50].

(** The rows that the provider returns for [start_date .. end_date], out of
    the bars [history] of an instrument. *)
Definition fetch_range (history : list Bar) (start_date end_date : Date) : list Bar :=
  List.filter (fun b => (start_date <=? b_date b)%Z && (b_date b <=? end_date)%Z) history.

(** One cycle of [run_live_monitor] on the day [now]: [end_date] is the day,
    [start_date] lies [days_back] days before it. *)
Definition poll (history : list Bar) (days_back : Z) (now : Date) : Date * option Frame :=
  (now, get_data sqrt_floor (fetch_range history (now - days_back)%Z now)).

(** Sixteen bars of a falling market around a holiday period (no bar on the
    days that are missing): bottoms at the bars dated 26 and 30. *)
Definition holiday_history : list Bar :=
  [ bar 1 2000 2010 1980 1990 100;
    bar 3 1990 2000 1960 1970 100;
    bar 5 1970 1980 1940 1950 100;
    bar 8 1950 1960 1920 1930 100;
    bar 10 1930 1940 1900 1910 100;
    bar 12 1910 1920 1880 1890 100;
    bar 15 1890 1900 1860 1870 100;
    bar 17 1870 1880 1840 1850 100;
    bar 19 1850 1860 1820 1830 100;
    bar 22 1830 1840 1800 1810 100;
    bar 24 1810 1820 1780 1790 100;
    bar 26 1750 1780 1740 1770 150;
    bar 29 1770 1775 1750 1760 100;
    bar 30 1730 1750 1720 1745 100;
    bar 31 1745 1750 1730 1735 100;
    bar 33 1735 1740 1715 1720 100 ].

(** The polls of the days 31, 32 and 33 with the default [days_back = 30]:
    every bar is fetched as it stands in [holiday_history]. *)
Definition holiday_cycles : list (Date * option Frame) :=
  map (poll holiday_history 30) [31; 32; 33]%Z.

(** Two successive polling cycles: day 13, then day 14. *)
Definition monitor_cycles : list (Date * option Frame) :=
  [ (13%Z, get_data sqrt_floor monitor_history);
    (14%Z, get_data sqrt_floor monitor_day14_early) ].

(** ** Where and why a trade was filled (first script)

    [exit_fill P df b f t]: the exit of trade [t], entered at bar [f], is
    justified inside the bars [0 .. b-1]: a top-pattern exit is filled at
    the open of the bar after a step [j >= f] at which the causal top decision
    fired; a stop-loss or trailing-stop exit is filled at the close of a bar
    [j >= f] on which its test holds ([high[m]] being the highest price
    recorded since the entry); the forced exit at the end of the data takes
    the last close. *)
Definition exit_fill (P : Params) (df : Frame) (b f : nat) (t : Trade) : Prop :=
  match t_sell_reason t with
  | TopPattern =>
      exists j s, (f <= j /\ j + 1 < b)%nat /\
                  Fractal.top_signal df j = Some s /\
                  t_sell_price t = iloc (open df) (j + 1) /\
                  t_sell_date t = date_at df (j + 1)
  | StopLoss pct =>
      pct = stop_loss_pct P /\ use_stop_loss P = true /\
      exists j, (f <= j /\ j < b)%nat /\
                t_sell_price t = iloc (close df) j /\
                t_sell_date t = date_at df j /\
                (iloc (close df) j <= t_buy_price t * (1 - pct / 100))%Q
  | TrailingStop =>
      use_trailing_stop P = true /\
      exists j m, (f < m /\ m <= j /\ j < b)%nat /\
                  t_sell_price t = iloc (close df) j /\
                  t_sell_date t = date_at df j /\
                  (t_buy_price t < iloc (high df) m)%Q /\
                  (iloc (close df) j <= iloc (high df) m * (95 # 100))%Q
  | EndOfBacktest =>
      t_sell_price t = iloc_last (close df) /\
      t_sell_date t = List.last (trade_date df) 0%Z
  | EmptyReason | MaxHold _ => False
  end.

(** [entry_fill df b e d p r]: the entry with date [d], price [p] and
    reasons [r] was filled at the open of bar [e+1 < b], after the causal
    bottom decision fired at step [e] with these reasons. *)
Definition entry_fill (df : Frame) (b e : nat) (d : option Date) (p : Q)
    (r : list Reason) : Prop :=
  (2 <= e /\ e + 1 < b)%nat /\
  (exists s, Fractal.bottom_signal df e = Some (s, r)) /\
  p = iloc (open df) (e + 1) /\
  d = Some (date_at df (e + 1)).

Definition good_trade (P : Params) (df : Frame) (b : nat) (t : Trade) : Prop :=
  exists e r, t_buy_reason t = Some r /\
              entry_fill df b e (t_buy_date t) (t_buy_price t) r /\
              exit_fill P df b (e + 1) t.

(** The loop invariant before the iteration of index [b]. *)
Record sim_inv (P : Params) (df : Frame) (b : nat) (st : Fractal.State) : Prop := {
  inv_pending_buy :
    Fractal.pending_buy_signal st = true ->
    Fractal.holding st = false /\
    exists j s, (2 <= j /\ j + 1 = b)%nat /\
                Fractal.bottom_signal df j = Some (s, Fractal.pending_buy_reason st);
  inv_pending_sell :
    Fractal.pending_sell_signal st = true ->
    Fractal.holding st = true /\
    Fractal.pending_sell_reason st = TopPattern /\
    exists j s, (2 <= j /\ j + 1 = b)%nat /\ Fractal.top_signal df j = Some s;
  inv_holding :
    Fractal.holding st = true ->
    exists e, entry_fill df b e (Fractal.buy_date st) (Fractal.buy_price st)
                         (Fractal.buy_reason st) /\
              (Fractal.highest_price st = Fractal.buy_price st \/
               exists m, (e + 1 < m /\ m < b)%nat /\
                         Fractal.highest_price st = iloc (high df) m);
  inv_trades : Forall (good_trade P df b) (Fractal.trades st)
}.

(** ** Notions for the monitor statements *)

Definition kind_eqb (a b : Monitor.AlertKind) : bool :=
  match a, b with
  | Monitor.BottomAlert, Monitor.BottomAlert => true
  | Monitor.TopAlert, Monitor.TopAlert => true
  | _, _ => false
  end.

(** The stored date of one kind of signal. *)
Definition stored (k : Monitor.AlertKind) (w : Monitor.WatchState) : option Date :=
  match k with
  | Monitor.BottomAlert => Monitor.last_bottom w
  | Monitor.TopAlert => Monitor.last_top w
  end.

(** The pattern list of one kind that a cycle works on. *)
Definition cycle_patterns (k : Monitor.AlertKind) (data : option Frame) : list Pattern :=
  match data with
  | Some df =>
      match k with
      | Monitor.BottomAlert => Detector.identify_bottom_pattern df
      | Monitor.TopAlert => Detector.identify_top_pattern df
      end
  | None => []
  end.

(** The date of the most recent pattern of a cycle, if it has one. *)
Definition latest_date (patterns : list Pattern) : option Date :=
  option_map p_date (Monitor.last_pattern patterns).

(** The dates of the most recent patterns over successive cycles (cycles
    without a pattern are skipped). *)
Definition latest_dates (k : Monitor.AlertKind) (cycles : list (Date * option Frame))
  : list Date :=
  flat_map (fun c => match latest_date (cycle_patterns k (snd c)) with
                     | Some d => [d]
                     | None => []
                     end) cycles.

(** The pattern dates of the alerts of one kind, in the order sent. *)
Definition alert_dates (k : Monitor.AlertKind) (out : list Monitor.Alert) : list Date :=
  map (fun a => p_date (Monitor.a_pattern a))
      (List.filter (fun a => kind_eqb (Monitor.a_kind a) k) out).

(** ** Notions for the statements about get_data *)

(** Ascending date order, as [sort_values('trade_date')] leaves the rows. *)
Definition date_le (a b : Bar) : Prop := (b_date a <= b_date b)%Z.

(** An optional column of a frame of [n] rows: it is there exactly when
    [present] holds, and then has [n] cells. *)
Definition col_aligned (n : nat) (present : bool) (col : option (list Q)) : Prop :=
  match col with
  | Some c => present = true /\ length c = n
  | None => present = false
  end.

(** Four bars as a provider may return them: newest first. *)
Definition unordered_bars : list Bar :=
  [ bar 4 1005 1010 970 1000 130;
    bar 3 960 1000 950 990 120;
    bar 2 1040 1060 1010 1020 100;
    bar 1 1050 1080 1030 1050 100 ].


(** ** The provider code and endpoint chosen by get_data

    The first lines of [get_data] (identical in both scripts) turn
    [self.stock_code] into the provider's [ts_code] and choose between the
    index and the stock endpoint.  Codes are ASCII, so that [len(code)] is
    the length of the string. *)

(** [s.startswith(p)] *)
Definition startswith (p s : string) : bool := String.prefix p s.

Definition ts_code (code : string) : string :=
  if startswith "399" code then String.append code ".SZ"
  else if startswith "000" code then
    if (String.length code =? 6)%nat then String.append code ".SZ"
    else String.append code ".SH"
  else if startswith "6" code then String.append code ".SH"
  else if (String.length code =? 6)%nat then
    if startswith "6" code then String.append code ".SH"
    else String.append code ".SZ"
  else code.

(** [pro.index_daily] or [pro.daily] *)
Inductive Endpoint := IndexDaily | Daily.

(** [if code.startswith('000') or code.startswith('399')], on the code that
    already carries its suffix. *)
Definition endpoint_of (ts : string) : Endpoint :=
  if startswith "000" ts || startswith "399" ts then IndexDaily else Daily.

(** The request sent for [self.stock_code]. *)
Definition provider_request (stock_code : string) : Endpoint * string :=
  (endpoint_of (ts_code stock_code), ts_code stock_code).


(** ** Trades on the bar axis

    [trade_span df t lo hi]: trade [t] was entered on bar [lo], at its date
    and open, and left on bar [hi >= lo], at its date and at its open or its
    close; the two derived fields of the dictionary are computed from these
    entries. *)
Definition trade_span (df : Frame) (t : Trade) (lo hi : nat) : Prop :=
  (lo <= hi /\ hi < frame_len df)%nat /\
  t_buy_date t = Some (date_at df lo) /\
  t_buy_price t = iloc (open df) lo /\
  t_sell_date t = date_at df hi /\
  (t_sell_price t = iloc (open df) hi \/ t_sell_price t = iloc (close df) hi) /\
  t_profit_pct t = profit_of (t_buy_price t) (t_sell_price t) /\
  t_hold_days t = (date_at df hi - date_at df lo)%Z.

(** [sequential df bound ts]: the trades [ts], latest first, lie on spans of
    bars below [bound], each span ending before the next one begins. *)
Fixpoint sequential (df : Frame) (bound : nat) (latest_first : list Trade) : Prop :=
  match latest_first with
  | [] => True
  | t :: earlier =>
      exists lo hi, trade_span df t lo hi /\ (hi < bound)%nat /\
                    sequential df lo earlier
  end.

(** The position and the trade list once the bars [0 .. b] are processed:
    an open position was entered on a bar [lo <= b], after every earlier
    trade was closed; without a position every trade was closed by bar
    [b]. *)
Definition span_inv (df : Frame) (b : nat) (holding : bool) (buy_date : option Date)
    (buy_price : Q) (trades : list Trade) : Prop :=
  if holding then
    exists lo, (lo <= b)%nat /\ buy_date = Some (date_at df lo) /\
               buy_price = iloc (open df) lo /\ sequential df lo (rev trades)
  else sequential df (b + 1) (rev trades).

Definition fractal_span_inv (df : Frame) (b : nat) (st : Fractal.State) : Prop :=
  span_inv df b (Fractal.holding st) (Fractal.buy_date st) (Fractal.buy_price st)
           (Fractal.trades st).

Definition notify_span_inv (df : Frame) (b : nat) (st : FractalNotify.State) : Prop :=
  span_inv df b (FractalNotify.holding st) (FractalNotify.buy_date st)
           (FractalNotify.buy_price st) (FractalNotify.trades st).


(** ** What the reason of an exit says about the trade

    [exit_respects_params P t]: a stop-loss exit carries the percentage of
    the run, was enabled, and sold at or below the stop level of the entry
    price; a trailing-stop exit was enabled; a maximum-holding exit carries
    the positive [hold_days] of the run and the position was held at least
    that many days; the empty reason is never recorded. *)
Definition exit_respects_params (P : Params) (t : Trade) : Prop :=
  match t_sell_reason t with
  | StopLoss pct =>
      pct = stop_loss_pct P /\ use_stop_loss P = true /\
      (t_sell_price t <= t_buy_price t * (1 - pct / 100))%Q
  | TrailingStop => use_trailing_stop P = true
  | MaxHold d => d = hold_days P /\ (0 < d)%Z /\ (d <= t_hold_days t)%Z
  | TopPattern | EndOfBacktest => True
  | EmptyReason => False
  end.


(** ** Entries of the second simulator

    [notify_entry df b d p r]: an entry with date [d], price [p] and reasons
    [r] was filled at the open of bar [e+1 < b], after the causal bottom
    decision of the second script fired at step [e >= 3] with these
    reasons. *)
Definition notify_entry (df : Frame) (b : nat) (d : option Date) (p : Q)
    (r : option (list Reason)) : Prop :=
  exists e s reasons,
    (3 <= e /\ e + 1 < b)%nat /\
    FractalNotify.bottom_signal df e = Some (s, reasons) /\
    r = Some reasons /\
    d = Some (date_at df (e + 1)) /\
    p = iloc (open df) (e + 1).

Definition notify_trade_entry (df : Frame) (b : nat) (t : Trade) : Prop :=
  notify_entry df b (t_buy_date t) (t_buy_price t) (t_buy_reason t).

(** The loop invariant before the iteration of index [b]. *)
Record notify_inv (df : Frame) (b : nat) (st : FractalNotify.State) : Prop := {
  ni_pending_buy :
    FractalNotify.pending_buy_signal st = true ->
    FractalNotify.holding st = false /\
    exists j s reasons,
      (3 <= j /\ j + 1 = b)%nat /\
      FractalNotify.bottom_signal df j = Some (s, reasons) /\
      FractalNotify.pending_buy_reason st = Some reasons;
  ni_holding :
    FractalNotify.holding st = true ->
    notify_entry df b (FractalNotify.buy_date st) (FractalNotify.buy_price st)
                 (FractalNotify.buy_reason st);
  ni_trades : Forall (notify_trade_entry df b) (FractalNotify.trades st)
}.


(** ** The backtest method of the first script, from the object state on

    [backtest_strategy_realtime] of [底分型.py] starts with

      if self.data is None: self.get_data()
      df = self.data.copy()

    [get_data] sets [self.data] only when it succeeds, so that [.copy()] is
    called on [None] and raises [AttributeError] after a failed fetch: the
    result is [None] then.  [data] is [self.data] at the call, [refetch]
    what a call of [get_data] would build. *)
Definition fractal_backtest_method (P : Params) (data refetch : option Frame)
  : option BacktestResult :=
  let data' := match data with Some df => Some df | None => refetch end in
  option_map (Fractal.backtest_strategy_realtime P) data'.


(** ** The polling window of run_multi_monitor

    Each pass of [while True] reads [datetime.datetime.now()] and runs the
    [for stock in watchlist] loop only inside the trading hours or inside the
    forced check of the morning. *)

(** The fields of [current_time] that the test reads; [weekday] is 0 on
    Monday. *)
Record Clock := mkClock {
  hour : Z;
  minute : Z;
  weekday : Z
}.

Definition is_trading_hours (t : Clock) : bool :=
  (9 <=? hour t)%Z && (hour t <=? 15)%Z
  && (negb (hour t =? 9)%Z || (30 <=? minute t)%Z)
  && (negb (hour t =? 15)%Z || (minute t =? 0)%Z)
  && (weekday t <? 5)%Z.

Definition force_check (t : Clock) : bool :=
  (hour t =? 8)%Z && (0 <=? minute t)%Z && (minute t <? 10)%Z.

(** One pass of [while True] at clock [t]. *)
Definition monitor_tick (t : Clock) (now : Date) (fetch : string -> option Frame)
    (watchlist : list string) (signals : gmap string Monitor.WatchState)
  : gmap string Monitor.WatchState * list (string * Monitor.Alert) :=
  if is_trading_hours t || force_check t
  then Monitor.multi_cycle now fetch watchlist signals
  else (signals, []).

(** Minutes since midnight. *)
Definition minute_of_day (t : Clock) : Z := (60 * hour t + minute t)%Z.


(** ** ConfigManager ([底分型微信通知.py])

    The configuration is the JSON value kept in [config.json].  A Python
    dictionary is a finite map from strings, a list a list.  [json.load]
    after [json.dump] gives back the value that was written. *)

Module Config.

#[warnings="-register-all"]
Inductive Json :=
| JNull
| JBool (b : bool)
| JNum (q : Q)
| JStr (s : string)
| JList (l : list Json)
| JObj (m : gmap string Json).

(** [config.json] on disk: missing, holding the dump of a value, or there
    but failing to open or to parse. *)
Inductive FileState :=
| Absent
| Holds (j : Json)
| Unreadable.

(** What the class methods read and write: the file, whether it can be
    written, and the class attribute [DEFAULT_CONFIG], a dictionary object
    that the methods can reach and mutate. *)
Record World := mkWorld {
  file : FileState;
  writable : bool;
  default_config : Json
}.

(** The object that [load_config] returns: a fresh value parsed from the
    file, or the object [cls.DEFAULT_CONFIG] itself. *)
Inductive Ref :=
| Loaded (j : Json)
| TheDefault.

(** The literal bound to [DEFAULT_CONFIG] in the class body. *)
Definition DEFAULT_CONFIG : Json :=
  JObj (list_to_map
    [ ("api_settings"%string, JObj (list_to_map [("tushare_token"%string, JStr "")]));
      ("serverchan_settings"%string, JObj (list_to_map [("sckey"%string, JStr "")]));
      ("wechat_settings"%string,
       JObj (list_to_map [("corp_id"%string, JStr ""); ("corp_secret"%string, JStr "");
                          ("agent_id"%string, JStr "")]));
      ("monitoring"%string,
       JObj (list_to_map
         [ ("check_interval"%string, JNum 60);
           ("days_back"%string, JNum 30);
           ("watchlist"%string,
            JList [JObj (list_to_map [("code"%string, JStr "399300");
                                      ("name"%string, JStr "沪深300");
                                      ("type"%string, JStr "index")])]) ])) ]).

(** [save_config(config)]: [True] and the file holds the dump, or [False]
    and nothing changed. *)
Definition save_config (config : Json) (w : World) : bool * World :=
  if writable w
  then (true, {| file := Holds config; writable := writable w;
                 default_config := default_config w |})
  else (false, w).

(** [load_config()] *)
Definition load_config (w : World) : Ref * World :=
  match file w with
  | Holds j => (Loaded j, w)
  | Absent => (TheDefault, snd (save_config (default_config w) w))
  | Unreadable => (TheDefault, w)
  end.

(** The value of the object [r]. *)
Definition deref (r : Ref) (w : World) : Json :=
  match r with
  | Loaded j => j
  | TheDefault => default_config w
  end.

(** The object [r] mutated in place into [j]: visible to later calls only
    when [r] is the class attribute. *)
Definition mutate (r : Ref) (j : Json) (w : World) : World :=
  match r with
  | Loaded _ => w
  | TheDefault => {| file := file w; writable := writable w; default_config := j |}
  end.

(** [config_path.split('.')]: never empty. *)
Fixpoint split_from (cur : string) (s : string) : list string :=
  match s with
  | EmptyString => [cur]
  | String c s' =>
      if String.eqb (String c EmptyString) "."
      then cur :: split_from EmptyString s'
      else split_from (String.append cur (String c EmptyString)) s'
  end.

Definition split_dot (s : string) : list string := split_from EmptyString s.

(** The loop over [paths[:-1]] followed by [target[paths[-1]] = value], on
    the object [target]; [None] when an operation on a value that is not a
    dictionary raises [TypeError].  Nothing is mutated before such an
    error: a dictionary created on the way has only dictionaries below
    it. *)
Fixpoint set_path (init : list string) (final : string) (value : Json) (target : Json)
  : option Json :=
  match target with
  | JObj m =>
      match init with
      | [] => Some (JObj (<[final := value]> m))
      | path :: rest =>
          let child := match m !! path with Some j => j | None => JObj ∅ end in
          match set_path rest final value child with
          | Some child' => Some (JObj (<[path := child']> m))
          | None => None
          end
      end
  | _ => None
  end.

(** [update_config(config_path, value)]: the returned object, if no
    exception escapes, and the world afterwards. *)
Definition update_config (config_path : string) (value : Json) (w : World)
  : option Json * World :=
  let '(r, w1) := load_config w in
  let paths := split_dot config_path in
  match set_path (removelast paths) (List.last paths EmptyString) value (deref r w1) with
  | Some config =>
      let w2 := mutate r config w1 in
      (Some config, snd (save_config config w2))
  | None => (None, w1)
  end.

(** [item.get("code") == code] on a dictionary [item] *)
Definition has_code (code : string) (item : gmap string Json) : bool :=
  match item !! "code"%string with
  | Some (JStr s) => String.eqb s code
  | _ => false
  end.

(** The loop [for item in watchlist: if item.get("code") == code: return]:
    [Some true] when an item with the code is met, [Some false] when the loop
    ends without, [None] when [item.get] raises on an item that is not a
    dictionary. *)
Fixpoint find_code (code : string) (watchlist : list Json) : option bool :=
  match watchlist with
  | [] => Some false
  | JObj item :: rest => if has_code code item then Some true else find_code code rest
  | _ :: _ => None
  end.

Definition new_item (code name type : string) : Json :=
  JObj (list_to_map [("code"%string, JStr code); ("name"%string, JStr name);
                     ("type"%string, JStr type)]).

(** [add_watchlist_item(code, name, type)].  The two missing-key repairs
    only create empty containers, on which nothing below can raise. *)
Definition add_watchlist_item (code name type : string) (w : World)
  : option Json * World :=
  let '(r, w1) := load_config w in
  match deref r w1 with
  | JObj m =>
      let monitoring := match m !! "monitoring"%string with
                        | Some j => j | None => JObj ∅ end in
      match monitoring with
      | JObj mon =>
          let watchlist := match mon !! "watchlist"%string with
                           | Some j => j | None => JList [] end in
          match watchlist with
          | JList items =>
              match find_code code items with
              | Some true =>
                  (* found: the object is returned as it was loaded *)
                  (Some (JObj m), w1)
              | Some false =>
                  let config :=
                    JObj (<["monitoring"%string :=
                             JObj (<["watchlist"%string :=
                                      JList (items ++ [new_item code name type])]> mon)]> m) in
                  let w2 := mutate r config w1 in
                  (Some config, snd (save_config config w2))
              | None => (None, w1)
              end
          | _ => (None, w1)
          end
      | _ => (None, w1)
      end
  | _ => (None, w1)
  end.

(** [p in s] on strings *)
Fixpoint is_substring (p s : string) : bool :=
  String.prefix p s
  || match s with
     | EmptyString => false
     | String _ s' => is_substring p s'
     end.

(** [key in x]; [None] when [x] is not a container. *)
Definition py_in (key : string) (x : Json) : option bool :=
  match x with
  | JObj m => Some (bool_decide (is_Some (m !! key)))
  | JList l =>
      Some (existsb (fun y => match y with JStr s => String.eqb s key | _ => false end) l)
  | JStr s => Some (is_substring key s)
  | _ => None
  end.

(** The items visited by [[item for item in watchlist if item.get("code") !=
    code]], as dictionaries; [None] when [len], the iteration or [item.get]
    raises.  An empty dictionary and an empty string are empty iterables. *)
Fixpoint as_dicts (l : list Json) : option (list (gmap string Json)) :=
  match l with
  | [] => Some []
  | JObj item :: rest => option_map (cons item) (as_dicts rest)
  | _ :: _ => None
  end.

Definition iter_items (watchlist : Json) : option (list (gmap string Json)) :=
  match watchlist with
  | JList l => as_dicts l
  | JObj m => if bool_decide (m = ∅) then Some [] else None
  | JStr s => if String.eqb s EmptyString then Some [] else None
  | _ => None
  end.

(** [remove_watchlist_item(code)] *)
Definition remove_watchlist_item (code : string) (w : World) : option Json * World :=
  let '(r, w1) := load_config w in
  let config := deref r w1 in
  match py_in "monitoring" config with
  | None => (None, w1)
  | Some false => (Some config, w1)
  | Some true =>
      match config with
      | JObj m =>
          match m !! "monitoring"%string with
          | Some monitoring =>
              match py_in "watchlist" monitoring with
              | None => (None, w1)
              | Some false => (Some config, w1)
              | Some true =>
                  match monitoring with
                  | JObj mon =>
                      match mon !! "watchlist"%string with
                      | Some watchlist =>
                          match iter_items watchlist with
                          | Some items =>
                              let kept := List.filter (fun it => negb (has_code code it)) items in
                              let config' :=
                                JObj (<["monitoring"%string :=
                                         JObj (<["watchlist"%string :=
                                                  JList (map JObj kept)]> mon)]> m) in
                              let w2 := mutate r config' w1 in
                              if (length kept <? length items)%nat
                              then (Some config', snd (save_config config' w2))
                              else (Some config', w2)
                          | None => (None, w1)
                          end
                      | None => (None, w1)
                      end
                  | _ => (None, w1)   (* [monitoring["watchlist"]] on a list or a string *)
                  end
              end
          | None => (None, w1)
          end
      | _ => (None, w1)               (* [config["monitoring"]] on a list or a string *)
      end
  end.

End Config.

(** ** Notions for the statements about the configuration *)

(** The value at [key] of a dictionary. *)
Definition json_get (key : string) (j : Config.Json) : option Config.Json :=
  match j with
  | Config.JObj m => m !! key
  | _ => None
  end.

(** The value found by following [keys] through nested dictionaries. *)
Fixpoint json_at (keys : list string) (j : Config.Json) : option Config.Json :=
  match keys with
  | [] => Some j
  | k :: rest =>
      match json_get k j with
      | Some child => json_at rest child
      | None => None
      end
  end.

(** The watch-list of a configuration whose ["monitoring"]["watchlist"] is
    a list of dictionaries. *)
Definition watchlist_of (config : Config.Json) : option (list (gmap string Config.Json)) :=
  match json_at ["monitoring"%string; "watchlist"%string] config with
  | Some (Config.JList l) => Config.as_dicts l
  | _ => None
  end.

(** A world whose file holds [config]. *)
Definition world_with (config : Config.Json) (can_write : bool) : Config.World :=
  Config.mkWorld (Config.Holds config) can_write Config.DEFAULT_CONFIG.

(** The dictionary appended by [add_watchlist_item]. *)
Definition new_item_dict (code name type : string) : gmap string Config.Json :=
  list_to_map [("code"%string, Config.JStr code); ("name"%string, Config.JStr name);
               ("type"%string, Config.JStr type)].

(** The world after a successful save of [config]. *)
Definition saved (config : Config.Json) (w : Config.World) : Config.World :=
  Config.mkWorld (Config.Holds config) (Config.writable w) (Config.default_config w).


(** ** WeChatNotifier (both scripts)

    The methods read the clock once and talk to the messaging service by
    [requests.get] and [requests.post]; [response.json()] gives any JSON
    value, and either step may raise, which the methods catch. *)

Module WeChat.

Import Config.

(** [bool(x)] on a parsed JSON value; [JNull] is [None]. *)
Definition truthy (j : Json) : bool :=
  match j with
  | JNull => false
  | JBool b => b
  | JNum q => negb (Qeq_bool q 0)
  | JStr s => negb (String.eqb s EmptyString)
  | JList l => match l with [] => false | _ :: _ => true end
  | JObj m => negb (bool_decide (m = ∅))
  end.

(** [bool(x)] on a setting that is [None] or a string. *)
Definition truthy_str (x : option string) : bool :=
  match x with
  | Some s => negb (String.eqb s EmptyString)
  | None => false
  end.

(** [a or b] on such settings *)
Definition py_or (a b : option string) : option string :=
  if truthy_str a then a else b.

Record Notifier := mkNotifier {
  corp_id : option string;
  corp_secret : option string;
  agent_id : option string;
  token : Json;
  token_expires_time : Q;
  enabled : bool
}.

(** [__init__] of [底分型.py]: the three arguments, and the three environment
    variables read by [os.environ.get]. *)
Definition init (corp_id corp_secret agent_id : option string)
    (env_corp_id env_corp_secret env_agent_id : option string) : Notifier :=
  let c := py_or corp_id env_corp_id in
  let s := py_or corp_secret env_corp_secret in
  let a := py_or agent_id env_agent_id in
  {| corp_id := c; corp_secret := s; agent_id := a;
     token := JNull; token_expires_time := 0;
     enabled := truthy_str c && truthy_str s && truthy_str a |}.

(** The requests a method issues, with what the URL and the body carry of
    the notifier and of the arguments. *)
Inductive Request :=
| GetToken (corpid corpsecret : option string)
| PostMessage (access_token : Json) (agentid : option string)
              (color title content : string).

(** The service in one method call: [None] when the request or the parsing
    of its answer raises. *)
Definition Net := Request -> option Json.

(** [x == 0] on a parsed JSON value ([False == 0] holds in Python). *)
Definition eq_zero (j : Json) : bool :=
  match j with
  | JNum q => Qeq_bool q 0
  | JBool b => negb b
  | _ => false
  end.

(** [response_json.get(key)]; the outer [None] when the answer is not a
    dictionary and [.get] raises. *)
Definition get (key : string) (response_json : Json) : option Json :=
  match response_json with
  | JObj m => Some (match m !! key with Some v => v | None => JNull end)
  | _ => None
  end.

(** [response_json.get("errcode") == 0] *)
Definition errcode_ok (response_json : Json) : option bool :=
  option_map eq_zero (get "errcode" response_json).

(** The number added in [current_time + x - 200]; [None] when the addition
    raises [TypeError]. *)
Definition as_number (x : Json) : option Q :=
  match x with
  | JNum q => Some q
  | JBool b => Some (if b then 1 else 0)%Q
  | _ => None
  end.

(** [get_token()], with [current_time] the value of [time.time()]: the
    notifier afterwards, the returned value and the requests issued. *)
Definition get_token (current_time : Q) (net : Net) (n : Notifier)
  : Notifier * Json * list Request :=
  if negb (enabled n) then (n, JNull, []) else
  if truthy (token n) && Qlt_bool current_time (token_expires_time n)
  then (n, token n, [])
  else
    let r := GetToken (corp_id n) (corp_secret n) in
    match net r with
    | None => (n, JNull, [r])
    | Some response_json =>
        match errcode_ok response_json with
        | Some true =>
            let tok := match get "access_token" response_json with
                       | Some v => v | None => JNull end in
            let n1 := {| corp_id := corp_id n; corp_secret := corp_secret n;
                         agent_id := agent_id n; token := tok;
                         token_expires_time := token_expires_time n;
                         enabled := enabled n |} in
            match get "expires_in" response_json ≫= as_number with
            | Some e =>
                ({| corp_id := corp_id n; corp_secret := corp_secret n;
                    agent_id := agent_id n; token := tok;
                    token_expires_time := current_time + e - 200;
                    enabled := enabled n |}, tok, [r])
            | None => (n1, JNull, [r])   (* raised after [self.token] was set *)
            end
        | _ => (n, JNull, [r])
        end
    end.

(** [{"info": ..., "warning": ..., "error": ...}.get(level, "#10aeff")] *)
Definition color_of (level : string) : string :=
  if String.eqb level "info" then "#10aeff"
  else if String.eqb level "warning" then "#ffc300"
  else if String.eqb level "error" then "#ff0000"
  else "#10aeff".

(** [send_notification(title, content, level)].  The time stamp appended to
    the message is left out of the request. *)
Definition send_notification (title content level : string)
    (current_time : Q) (net : Net) (n : Notifier) : Notifier * bool * list Request :=
  if negb (enabled n) then (n, false, []) else
  let '(n1, tok, reqs) := get_token current_time net n in
  if negb (truthy tok) then (n1, false, reqs) else
  let r := PostMessage tok (agent_id n1) (color_of level) title content in
  (n1,
   match net r ≫= errcode_ok with
   | Some true => true
   | _ => false
   end,
   reqs ++ [r]).

End WeChat.

(** One call of [send_notification]: its arguments, the time at which it
    runs and the service as it answers during the call. *)
Record SendCall := mkSendCall {
  sc_title : string;
  sc_content : string;
  sc_level : string;
  sc_time : Q;
  sc_net : WeChat.Net
}.

(** Successive calls of [send_notification] on one notifier: the notifier
    at the end, the value returned by each call and all requests issued. *)
Fixpoint send_all (calls : list SendCall) (n : WeChat.Notifier)
  : WeChat.Notifier * list bool * list WeChat.Request :=
  match calls with
  | [] => (n, [], [])
  | c :: rest =>
      let '(n1, ok, reqs) :=
        WeChat.send_notification (sc_title c) (sc_content c) (sc_level c)
                                 (sc_time c) (sc_net c) n in
      let '(n2, oks, reqs') := send_all rest n1 in
      (n2, ok :: oks, reqs ++ reqs')
  end.

(** Whether the answer to a request reports [errcode == 0]. *)
Definition accepted (net : WeChat.Net) (r : WeChat.Request) : bool :=
  match net r ≫= WeChat.errcode_ok with
  | Some true => true
  | _ => false
  end.

(** The message request of a call made with the token [tok]. *)
Definition post_of (tok : Config.Json) (n : WeChat.Notifier) (c : SendCall)
  : WeChat.Request :=
  WeChat.PostMessage tok (WeChat.agent_id n) (WeChat.color_of (sc_level c))
                     (sc_title c) (sc_content c).

Definition is_post (r : WeChat.Request) : bool :=
  match r with WeChat.PostMessage _ _ _ _ _ => true | _ => false end.

(** The settings of a notifier, which no method changes. *)
Definition same_settings (n n1 : WeChat.Notifier) : Prop :=
  WeChat.corp_id n1 = WeChat.corp_id n /\ WeChat.corp_secret n1 = WeChat.corp_secret n /\
  WeChat.agent_id n1 = WeChat.agent_id n /\ WeChat.enabled n1 = WeChat.enabled n.

(** A request that an enabled notifier [n] may issue: a token request with
    its credentials, or a message with its agent and a token that is not
    empty. *)
Definition request_of (n : WeChat.Notifier) (r : WeChat.Request) : Prop :=
  WeChat.enabled n = true /\
  match r with
  | WeChat.GetToken c s => c = WeChat.corp_id n /\ s = WeChat.corp_secret n
  | WeChat.PostMessage tok a _ _ _ => WeChat.truthy tok = true /\ a = WeChat.agent_id n
  end.

(** The number of [True] among returned values. *)
Definition count_true (l : list bool) : nat := length (List.filter (fun b => b) l).

(** A configured notifier, and an answer of the service to its token
    request, for the examples. *)
Definition example_notifier : WeChat.Notifier :=
  WeChat.init (Some "ww1"%string) (Some "secret"%string) (Some "1000002"%string)
              None None None.

Definition token_answer : Config.Json :=
  Config.JObj (list_to_map [("errcode"%string, Config.JNum 0);
                            ("access_token"%string, Config.JStr "tok");
                            ("expires_in"%string, Config.JNum 7200)]).

(** * Properties *)

(** ** Sums of factor weights *)

Lemma Qlt_bool_iff (x y : Q) : Qlt_bool x y = true <-> (x < y)%Q.
Proof.
  unfold Qlt_bool. rewrite negb_true_iff. split.
  - intros H. apply Qnot_le_lt. intros Hle.
    apply Qle_bool_iff in Hle. congruence.
  - intros H. destruct (Qle_bool y x) eqn:E; [|reflexivity].
    apply Qle_bool_iff in E. exfalso. apply (Qlt_not_le _ _ H E).
Qed.

Lemma Qlt_bool_false_iff (x y : Q) : Qlt_bool x y = false <-> (y <= x)%Q.
Proof.
  unfold Qlt_bool. rewrite negb_false_iff. apply Qle_bool_iff.
Qed.

Lemma Qle_bool_false_iff (x y : Q) : Qle_bool x y = false <-> (y < x)%Q.
Proof.
  rewrite <- Qlt_bool_iff. unfold Qlt_bool.
  destruct (Qle_bool x y); simpl; split; congruence.
Qed.

Lemma fold_Qplus_shift (l : list Q) (a : Q) :
  (fold_left Qplus l a == a + Qsum l)%Q.
Proof.
  unfold Qsum. revert a. induction l as [|x l IH]; intros a; simpl.
  - ring.
  - rewrite (IH (a + x)%Q), (IH (0 + x)%Q). ring.
Qed.

Lemma Qsum_cons (x : Q) (l : list Q) : (Qsum (x :: l) == x + Qsum l)%Q.
Proof.
  unfold Qsum at 1. simpl. rewrite fold_Qplus_shift. ring.
Qed.

Lemma Qsum_app (l1 l2 : list Q) : (Qsum (l1 ++ l2) == Qsum l1 + Qsum l2)%Q.
Proof.
  induction l1 as [|x l1 IH]; simpl.
  - unfold Qsum at 2. simpl. ring.
  - rewrite !Qsum_cons, IH. ring.
Qed.

Lemma Qsum_perm (l1 l2 : list Q) :
  Permutation l1 l2 -> (Qsum l1 == Qsum l2)%Q.
Proof.
  induction 1 as [|x l l' _ IH|x y l|l l' l'' _ IH1 _ IH2].
  - reflexivity.
  - rewrite !Qsum_cons, IH. reflexivity.
  - rewrite !Qsum_cons. ring.
  - rewrite IH1. exact IH2.
Qed.

Lemma fold_add_factor (fs : list Factor) (a : Q) (r : list Reason) :
  fold_left (fun acc f => add_factor f acc) fs (a, r)
  = (fold_left Qplus (satisfied_weights fs) a, r ++ satisfied_labels fs).
Proof.
  revert a r. induction fs as [|f fs IH]; intros a r.
  - simpl. now rewrite app_nil_r.
  - simpl. unfold add_factor at 2, bump, satisfied_weights, satisfied_labels. simpl.
    destruct (satisfied f); simpl.
    + rewrite IH. unfold satisfied_weights, satisfied_labels.
      now rewrite <- app_assoc.
    + apply IH.
Qed.

Lemma score_factors_spec (fs : list Factor) :
  score_factors fs = (Qsum (satisfied_weights fs), satisfied_labels fs).
Proof.
  unfold score_factors. now rewrite fold_add_factor.
Qed.

Lemma satisfied_weights_perm (fs gs : list Factor) :
  Permutation fs gs -> Permutation (satisfied_weights fs) (satisfied_weights gs).
Proof.
  intros H. unfold satisfied_weights. apply Permutation_map.
  induction H as [|x l l' _ IH|x y l|l l' l'' _ IH1 _ IH2]; simpl.
  - constructor.
  - destruct (satisfied x); [now constructor|exact IH].
  - destruct (satisfied x), (satisfied y); try reflexivity. apply perm_swap.
  - now transitivity (List.filter satisfied l').
Qed.

Lemma score_perm (fs gs : list Factor) :
  Permutation fs gs -> (fst (score_factors fs) == fst (score_factors gs))%Q.
Proof.
  intros H. rewrite !score_factors_spec. simpl.
  apply Qsum_perm, satisfied_weights_perm, H.
Qed.

Lemma score_add_satisfied (fs : list Factor) (f : Factor) :
  satisfied f = true ->
  (fst (score_factors (fs ++ [f])) == fst (score_factors fs) + weight f)%Q.
Proof.
  intros Hs. rewrite !score_factors_spec. simpl.
  unfold satisfied_weights. rewrite List.filter_app, List.map_app. simpl. rewrite Hs. simpl.
  rewrite Qsum_app. unfold Qsum at 2. simpl. ring.
Qed.

(** The sequences of [if] statements compute the score of their table. *)
Lemma bottom_score_table (df : Frame) (i : nat) :
  Detector.bottom_score df i = score_factors (bottom_factors df i).
Proof. reflexivity. Qed.

Lemma top_score_table (df : Frame) (i : nat) :
  Detector.top_score df i = score_factors (top_factors df i).
Proof. reflexivity. Qed.

Lemma causal_bottom_score_table (cd : Frame) (p : nat) :
  Fractal.causal_bottom_score cd p = score_factors (causal_bottom_factors cd p).
Proof. reflexivity. Qed.

Lemma bump_score_fst (c : bool) (w : Q) (l : Reason) (acc : Q * list Reason) :
  bump_score c w (fst acc) = fst (bump c w l acc).
Proof. now destruct c. Qed.

Lemma causal_top_score_table (cd : Frame) (p : nat) :
  Fractal.causal_top_score cd p = fst (score_factors (causal_top_factors cd p)).
Proof.
  unfold Fractal.causal_top_score, score_factors, causal_top_factors.
  cbn [fold_left]. unfold add_factor. cbn [satisfied weight label].
  rewrite <- !bump_score_fst. reflexivity.
Qed.

(** Away from the first row the causal conditions are those of the batch
    detector. *)
Lemma causal_bottom_factors_batch (cd : Frame) (p : nat) :
  (0 < p)%nat -> causal_bottom_factors cd p = bottom_factors cd p.
Proof.
  intros Hp. unfold causal_bottom_factors, bottom_factors, Detector.macd_bottom_cond.
  apply Nat.ltb_lt in Hp. rewrite Hp.
  destruct (macd cd), (macd_hist cd); simpl; try reflexivity.
  now rewrite andb_true_r.
Qed.

Lemma causal_top_factors_batch (cd : Frame) (p : nat) :
  (0 < p)%nat -> causal_top_factors cd p = top_factors cd p.
Proof.
  intros Hp. unfold causal_top_factors, top_factors, Detector.macd_top_cond.
  apply Nat.ltb_lt in Hp. rewrite Hp.
  destruct (macd cd), (macd_hist cd); simpl; try reflexivity.
  now rewrite andb_true_r.
Qed.

(** ** Emission by the batch detector *)

Lemma in_collect (body : nat -> option Pattern) (idxs : list nat) (p : Pattern) :
  In p (Detector.collect body idxs) <-> exists i, In i idxs /\ body i = Some p.
Proof.
  induction idxs as [|i idxs IH]; simpl.
  - split; [tauto|]. intros (i & [] & _).
  - destruct (body i) eqn:E; simpl; rewrite IH; split.
    + intros [->|(j & Hj & Hb)]; [exists i; auto|exists j; auto].
    + intros (j & [->|Hj] & Hb); [left; congruence|right; exists j; auto].
    + intros (j & Hj & Hb). exists j; auto.
    + intros (j & [->|Hj] & Hb); [congruence|exists j; auto].
Qed.

Lemma in_scan_range (df : Frame) (i : nat) :
  In i (Detector.scan_range df) <-> (1 <= i /\ i + 1 < frame_len df)%nat.
Proof.
  unfold Detector.scan_range. rewrite List.in_seq. lia.
Qed.

Lemma bottom_pattern_at_spec (df : Frame) (i : nat) (p : Pattern) :
  Detector.bottom_pattern_at df i = Some p <->
  Detector.is_bottom_fractal df i = true /\
  (3 <= fst (Detector.bottom_score df i))%Q /\
  p = bottom_entry df i.
Proof.
  unfold Detector.bottom_pattern_at, bottom_entry.
  destruct (Detector.is_bottom_fractal df i); [|split; [discriminate|intros [? _]; discriminate]].
  destruct (Detector.bottom_score df i) as [s r]. simpl.
  destruct (Qle_bool 3 s) eqn:E.
  - apply Qle_bool_iff in E. split; [intros [= <-]; auto|intros (_ & _ & ->); reflexivity].
  - apply Qle_bool_false_iff in E. split; [discriminate|].
    intros (_ & H & _). exfalso. apply (Qlt_not_le _ _ E H).
Qed.

Lemma top_pattern_at_spec (df : Frame) (i : nat) (p : Pattern) :
  Detector.top_pattern_at df i = Some p <->
  Detector.is_top_fractal df i = true /\
  (3 <= fst (Detector.top_score df i))%Q /\
  p = top_entry df i.
Proof.
  unfold Detector.top_pattern_at, top_entry.
  destruct (Detector.is_top_fractal df i); [|split; [discriminate|intros [? _]; discriminate]].
  destruct (Detector.top_score df i) as [s r]. simpl.
  destruct (Qle_bool 3 s) eqn:E.
  - apply Qle_bool_iff in E. split; [intros [= <-]; auto|intros (_ & _ & ->); reflexivity].
  - apply Qle_bool_false_iff in E. split; [discriminate|].
    intros (_ & H & _). exfalso. apply (Qlt_not_le _ _ E H).
Qed.

(** Turning conditions on (same table, more conditions holding) never
    lowers the score. *)
Lemma score_monotone (fs gs : list Factor) :
  Forall2 (fun f g => weight f = weight g /\ (0 <= weight f)%Q /\
                      (satisfied f = true -> satisfied g = true)) fs gs ->
  (fst (score_factors fs) <= fst (score_factors gs))%Q.
Proof.
  intros H. rewrite !score_factors_spec. simpl. unfold satisfied_weights.
  induction H as [|f g fs gs (Hw & Hpos & Himp) _ IH]; simpl.
  - apply Qle_refl.
  - destruct (satisfied f) eqn:Ef.
    + rewrite (Himp eq_refl). simpl. rewrite !Qsum_cons, Hw.
      apply Qplus_le_compat; [apply Qle_refl|exact IH].
    + destruct (satisfied g); simpl; [|exact IH].
      rewrite Qsum_cons, <- Hw. lra.
Qed.

Lemma identify_bottom_pattern_spec (df : Frame) (p : Pattern) :
  In p (Detector.identify_bottom_pattern df) <->
  exists j, (1 <= j /\ j + 1 < frame_len df)%nat /\
            Detector.is_bottom_fractal df j = true /\
            (3 <= fst (Detector.bottom_score df j))%Q /\
            p = bottom_entry df j.
Proof.
  unfold Detector.identify_bottom_pattern. rewrite in_collect. split.
  - intros (j & Hj & Hb). exists j. rewrite <- in_scan_range.
    split; [exact Hj|]. now apply bottom_pattern_at_spec.
  - intros (j & Hj & Hb). exists j. rewrite in_scan_range.
    split; [exact Hj|]. now apply bottom_pattern_at_spec.
Qed.

Lemma identify_top_pattern_spec (df : Frame) (p : Pattern) :
  In p (Detector.identify_top_pattern df) <->
  exists j, (1 <= j /\ j + 1 < frame_len df)%nat /\
            Detector.is_top_fractal df j = true /\
            (3 <= fst (Detector.top_score df j))%Q /\
            p = top_entry df j.
Proof.
  unfold Detector.identify_top_pattern. rewrite in_collect. split.
  - intros (j & Hj & Hb). exists j. rewrite <- in_scan_range.
    split; [exact Hj|]. now apply top_pattern_at_spec.
  - intros (j & Hj & Hb). exists j. rewrite in_scan_range.
    split; [exact Hj|]. now apply top_pattern_at_spec.
Qed.

(** C1.  For a candidate at index [i] of either batch detector: the score
    and the reasons built by the six conditional additions of the code are
    those of the factor table (weights 1, 1, 1, 2, 1.5, 1.5), that is the sum
    of the weights of the satisfied factors and their labels; any reordering
    of the factors gives the same sum; appending one more satisfied factor of
    non-negative weight, or turning more conditions of the table on, never
    lowers the score; and a pattern is appended for index [i] exactly when
    the fractal test holds there and the score is at least 3, so the list
    returned by a scan holds exactly these patterns for [1 <= i < len-1]. *)
Theorem detector_score_is_weight_sum (df : Frame) (i : nat) :
  (Detector.bottom_score df i = score_factors (bottom_factors df i) /\
   Detector.top_score df i = score_factors (top_factors df i)) /\
  (forall fs,
      fs = bottom_factors df i \/ fs = top_factors df i ->
      map weight fs = table_weights /\
      score_factors fs = (Qsum (satisfied_weights fs), satisfied_labels fs) /\
      (forall gs, Permutation fs gs ->
                  (fst (score_factors gs) == fst (score_factors fs))%Q) /\
      (forall f, satisfied f = true -> (0 <= weight f)%Q ->
                 (fst (score_factors fs) <= fst (score_factors (fs ++ [f])))%Q) /\
      (forall gs,
          Forall2 (fun f g => weight f = weight g /\
                              (satisfied f = true -> satisfied g = true)) fs gs ->
          (fst (score_factors fs) <= fst (score_factors gs))%Q)) /\
  (forall p, Detector.bottom_pattern_at df i = Some p <->
             Detector.is_bottom_fractal df i = true /\
             (3 <= fst (Detector.bottom_score df i))%Q /\
             p = bottom_entry df i) /\
  (forall p, Detector.top_pattern_at df i = Some p <->
             Detector.is_top_fractal df i = true /\
             (3 <= fst (Detector.top_score df i))%Q /\
             p = top_entry df i) /\
  (forall p, In p (Detector.identify_bottom_pattern df) <->
             exists j, (1 <= j /\ j + 1 < frame_len df)%nat /\
                       Detector.is_bottom_fractal df j = true /\
                       (3 <= fst (Detector.bottom_score df j))%Q /\
                       p = bottom_entry df j) /\
  (forall p, In p (Detector.identify_top_pattern df) <->
             exists j, (1 <= j /\ j + 1 < frame_len df)%nat /\
                       Detector.is_top_fractal df j = true /\
                       (3 <= fst (Detector.top_score df j))%Q /\
                       p = top_entry df j).
Proof.
  split; [split; reflexivity|].
  split; [|split; [|split; [|split]]].
  - intros fs Hfs.
    assert (Hw : map weight fs = table_weights) by (destruct Hfs; subst; reflexivity).
    split; [exact Hw|]. split; [apply score_factors_spec|]. split; [|split].
    + intros gs Hp. symmetry. now apply score_perm.
    + intros f Hs Hpos. rewrite (@score_add_satisfied fs f Hs). lra.
    + intros gs H2. apply score_monotone.
      assert (Hall : Forall (fun f => (0 <= weight f)%Q) fs).
      { apply List.Forall_forall. intros f Hf.
        assert (Hin : In (weight f) table_weights)
          by (rewrite <- Hw; apply List.in_map; exact Hf).
        simpl in Hin.
        destruct Hin as [<-|[<-|[<-|[<-|[<-|[<-|[]]]]]]]; discriminate. }
      clear Hw Hfs. induction H2 as [|f g fs gs [Hfw Himp] _ IH]; constructor.
      * inversion Hall; subst. auto.
      * apply IH. now inversion Hall.
  - intros p. apply bottom_pattern_at_spec.
  - intros p. apply top_pattern_at_spec.
  - intros p. apply identify_bottom_pattern_spec.
  - intros p. apply identify_top_pattern_spec.
Qed.

Lemma detector_score_is_weight_sum_witness :
  exists df,
    get_data sqrt_floor lookahead_bars = Some df /\
    let fs := bottom_factors df 2 in
    Permutation fs (rev fs) /\
    (fst (score_factors (rev fs)) == fst (score_factors fs))%Q /\
    (fst (score_factors fs) == 4)%Q.
Proof.
  eexists. split; [vm_compute; reflexivity|]. cbv zeta.
  split; [apply Permutation_rev|]. split.
  - match goal with
    | |- (fst (score_factors (rev ?fs)) == _)%Q =>
        match fs with
        | bottom_factors ?df ?i =>
            apply (proj1 (proj2 (proj2
                     (proj1 (proj2 (detector_score_is_weight_sum df i)) fs
                            (or_introl eq_refl)))))
        end
    end.
    apply Permutation_rev.
  - vm_compute. reflexivity.
Defined.

(** ** The worked example *)

(** C8, refutation.  On the three bars of the worked example the low of d2
    (9.5) is not below the low of d1 (9), so the fractal test at d2 fails,
    and the volume factor, which compares the volume of d2 (90) with that of
    d1 (100), is not satisfied. *)
Lemma worked_example_fractal_and_volume_fail :
  exists df,
    get_data sqrt_floor worked_bars = Some df /\
    ~ (iloc (low df) 1 < iloc (low df) 0)%Q /\
    Detector.is_bottom_fractal (frame_prefix df 3) 1 = false /\
    ~ In FangLiang
         (snd (Fractal.causal_bottom_score (frame_prefix df 3) 1)).
Proof.
  eexists. split; [vm_compute; reflexivity|]. split; [|split].
  - vm_compute. intros H. discriminate H.
  - vm_compute. reflexivity.
  - vm_compute. intros H. exact H.
Qed.

(** C8, as the code evaluates the example.  At the step where d3 is the
    newest bar (step 2, candidate index 1): low[d2] is below low[d3] but not
    below low[d1], so the fractal test fails; of the six factors evaluated on
    d2 none holds (the candle is bearish, the volume 90 does not exceed the
    100 of d1, the indicator columns are missing or NaN); the score 0 and
    the empty reasons list are the sum and the labels of the satisfied
    factors; no signal is raised, the batch detector returns no pattern and
    the simulator ends without a trade. *)
Theorem worked_example_evaluation :
  exists df,
    get_data sqrt_floor worked_bars = Some df /\
    frame_len df = 3%nat /\
    (iloc (low df) 1 < iloc (low df) 2)%Q /\
    (iloc (low df) 0 < iloc (low df) 1)%Q /\
    Detector.is_bottom_fractal (frame_prefix df 3) 1 = false /\
    (iloc (close df) 1 < iloc (open df) 1)%Q /\
    (iloc (vol df) 1 < iloc (vol df) 0)%Q /\
    map satisfied (causal_bottom_factors (frame_prefix df 3) 1)
    = [false; false; false; false; false; false] /\
    Fractal.causal_bottom_score (frame_prefix df 3) 1 = (0%Q, []) /\
    satisfied_weights (causal_bottom_factors (frame_prefix df 3) 1) = [] /\
    Fractal.bottom_signal df 2 = None /\
    Detector.identify_bottom_pattern df = [] /\
    Fractal.backtest_strategy_realtime default_params df = NoTrades.
Proof.
  eexists. split; [vm_compute; reflexivity|].
  repeat split; vm_compute; reflexivity.
Qed.

(** ** The RSI seed *)

(** C6, at the failing input.  With period 14 the script seeds its averages
    from [deltas[:15]]: the fifteenth delta (-7) enters the loss average,
    which is 1 instead of the 1/2 of the first fourteen deltas, and the two
    deltas [deltas[13]], [deltas[14]] are fed to the recurrence again.  The
    seed RSI is 50 instead of 200/3 and the last RSI is 16900/449 instead of
    2600/53. *)
Theorem rsi_seed_takes_one_delta_more :
  let deltas := diff rsi_seed_prices in
  length deltas = 15%nat /\
  (Indicators.rsi_seed_up 14 deltas == 1)%Q /\
  (Indicators.rsi_seed_down 14 deltas == 1)%Q /\
  (spec_seed_gain 14 deltas == 1)%Q /\
  (spec_seed_loss 14 deltas == 1 # 2)%Q /\
  map Qred (Indicators.calculate_rsi rsi_seed_prices 14)
  = repeat 50%Q 14 ++ [(1300 # 27)%Q; (16900 # 449)%Q] /\
  map Qred (spec_rsi rsi_seed_prices 14) = [(200 # 3)%Q; (2600 # 53)%Q].
Proof.
  repeat split; vm_compute; reflexivity.
Qed.

(** ** Warm-up rows *)

(** Inside the warm-up the Bollinger arrays hold the number 0, whatever the
    square root. *)
Lemma bollinger_warmup_is_zero (np_sqrt : Q -> Q) (prices : list Q) (period : nat)
    (num_std : Q) (i : nat) :
  (i < period - 1)%nat -> (i < length prices)%nat ->
  let '(upper, middle, lower) :=
    Indicators.calculate_bollinger_bands np_sqrt prices period num_std in
  nth_error upper i = Some 0%Q /\ nth_error middle i = Some 0%Q /\
  nth_error lower i = Some 0%Q.
Proof.
  intros Hi Hlen. unfold Indicators.calculate_bollinger_bands.
  rewrite !nth_error_map, nth_error_seq.
  destruct (Nat.ltb_spec i (length prices)) as [_|]; [|lia].
  simpl. destruct (Nat.ltb_spec i (period - 1)) as [_|]; [|lia].
  simpl. auto.
Qed.

(** The first [period] entries of the RSI array all hold the seed value. *)
Lemma rsi_warmup_is_seed (prices : list Q) (period i : nat) :
  (i < period)%nat -> (i < length prices)%nat ->
  nth_error (Indicators.calculate_rsi prices period) i
  = Some (Indicators.rsi_value (Indicators.rsi_seed_up period (diff prices))
                               (Indicators.rsi_seed_down period (diff prices))).
Proof.
  intros Hi Hlen. unfold Indicators.calculate_rsi.
  rewrite nth_error_app1 by (rewrite repeat_length; lia).
  apply nth_error_repeat. lia.
Qed.

(** C5, at the failing input.  On the twenty-one bars every indicator
    column is present except MACD.  The Bollinger cells of the warm-up rows
    0..18 are the number 0 and the RSI cells of the warm-up rows 0..13 are
    the seed value 100/19, while the ten-day mean of the same rows is NaN.
    The bottom candidate at index 2 receives the RSI weight and the top
    candidate at index 3 receives the Bollinger weight (its high is at least
    0); both are emitted with these labels. *)
Theorem warmup_cells_feed_the_score :
  option_map
    (fun df =>
       (option_map (firstn 19) (bb_upper df),
        option_map (firstn 19) (bb_lower df),
        option_map (fun c => map Qred (firstn 14 c)) (rsi df),
        firstn 9 (ma10 df),
        macd df,
        map satisfied (bottom_factors df 2),
        map satisfied (top_factors df 3),
        map (fun p => (p_date p, p_score p, p_reason p))
            (Detector.identify_bottom_pattern df),
        map (fun p => (p_date p, Qred (p_score p), p_reason p))
            (Detector.identify_top_pattern df)))
    (get_data sqrt_floor warmup_bars)
  = Some (Some (repeat 0%Q 19),
          Some (repeat 0%Q 19),
          Some (repeat (100 # 19)%Q 14),
          repeat None 9,
          None,
          [true; true; false; true; false; false],
          [true; true; false; false; true; false],
          [(3%Z, 4%Q, [Yang; FangLiang; RsiLow])],
          [(4%Z, (7 # 2)%Q, [Yin; FangLiang; BollUpperResistance])]).
Proof.
  vm_compute. reflexivity.
Qed.

(** ** Lookahead through the indicator columns *)

(** The causal decisions read the first [i+1] rows of the frame only; the
    indicator cells of these rows are whatever [get_data] stored in them. *)
Lemma causal_decision_reads_prefix (df1 df2 : Frame) (i : nat) :
  frame_prefix df1 (i + 1) = frame_prefix df2 (i + 1) ->
  Fractal.bottom_signal df1 i = Fractal.bottom_signal df2 i /\
  Fractal.top_signal df1 i = Fractal.top_signal df2 i /\
  FractalNotify.bottom_signal df1 i = FractalNotify.bottom_signal df2 i /\
  FractalNotify.top_signal df1 i = FractalNotify.top_signal df2 i.
Proof.
  intros H. unfold Fractal.bottom_signal, Fractal.top_signal,
    FractalNotify.bottom_signal, FractalNotify.top_signal.
  now rewrite H.
Qed.

(** C2, at the failing input.  The two sixteen-bar series agree on bars
    0..3 (they differ in bar 4 only).  At processing step 3 both simulators
    raise a buy signal for index 2 on the first series, with the RSI factor
    among the reasons, and none on the second: the RSI cell of row 2 is the
    seed value, which [get_data] computed from the closes of bars 0..15. *)
Theorem lookahead_changes_causal_decision :
  firstn 4 lookahead_bars = firstn 4 lookahead_bars_mutated /\
  skipn 5 lookahead_bars = skipn 5 lookahead_bars_mutated /\
  exists df1 df2,
    get_data sqrt_floor lookahead_bars = Some df1 /\
    get_data sqrt_floor lookahead_bars_mutated = Some df2 /\
    Fractal.bottom_signal df1 3 = Some (4%Q, [Yang; FangLiang; RsiLow]) /\
    Fractal.bottom_signal df2 3 = None /\
    FractalNotify.bottom_signal df1 3 = Some (4%Q, [Yang; FangLiang; RsiLow]) /\
    FractalNotify.bottom_signal df2 3 = None /\
    Fractal.pending_buy_signal (Fractal.run_steps default_params df1 2) = true /\
    Fractal.pending_buy_signal (Fractal.run_steps default_params df2 2) = false /\
    FractalNotify.pending_buy_signal (FractalNotify.run_steps default_params df1 2) = true /\
    FractalNotify.pending_buy_signal (FractalNotify.run_steps default_params df2 2) = false /\
    (option_map (fun c => Qred (iloc c 2)) (rsi df1) = Some (100 # 19)%Q) /\
    (option_map (fun c => Qred (iloc c 2)) (rsi df2) = Some (2100 # 59)%Q).
Proof.
  split; [reflexivity|]. split; [reflexivity|].
  eexists. eexists. split; [vm_compute; reflexivity|].
  split; [vm_compute; reflexivity|].
  repeat split; vm_compute; reflexivity.
Qed.

(** ** Fills of the first simulator *)

Lemma backtest_indices_in_range (df : Frame) (i : nat) :
  In i (backtest_range df) -> (2 <= i /\ i < frame_len df)%nat.
Proof.
  unfold backtest_range. rewrite List.in_seq. lia.
Qed.

Lemma entry_fill_mono (df : Frame) (b b' e : nat) d p r :
  entry_fill df b e d p r -> (b <= b')%nat -> entry_fill df b' e d p r.
Proof.
  intros (Hb & Hs & Hp & Hd) Hle. repeat split; try assumption; lia.
Qed.

Lemma exit_fill_mono (P : Params) (df : Frame) (b b' f : nat) (t : Trade) :
  exit_fill P df b f t -> (b <= b')%nat -> exit_fill P df b' f t.
Proof.
  unfold exit_fill. intros H Hle. destruct (t_sell_reason t); try exact H.
  - destruct H as (j & s & Hj & Hrest). exists j, s. split; [lia|exact Hrest].
  - destruct H as (Hp & Hu & j & Hj & Hrest). split; [exact Hp|]. split; [exact Hu|].
    exists j. split; [lia|exact Hrest].
  - destruct H as (Hu & j & m & Hj & Hrest). split; [exact Hu|].
    exists j, m. split; [lia|exact Hrest].
Qed.

Lemma good_trade_mono (P : Params) (df : Frame) (b b' : nat) (t : Trade) :
  good_trade P df b t -> (b <= b')%nat -> good_trade P df b' t.
Proof.
  intros (e & r & Hr & He & Hx) Hle. exists e, r. split; [exact Hr|].
  split; [eapply entry_fill_mono|eapply exit_fill_mono]; eassumption.
Qed.

Lemma good_trades_mono (P : Params) (df : Frame) (b b' : nat) (l : list Trade) :
  Forall (good_trade P df b) l -> (b <= b')%nat -> Forall (good_trade P df b') l.
Proof.
  intros H Hle. eapply List.Forall_impl; [|exact H].
  intros t Ht. eapply good_trade_mono; eassumption.
Qed.

Lemma stop_loss_hit_true P df i st :
  Fractal.stop_loss_hit P df i st = true ->
  use_stop_loss P = true /\
  (iloc (close df) i <= Fractal.buy_price st * (1 - stop_loss_pct P / 100))%Q.
Proof.
  unfold Fractal.stop_loss_hit. intros H. apply andb_prop in H as [H1 H2].
  split; [exact H1|]. now apply Qle_bool_iff.
Qed.

Lemma trailing_stop_hit_true P df i st :
  Fractal.trailing_stop_hit P df i st = true ->
  use_trailing_stop P = true /\
  (Fractal.buy_price st < Fractal.highest_price st)%Q /\
  (iloc (close df) i <= Fractal.highest_price st * (95 # 100))%Q.
Proof.
  unfold Fractal.trailing_stop_hit. intros H.
  apply andb_prop in H as [H H3]. apply andb_prop in H as [H1 H2].
  split; [exact H1|]. split; [now apply Qlt_bool_iff|now apply Qle_bool_iff].
Qed.




Lemma sell_block_preserves (P : Params) (df : Frame) (b : nat) (st : Fractal.State) :
  (2 <= b)%nat ->
  Fractal.holding st = true ->
  Fractal.pending_sell_signal st = false ->
  Fractal.pending_buy_signal st = false ->
  (exists e, entry_fill df (S b) e (Fractal.buy_date st) (Fractal.buy_price st)
                        (Fractal.buy_reason st) /\
             (e + 1 <= b)%nat /\
             (Fractal.highest_price st = Fractal.buy_price st \/
              exists m, (e + 1 < m /\ m < S b)%nat /\
                        Fractal.highest_price st = iloc (high df) m)) ->
  Forall (good_trade P df (S b)) (Fractal.trades st) ->
  sim_inv P df (S b) (Fractal.sell_block P df b st).
Proof.
  intros Hb Hh Hps Hpb (e & He & Heb & Hhi) Htr.
  assert (Hle : (2 <=? b)%nat = true) by (apply Nat.leb_le; exact Hb).
  unfold Fractal.sell_block. rewrite Hh, Hps, Hle. cbn [andb negb].
  destruct (Fractal.stop_loss_hit P df b st) eqn:Esl.
  { apply stop_loss_hit_true in Esl as [Hu Hc].
    constructor; simpl; try (rewrite ?Hps, ?Hpb; discriminate).
    apply List.Forall_app. split; [exact Htr|]. constructor; [|constructor].
    exists e, (Fractal.buy_reason st). split; [reflexivity|]. split; [exact He|].
    simpl. split; [reflexivity|]. split; [exact Hu|].
    exists b. repeat split; try assumption; lia. }
  destruct (Fractal.trailing_stop_hit P df b st) eqn:Ets.
  { apply trailing_stop_hit_true in Ets as (Hu & Hlt & Hc).
    constructor; simpl; try (rewrite ?Hps, ?Hpb; discriminate).
    apply List.Forall_app. split; [exact Htr|]. constructor; [|constructor].
    exists e, (Fractal.buy_reason st). split; [reflexivity|]. split; [exact He|].
    simpl. split; [exact Hu|].
    destruct Hhi as [Heq|(m & Hm & Heq)].
    - rewrite Heq in Hlt. exfalso. exact (Qlt_irrefl _ Hlt).
    - exists b, m. rewrite <- Heq. repeat split; try assumption; lia. }
  destruct (Fractal.top_signal df b) as [s|] eqn:Etop.
  - constructor; simpl; try (rewrite ?Hpb; discriminate).
    + intros _. split; [first [exact Hh|reflexivity]|]. split; [reflexivity|].
      exists b, s. split; [lia|exact Etop].
    + intros _. exists e. split; [exact He|exact Hhi].
    + exact Htr.
  - constructor; try (rewrite ?Hps, ?Hpb; discriminate).
    + intros _. exists e. split; [exact He|exact Hhi].
    + exact Htr.
Qed.

Lemma update_highest_fields (df : Frame) (i : nat) (st : Fractal.State) :
  let st1 := Fractal.update_highest df i st in
  Fractal.holding st1 = Fractal.holding st /\
  Fractal.buy_price st1 = Fractal.buy_price st /\
  Fractal.buy_date st1 = Fractal.buy_date st /\
  Fractal.buy_reason st1 = Fractal.buy_reason st /\
  Fractal.pending_buy_signal st1 = Fractal.pending_buy_signal st /\
  Fractal.pending_buy_reason st1 = Fractal.pending_buy_reason st /\
  Fractal.pending_sell_signal st1 = Fractal.pending_sell_signal st /\
  Fractal.pending_sell_reason st1 = Fractal.pending_sell_reason st /\
  Fractal.trades st1 = Fractal.trades st /\
  (Fractal.highest_price st1 = Fractal.highest_price st \/
   Fractal.highest_price st1 = iloc (high df) i).
Proof.
  unfold Fractal.update_highest.
  destruct (Fractal.holding st && Qlt_bool (Fractal.highest_price st) (iloc (high df) i));
    cbn; repeat split; auto.
Qed.

Ltac proj :=
  cbn [Fractal.holding Fractal.pending_buy_signal Fractal.pending_sell_signal
       Fractal.trades Fractal.buy_price Fractal.buy_date Fractal.buy_reason
       Fractal.highest_price Fractal.pending_buy_reason Fractal.pending_sell_reason
       andb negb].

Lemma step_preserves (P : Params) (df : Frame) (b : nat) (st : Fractal.State) :
  (2 <= b)%nat -> sim_inv P df b st -> sim_inv P df (S b) (Fractal.step P df st b).
Proof.
  intros Hb [I1 I2 I3 I4].
  assert (I4' : Forall (good_trade P df (S b)) (Fractal.trades st))
    by (eapply good_trades_mono; [exact I4|lia]).
  assert (E2 : (2 <=? b)%nat = true) by (apply Nat.leb_le; exact Hb).
  unfold Fractal.step, Fractal.before_exits.
  destruct (update_highest_fields df b st)
    as (Uh & Ubp & Ubd & Ubr & Upb & Upbr & Ups & Upsr & Utr & Uhp).
  set (st1 := Fractal.update_highest df b st) in *.
  destruct (Fractal.holding st) eqn:Hh;
    destruct (Fractal.pending_buy_signal st) eqn:Hpb;
    destruct (Fractal.pending_sell_signal st) eqn:Hps.
  all: try (destruct (I1 eq_refl) as [? _]; discriminate).
  all: try (destruct (I2 eq_refl) as [? _]; discriminate).
  - (* holding, deferred exit pending *)
    destruct (I2 eq_refl) as (_ & Hr & j & s & Hj & Hs).
    destruct (I3 eq_refl) as (e & He & _).
    unfold Fractal.fill_pending_buy. rewrite Upb, Uh. proj.
    unfold Fractal.fill_pending_sell. rewrite Ups, Uh. proj.
    unfold Fractal.detect_bottom, Fractal.close_position. proj.
    rewrite Upb, E2. proj.
    assert (Hgood :
      good_trade P df (S b)
        (make_trade (Fractal.buy_date st1) (Fractal.buy_price st1)
                    (Some (Fractal.buy_reason st1)) (date_at df b)
                    (iloc (open df) b) (Fractal.pending_sell_reason st1))).
    { rewrite Ubd, Ubp, Ubr, Upsr, Hr.
      exists e, (Fractal.buy_reason st). split; [reflexivity|]. split.
      - eapply entry_fill_mono; [exact He|lia].
      - simpl. exists j, s. destruct He as ((? & ?) & _). destruct Hj as [? <-].
        repeat split; try assumption; try lia. }
    assert (Htr : Forall (good_trade P df (S b))
                    (Fractal.trades st1 ++
                     [make_trade (Fractal.buy_date st1) (Fractal.buy_price st1)
                        (Some (Fractal.buy_reason st1)) (date_at df b)
                        (iloc (open df) b) (Fractal.pending_sell_reason st1)])).
    { apply List.Forall_app. split; [now rewrite Utr|]. constructor; [exact Hgood|constructor]. }
    destruct (Fractal.bottom_signal df b) as [[s' r']|] eqn:Eb;
      unfold Fractal.sell_block; proj; constructor; proj; try discriminate;
      try exact Htr.
    intros _. split; [reflexivity|]. exists b, s'. split; [lia|exact Eb].
  - (* holding, nothing pending *)
    destruct (I3 eq_refl) as (e & He & Hhi).
    unfold Fractal.fill_pending_buy. rewrite Upb, Uh. proj.
    unfold Fractal.fill_pending_sell. rewrite Ups, Uh. proj.
    unfold Fractal.detect_bottom. rewrite Upb, Uh. proj.
    apply sell_block_preserves; try assumption; try congruence.
    exists e. rewrite Ubd, Ubp, Ubr. split; [eapply entry_fill_mono; [exact He|lia]|].
    destruct He as ((? & ?) & _). split; [lia|].
    destruct Uhp as [->| ->].
    + destruct Hhi as [->|(m & Hm & ->)]; [now left|right].
      exists m. split; [lia|reflexivity].
    + right. exists b. split; [lia|reflexivity].
  - (* flat, deferred entry pending *)
    destruct (I1 eq_refl) as (_ & j & s & (Hj & <-) & Hs).
    unfold Fractal.fill_pending_buy. rewrite Upb, Uh. proj.
    unfold Fractal.fill_pending_sell. proj. rewrite Ups. proj.
    unfold Fractal.detect_bottom. proj.
    apply sell_block_preserves; proj; try assumption; try congruence.
    exists j. split; [|split; [lia|now left]].
    rewrite Upbr. repeat split; try lia. exists s. exact Hs.
  - (* flat, nothing pending *)
    unfold Fractal.fill_pending_buy. rewrite Upb, Uh. proj.
    unfold Fractal.fill_pending_sell. rewrite Ups, Uh. proj.
    unfold Fractal.detect_bottom. rewrite Upb, Uh, E2. proj.
    destruct (Fractal.bottom_signal df b) as [[s' r']|] eqn:Eb;
      unfold Fractal.sell_block; proj; rewrite ?Uh; proj;
      constructor; proj; rewrite ?Uh, ?Ups, ?Upb, ?Utr; try discriminate; try assumption.
    intros _. split; [reflexivity|]. exists b, s'. split; [lia|exact Eb].
Qed.

Lemma run_steps_S (P : Params) (df : Frame) (k : nat) :
  Fractal.run_steps P df (S k)
  = Fractal.step P df (Fractal.run_steps P df k) (k + 2).
Proof.
  unfold Fractal.run_steps. rewrite List.seq_S, List.fold_left_app.
  cbn [fold_left]. now rewrite (Nat.add_comm 2 k).
Qed.

Lemma run_steps_inv (P : Params) (df : Frame) (k : nat) :
  sim_inv P df (k + 2) (Fractal.run_steps P df k).
Proof.
  induction k as [|k IH].
  - constructor; simpl; try discriminate. constructor.
  - rewrite run_steps_S. apply step_preserves; [lia|exact IH].
Qed.

Lemma backtest_trades_good (P : Params) (df : Frame) (t : Trade) :
  In t (Fractal.backtest_trades P df) -> good_trade P df (frame_len df) t.
Proof.
  unfold Fractal.backtest_trades, Fractal.close_at_end.
  destruct (Nat.le_gt_cases 2 (frame_len df)) as [Hlen|Hlen].
  - pose proof (run_steps_inv P df (frame_len df - 2)) as Hinv.
    replace (frame_len df - 2 + 2)%nat with (frame_len df) in Hinv by lia.
    destruct Hinv as [_ _ I3 I4].
    rewrite List.Forall_forall in I4.
    destruct (Fractal.holding _) eqn:Eh; simpl.
    + destruct (0 <? frame_len df)%nat; [|apply I4].
      rewrite List.in_app_iff. intros [Hin|[<-|[]]]; [now apply I4|].
      destruct (I3 eq_refl) as (e & He & _).
      exists e, (Fractal.buy_reason (Fractal.run_steps P df (frame_len df - 2))).
      split; [reflexivity|]. split; [exact He|]. simpl. split; reflexivity.
    + apply I4.
  - replace (frame_len df - 2)%nat with 0%nat by lia. simpl. tauto.
Qed.

(** What the three same-bar exits of the second simulator do. *)
Lemma risk_exits_cases (P : Params) (df : Frame) (i : nat) (st : FractalNotify.State) :
  (FractalNotify.risk_exits P df i st = st /\
   FractalNotify.stop_loss_hit P df i st = false /\
   FractalNotify.trailing_stop_hit P df i st = false /\
   FractalNotify.max_hold_hit P df i st = false) \/
  exists r,
    FractalNotify.risk_exits P df i st
    = FractalNotify.close_position st (date_at df i) (iloc (close df) i) r
                                   (FractalNotify.pending_sell_signal st) /\
    FractalNotify.holding st = true /\
    ((r = StopLoss (stop_loss_pct P) /\ use_stop_loss P = true /\
      (iloc (close df) i
       <= FractalNotify.buy_price st * (1 - stop_loss_pct P / 100))%Q) \/
     (r = TrailingStop /\ use_trailing_stop P = true /\
      (FractalNotify.buy_price st < FractalNotify.highest_price st)%Q /\
      (iloc (close df) i <= FractalNotify.highest_price st * (95 # 100))%Q) \/
     (r = MaxHold (hold_days P) /\ (0 < hold_days P)%Z /\
      exists d, FractalNotify.buy_date st = Some d /\
                (hold_days P <= date_at df i - d)%Z)).
Proof.
  unfold FractalNotify.risk_exits.
  destruct (FractalNotify.stop_loss_hit P df i st) eqn:Esl.
  { right. exists (StopLoss (stop_loss_pct P)). split; [reflexivity|].
    unfold FractalNotify.stop_loss_hit in Esl.
    apply andb_prop in Esl as [Esl H3]. apply andb_prop in Esl as [H1 H2].
    split; [exact H1|]. left. split; [reflexivity|]. split; [exact H2|].
    now apply Qle_bool_iff. }
  destruct (FractalNotify.trailing_stop_hit P df i st) eqn:Ets.
  { right. exists TrailingStop. split; [reflexivity|].
    unfold FractalNotify.trailing_stop_hit in Ets.
    apply andb_prop in Ets as [Ets H4]. apply andb_prop in Ets as [Ets H3].
    apply andb_prop in Ets as [H1 H2].
    split; [exact H1|]. right. left. split; [reflexivity|]. split; [exact H2|].
    split; [now apply Qlt_bool_iff|now apply Qle_bool_iff]. }
  destruct (FractalNotify.max_hold_hit P df i st) eqn:Emh.
  { right. exists (MaxHold (hold_days P)). split; [reflexivity|].
    unfold FractalNotify.max_hold_hit in Emh.
    apply andb_prop in Emh as [Emh H4]. apply andb_prop in Emh as [Emh H3].
    apply andb_prop in Emh as [H1 H2].
    split; [exact H1|]. right. right. split; [reflexivity|].
    split; [now apply Z.ltb_lt|].
    unfold FractalNotify.days_held, days_between in H4.
    destruct (FractalNotify.buy_date st) as [d|]; [|discriminate].
    exists d. split; [reflexivity|]. now apply Z.leb_le. }
  left. auto.
Qed.

(** C3.  First script, whole run: every trade of the returned list was
    entered at the open of the bar that follows a processing step at which
    the causal bottom decision fired (never at that step's own bar), and was
    closed either at the open of the bar that follows a step at which the
    causal top decision fired while the position was held, or at the close of
    a bar on which the fixed stop-loss test or the trailing-stop test holds
    for that very bar, or at the last close when the data end.  Second
    script, which alone has the maximum-holding exit: whenever one of its
    three same-bar exits closes the position at step [i], the trade is filled
    at the close of bar [i] and the test of that exit (stop-loss, trailing
    stop, or days held >= hold_days) holds on bar [i]. *)
Theorem fills_at_next_open_or_same_close :
  (forall P df t,
      In t (Fractal.backtest_trades P df) -> good_trade P df (frame_len df) t) /\
  (forall P df i st,
      (FractalNotify.risk_exits P df i st = st /\
       FractalNotify.stop_loss_hit P df i st = false /\
       FractalNotify.trailing_stop_hit P df i st = false /\
       FractalNotify.max_hold_hit P df i st = false) \/
      exists r,
        FractalNotify.risk_exits P df i st
        = FractalNotify.close_position st (date_at df i) (iloc (close df) i) r
                                       (FractalNotify.pending_sell_signal st) /\
        FractalNotify.holding st = true /\
        ((r = StopLoss (stop_loss_pct P) /\ use_stop_loss P = true /\
          (iloc (close df) i
           <= FractalNotify.buy_price st * (1 - stop_loss_pct P / 100))%Q) \/
         (r = TrailingStop /\ use_trailing_stop P = true /\
          (FractalNotify.buy_price st < FractalNotify.highest_price st)%Q /\
          (iloc (close df) i <= FractalNotify.highest_price st * (95 # 100))%Q) \/
         (r = MaxHold (hold_days P) /\ (0 < hold_days P)%Z /\
          exists d, FractalNotify.buy_date st = Some d /\
                    (hold_days P <= date_at df i - d)%Z))).
Proof.
  split.
  - apply backtest_trades_good.
  - apply risk_exits_cases.
Qed.

Lemma fills_at_next_open_or_same_close_witness :
  exists df t,
    get_data sqrt_floor stop_precedence_bars = Some df /\
    In t (Fractal.backtest_trades default_params df) /\
    good_trade default_params df (frame_len df) t.
Proof.
  eexists. eexists. split; [vm_compute; reflexivity|].
  assert (H : forall (A B : Prop), A -> (A -> B) -> A /\ B) by tauto.
  apply H.
  - vm_compute. left. reflexivity.
  - apply (proj1 fills_at_next_open_or_same_close).
Defined.

Lemma run_pending_sell_holding (P : Params) (df : Frame) (k : nat) :
  Fractal.pending_sell_signal (Fractal.run_steps P df k) = true ->
  Fractal.holding (Fractal.run_steps P df k) = true.
Proof.
  intros H. destruct (run_steps_inv P df k) as [_ I2 _ _].
  now destruct (I2 H).
Qed.

(** ** A deferred exit that survives a stop *)

(** C4, at the failing input, with the default parameters.  In the second
    script the top pattern of index 10 sets [pending_sell_signal] at step 11,
    the stop-loss closes the position on the same bar and the flag stays
    set; no top pattern is recognised at any later step, yet the position
    opened on bar 14 is sold at the open of bar 15 (18.50) with the reason
    "顶分型".  The first script, on the same bars, keeps the flag clear and
    holds the second position to the end of the data. *)
Theorem stale_top_exit_after_stop_loss :
  exists df,
    get_data sqrt_floor stale_exit_bars = Some df /\
    (let st := FractalNotify.run_steps default_params df 10 in
     FractalNotify.holding st = false /\
     FractalNotify.pending_sell_signal st = true /\
     map t_sell_reason (FractalNotify.trades st) = [StopLoss 5]) /\
    map (FractalNotify.top_signal df) [12; 13; 14; 15]%nat = [None; None; None; None] /\
    map (fun t => (t_buy_date t, Qred (t_buy_price t), t_sell_date t,
                   Qred (t_sell_price t), t_sell_reason t))
        (FractalNotify.backtest_trades default_params df)
    = [ (Some 12%Z, 20%Q, 12%Z, (37 # 2)%Q, StopLoss 5);
        (Some 15%Z, 18%Q, 16%Z, (37 # 2)%Q, TopPattern) ] /\
    Qred (iloc (open df) 15) = (37 # 2)%Q /\
    (let st := Fractal.run_steps default_params df 10 in
     Fractal.holding st = false /\
     Fractal.pending_sell_signal st = false) /\
    map (fun t => (t_buy_date t, Qred (t_buy_price t), t_sell_date t,
                   Qred (t_sell_price t), t_sell_reason t))
        (Fractal.backtest_trades default_params df)
    = [ (Some 12%Z, 20%Q, 12%Z, (37 # 2)%Q, StopLoss 5);
        (Some 15%Z, 18%Q, 16%Z, (94 # 5)%Q, EndOfBacktest) ].
Proof.
  eexists. split; [vm_compute; reflexivity|].
  repeat split; vm_compute; reflexivity.
Qed.

(** First script: once the position is flat no deferred exit is left
    behind, at any point of any run. *)
Lemma first_script_flat_has_no_pending_exit (P : Params) (df : Frame) (k : nat) :
  Fractal.holding (Fractal.run_steps P df k) = false ->
  Fractal.pending_sell_signal (Fractal.run_steps P df k) = false.
Proof.
  intros Hflat.
  destruct (Fractal.pending_sell_signal (Fractal.run_steps P df k)) eqn:E;
    [|reflexivity].
  apply run_pending_sell_holding in E. congruence.
Qed.

(** ** Trailing stop *)


(** In binary64 as in the rationals: 120 * 0.95 is exactly 114, the close
    114 is at or below it and the close 114.01 is above it; the fixed stop
    level for an entry at 100 and 5 percent is 95. *)
Lemma stop_levels_binary64 :
  trailing_level_binary64 120 = 114%float /\
  PrimFloat.leb 114 (trailing_level_binary64 120) = true /\
  PrimFloat.leb 0x1.c80a3d70a3d71p+6 (trailing_level_binary64 120) = false /\
  stop_level_binary64 100 5 = 95%float.
Proof.
  repeat split; reflexivity.
Qed.





(** *** The loop of the first script with its notifier *)












(** ** The hold_days parameter *)

Lemma max_hold_fires (P : Params) (df : Frame) (i : nat) (st : FractalNotify.State)
    (d : Date) :
  FractalNotify.holding st = true ->
  FractalNotify.buy_date st = Some d ->
  (0 < hold_days P)%Z ->
  (hold_days P <= date_at df i - d)%Z ->
  FractalNotify.stop_loss_hit P df i st = false ->
  FractalNotify.trailing_stop_hit P df i st = false ->
  FractalNotify.risk_exits P df i st
  = FractalNotify.close_position st (date_at df i) (iloc (close df) i)
                                 (MaxHold (hold_days P))
                                 (FractalNotify.pending_sell_signal st).
Proof.
  intros Hh Hd Hpos Hge Hsl Hts.
  unfold FractalNotify.risk_exits. rewrite Hsl, Hts.
  unfold FractalNotify.max_hold_hit, FractalNotify.days_held, days_between.
  rewrite Hh, Hd. simpl.
  apply Z.ltb_lt in Hpos. apply Z.leb_le in Hge. now rewrite Hpos, Hge.
Qed.

Lemma step_ignores_hold_days (h1 h2 : Z) (sl : bool) (pct : Q) (ts : bool)
    (df : Frame) (st : Fractal.State) (i : nat) :
  Fractal.step (mkParams h1 sl pct ts) df st i
  = Fractal.step (mkParams h2 sl pct ts) df st i.
Proof.
  unfold Fractal.step, Fractal.sell_block, Fractal.stop_loss_hit,
    Fractal.trailing_stop_hit.
  reflexivity.
Qed.

Lemma run_steps_ignore_hold_days (h1 h2 : Z) (sl : bool) (pct : Q) (ts : bool)
    (df : Frame) (k : nat) :
  Fractal.run_steps (mkParams h1 sl pct ts) df k
  = Fractal.run_steps (mkParams h2 sl pct ts) df k.
Proof.
  induction k as [|k IH]; [reflexivity|].
  rewrite !run_steps_S, IH. apply step_ignores_hold_days.
Qed.

(** C10.  First script: two runs on the same frame whose parameters differ
    in [hold_days] only return the same trade list and the same aggregate
    result, and no trade of any run carries the maximum-holding reason.
    Second script: while a position is held and neither stop has fired on
    the bar, the position is closed at that bar's close, with the
    maximum-holding reason, as soon as [hold_days > 0] and the days held
    reach [hold_days]; on [stop_precedence_bars] the runs with
    [hold_days = 1] and [hold_days = 10] differ (exit at 101 after one day
    against the stop-loss at 90). *)
Theorem hold_days_only_matters_in_second_script :
  (forall h1 h2 sl pct ts df,
      Fractal.backtest_trades (mkParams h1 sl pct ts) df
      = Fractal.backtest_trades (mkParams h2 sl pct ts) df /\
      Fractal.backtest_strategy_realtime (mkParams h1 sl pct ts) df
      = Fractal.backtest_strategy_realtime (mkParams h2 sl pct ts) df) /\
  (forall P df t d,
      In t (Fractal.backtest_trades P df) -> t_sell_reason t <> MaxHold d) /\
  (forall P df i st d,
      FractalNotify.holding st = true ->
      FractalNotify.buy_date st = Some d ->
      (0 < hold_days P)%Z ->
      (hold_days P <= date_at df i - d)%Z ->
      FractalNotify.stop_loss_hit P df i st = false ->
      FractalNotify.trailing_stop_hit P df i st = false ->
      FractalNotify.risk_exits P df i st
      = FractalNotify.close_position st (date_at df i) (iloc (close df) i)
                                     (MaxHold (hold_days P))
                                     (FractalNotify.pending_sell_signal st)) /\
  (exists df,
      get_data sqrt_floor stop_precedence_bars = Some df /\
      map (fun t => (Qred (t_sell_price t), t_sell_reason t))
          (FractalNotify.backtest_trades (mkParams 1 true 5 true) df)
      = [((101 # 1)%Q, MaxHold 1)] /\
      map (fun t => (Qred (t_sell_price t), t_sell_reason t))
          (FractalNotify.backtest_trades (mkParams 10 true 5 true) df)
      = [((90 # 1)%Q, StopLoss 5)]).
Proof.
  split; [|split; [|split]].
  - intros h1 h2 sl pct ts df.
    assert (E : Fractal.backtest_trades (mkParams h1 sl pct ts) df
                = Fractal.backtest_trades (mkParams h2 sl pct ts) df).
    { unfold Fractal.backtest_trades. now rewrite (run_steps_ignore_hold_days h1 h2). }
    split; [exact E|]. unfold Fractal.backtest_strategy_realtime. now rewrite E.
  - intros P df t d Hin Heq.
    destruct (backtest_trades_good P df t Hin) as (e & r & _ & _ & Hx).
    unfold exit_fill in Hx. rewrite Heq in Hx. exact Hx.
  - apply max_hold_fires.
  - eexists. split; [vm_compute; reflexivity|].
    split; vm_compute; reflexivity.
Qed.

Lemma hold_days_only_matters_in_second_script_witness :
  exists df,
    get_data sqrt_floor stop_precedence_bars = Some df /\
    exists t,
      In t (Fractal.backtest_trades default_params df) /\
      t_sell_reason t <> MaxHold 10.
Proof.
  eexists. split; [vm_compute; reflexivity|].
  eexists.
  assert (H : forall (A B : Prop), A -> (A -> B) -> A /\ B) by tauto.
  apply H.
  - vm_compute. left. reflexivity.
  - apply (proj1 (proj2 hold_days_only_matters_in_second_script)).
Defined.

(** ** De-duplication in the monitor *)

(** C9, failing run.  [holiday_cycles] are the polls of the days 31, 32 and
    33 with [days_back = 30], every bar fetched as it stands in
    [holiday_history].  The poll of day 31 fetches 15 rows, so that the RSI
    column exists, and reports the bottom dated 30; the poll of day 32 has
    lost the bar dated 1 and fetches 14 rows, without RSI column the bottom
    of day 30 scores 2 and the most recent bottom is the one dated 26, which
    becomes the stored date; the poll of day 33 fetches 15 rows again and the
    bottom dated 30 is back.  The two monitors send the bottom alert for the
    pattern dated 30 twice. *)
Lemma same_pattern_date_alerted_twice :
  map (fun c => match snd c with
                | Some df => (frame_len df,
                              latest_date (Detector.identify_bottom_pattern df))
                | None => (0%nat, None)
                end) holiday_cycles
  = [(15%nat, Some 30%Z); (14%nat, Some 26%Z); (15%nat, Some 30%Z)] /\
  map (fun a => (Monitor.a_kind a, p_date (Monitor.a_pattern a)))
      (snd (Monitor.run_live_monitor holiday_cycles Monitor.watch_init))
  = [ (Monitor.BottomAlert, 30%Z); (Monitor.BottomAlert, 30%Z) ] /\
  ~ List.NoDup (alert_dates Monitor.BottomAlert
                  (snd (Monitor.run_live_monitor holiday_cycles Monitor.watch_init))) /\
  map (fun ca => (fst ca, Monitor.a_kind (snd ca), p_date (Monitor.a_pattern (snd ca))))
      (snd (Monitor.run_multi_monitor
              (map (fun c => (fst c, fun _ : string => snd c)) holiday_cycles)
              ["399300"%string]))
  = [ ("399300"%string, Monitor.BottomAlert, 30%Z);
      ("399300"%string, Monitor.BottomAlert, 30%Z) ].
Proof.
  assert (E : alert_dates Monitor.BottomAlert
                (snd (Monitor.run_live_monitor holiday_cycles Monitor.watch_init))
              = [30; 30]%Z) by (vm_compute; reflexivity).
  split; [vm_compute; reflexivity|]. split; [vm_compute; reflexivity|]. split.
  - rewrite E. intros H. inversion H as [|x l Hnin _]; subst.
    apply Hnin. simpl. auto.
  - vm_compute. reflexivity.
Qed.

Lemma differs_spec (d : Date) (last_date : option Date) :
  Monitor.differs d last_date = true <-> last_date <> Some d.
Proof.
  unfold Monitor.differs. destruct last_date as [l|].
  - rewrite negb_true_iff, Z.eqb_neq. split; congruence.
  - split; [discriminate|reflexivity].
Qed.

(** The three outcomes of the comparison block. *)
Lemma check_new_pattern_cases (now : Date) (patterns : list Pattern)
    (last_date : option Date) :
  match latest_date patterns with
  | None => Monitor.check_new_pattern now patterns last_date = (last_date, None)
  | Some d =>
      (last_date = Some d /\
       Monitor.check_new_pattern now patterns last_date = (last_date, None)) \/
      (last_date <> Some d /\
       exists sent, Monitor.check_new_pattern now patterns last_date = (Some d, sent) /\
                    match sent with
                    | Some p => Monitor.last_pattern patterns = Some p /\
                                p_date p = d /\ (now - d <= 3)%Z
                    | None => (3 < now - d)%Z
                    end)
  end.
Proof.
  unfold latest_date, Monitor.check_new_pattern.
  destruct (Monitor.last_pattern patterns) as [p|]; simpl; [|reflexivity].
  destruct (Monitor.differs (p_date p) last_date) eqn:E.
  - right. apply differs_spec in E. split; [exact E|].
    destruct (Z.leb_spec (now - p_date p) 3).
    + exists (Some p). auto.
    + exists None. auto.
  - left. split; [|reflexivity].
    destruct last_date as [l|]; simpl in E; [|discriminate].
    apply negb_false_iff, Z.eqb_eq in E. now subst.
Qed.

Lemma empty_frame_no_patterns (df : Frame) (k : Monitor.AlertKind) :
  frame_len df = 0%nat -> cycle_patterns k (Some df) = [].
Proof.
  intros H. destruct k; simpl;
    unfold Detector.identify_bottom_pattern, Detector.identify_top_pattern,
      Detector.scan_range; rewrite H; reflexivity.
Qed.

(** One cycle, seen from one kind of signal. *)
Lemma check_instrument_kind (k : Monitor.AlertKind) (now : Date) (data : option Frame)
    (w : Monitor.WatchState) :
  let r := Monitor.check_new_pattern now (cycle_patterns k data) (stored k w) in
  stored k (fst (Monitor.check_instrument now data w)) = fst r /\
  List.filter (fun a => kind_eqb (Monitor.a_kind a) k)
              (snd (Monitor.check_instrument now data w))
  = Monitor.alert_of k (snd r).
Proof.
  cbv zeta. unfold Monitor.check_instrument.
  destruct data as [df|]; [|destruct k; simpl; auto].
  destruct (frame_len df =? 0)%nat eqn:E.
  - apply Nat.eqb_eq in E. rewrite (empty_frame_no_patterns df k E).
    destruct k; simpl; auto.
  - destruct k; unfold cycle_patterns, stored;
      destruct (Monitor.check_new_pattern now (Detector.identify_bottom_pattern df)
                                          (Monitor.last_bottom w)) as [lb sb];
      destruct (Monitor.check_new_pattern now (Detector.identify_top_pattern df)
                                          (Monitor.last_top w)) as [lt st];
      destruct sb, st; simpl; auto.
Qed.

Lemma alert_dates_app (k : Monitor.AlertKind) (a b : list Monitor.Alert) :
  alert_dates k (a ++ b) = alert_dates k a ++ alert_dates k b.
Proof.
  unfold alert_dates. now rewrite List.filter_app, List.map_app.
Qed.

Lemma run_alert_dates (k : Monitor.AlertKind) (cycles : list (Date * option Frame))
    (w : Monitor.WatchState) :
  StronglySorted Z.le (latest_dates k cycles) ->
  (forall d0, stored k w = Some d0 -> Forall (Z.le d0) (latest_dates k cycles)) ->
  List.NoDup (alert_dates k (snd (Monitor.run_live_monitor cycles w))) /\
  Forall (fun d => forall d0, stored k w = Some d0 -> (d0 < d)%Z)
         (alert_dates k (snd (Monitor.run_live_monitor cycles w))).
Proof.
  revert w. induction cycles as [|[now data] cycles IH]; intros w Hs Hlow.
  - simpl. split; constructor.
  - simpl.
    destruct (Monitor.check_instrument now data w) as [w1 out1] eqn:E1.
    destruct (Monitor.run_live_monitor cycles w1) as [w2 out2] eqn:E2.
    simpl. rewrite alert_dates_app.
    pose proof (check_instrument_kind k now data w) as [Hst Hout].
    rewrite E1 in Hst, Hout. simpl in Hst, Hout.
    unfold alert_dates at 1 3. rewrite Hout.
    pose proof (check_new_pattern_cases now (cycle_patterns k data) (stored k w)) as Hc.
    simpl in Hs, Hlow.
    destruct (latest_date (cycle_patterns k data)) as [d|] eqn:El.
    + simpl in Hs, Hlow. apply StronglySorted_inv in Hs as [Hs Hd].
      destruct Hc as [[Hlast Hc]|(Hne & sent & Hc & Hsent)]; rewrite Hc in *; simpl in *.
      * (* same date as stored: nothing sent, state unchanged *)
        specialize (IH w1). rewrite E2 in IH. simpl in IH.
        destruct IH as [IH1 IH2]; [exact Hs| |].
        { intros d0 Hd0. rewrite Hst, Hlast in Hd0. injection Hd0 as <-. exact Hd. }
        split; [exact IH1|].
        eapply List.Forall_impl; [|exact IH2]. simpl.
        intros x Hx d0 Hd0. apply Hx. now rewrite Hst.
      * (* a new date is stored *)
        specialize (IH w1). rewrite E2 in IH. simpl in IH.
        destruct IH as [IH1 IH2]; [exact Hs| |].
        { intros d0 Hd0. rewrite Hst in Hd0. injection Hd0 as <-. exact Hd. }
        assert (Hgt : Forall (fun x => (d < x)%Z) (alert_dates k out2)).
        { eapply List.Forall_impl; [|exact IH2]. simpl.
          intros x Hx. apply Hx. exact Hst. }
        assert (Hold : forall d0, stored k w = Some d0 -> (d0 < d)%Z).
        { intros d0 Hd0. specialize (Hlow d0 Hd0).
          apply List.Forall_inv in Hlow.
          assert (d0 <> d) by congruence. lia. }
        assert (Hrest : Forall (fun x => forall d0, stored k w = Some d0 -> (d0 < x)%Z)
                               (alert_dates k out2)).
        { eapply List.Forall_impl; [|exact Hgt]. simpl.
          intros x Hx d0 Hd0. specialize (Hold d0 Hd0). lia. }
        destruct sent as [p|]; simpl.
        -- destruct Hsent as (_ & Hp & _). rewrite Hp. split.
           ++ constructor; [|exact IH1].
              intros Hin. rewrite List.Forall_forall in Hgt.
              specialize (Hgt d Hin). lia.
           ++ constructor; [exact Hold|exact Hrest].
        -- split; [exact IH1|exact Hrest].
    + rewrite Hc in *. simpl in *.
      specialize (IH w1). rewrite E2 in IH. simpl in IH.
      destruct IH as [IH1 IH2]; [exact Hs| |].
      { intros d0 Hd0. apply Hlow. now rewrite <- Hst. }
      split; [exact IH1|].
      eapply List.Forall_impl; [|exact IH2]. simpl.
      intros x Hx d0 Hd0. apply Hx. now rewrite Hst.
Qed.

Lemma kind_eqb_refl (k : Monitor.AlertKind) : kind_eqb k k = true.
Proof. now destruct k. Qed.

Lemma alert_justified (now : Date) (data : option Frame) (w : Monitor.WatchState)
    (a : Monitor.Alert) :
  In a (snd (Monitor.check_instrument now data w)) ->
  Monitor.last_pattern (cycle_patterns (Monitor.a_kind a) data)
  = Some (Monitor.a_pattern a) /\
  stored (Monitor.a_kind a) w <> Some (p_date (Monitor.a_pattern a)) /\
  (now - p_date (Monitor.a_pattern a) <= 3)%Z /\
  stored (Monitor.a_kind a) (fst (Monitor.check_instrument now data w))
  = Some (p_date (Monitor.a_pattern a)).
Proof.
  intros Hin.
  destruct (check_instrument_kind (Monitor.a_kind a) now data w) as [Hst Hout].
  assert (Hin' : In a (List.filter
                         (fun x => kind_eqb (Monitor.a_kind x) (Monitor.a_kind a))
                         (snd (Monitor.check_instrument now data w)))).
  { apply List.filter_In. split; [exact Hin|apply kind_eqb_refl]. }
  rewrite Hout in Hin'. rewrite Hst.
  pose proof (check_new_pattern_cases now (cycle_patterns (Monitor.a_kind a) data)
                                      (stored (Monitor.a_kind a) w)) as Hc.
  destruct (latest_date (cycle_patterns (Monitor.a_kind a) data)) as [d|].
  - destruct Hc as [[_ Hc]|(Hne & sent & Hc & Hsent)]; rewrite Hc in *; simpl in *.
    + destruct Hin'.
    + destruct sent as [p|]; simpl in Hin'; [|destruct Hin'].
      destruct Hin' as [<-|[]]. simpl. destruct Hsent as (Hl & Hp & Hr).
      subst d. auto.
  - rewrite Hc in Hin'. destruct Hin'.
Qed.

(** A code outside the rest of the watch-list keeps its entry and gets no
    alert. *)
Lemma multi_cycle_other (now : Date) (fetch : string -> option Frame)
    (watchlist : list string) (signals : gmap string Monitor.WatchState)
    (code : string) :
  ~ In code watchlist ->
  fst (Monitor.multi_cycle now fetch watchlist signals) !! code = signals !! code /\
  List.filter (fun ca => String.eqb (fst ca) code)
              (snd (Monitor.multi_cycle now fetch watchlist signals)) = [].
Proof.
  revert signals. induction watchlist as [|c rest IH]; intros signals Hnin.
  - simpl. auto.
  - simpl in Hnin. simpl.
    destruct (signals !! c) as [w|] eqn:Ec; [|apply IH; tauto].
    destruct (Monitor.check_instrument now (fetch c) w) as [w' out].
    specialize (IH (<[c:=w']> signals)).
    destruct (Monitor.multi_cycle now fetch rest (<[c:=w']> signals)) as [s' outs].
    simpl in *. destruct IH as [IH1 IH2]; [tauto|].
    split.
    + rewrite IH1. apply lookup_insert_ne. intros ->. tauto.
    + rewrite List.filter_app, IH2, app_nil_r.
      induction out as [|a out IHo]; simpl; [reflexivity|].
      destruct (String.eqb_spec c code) as [->|_]; [tauto|exact IHo].
Qed.

Lemma multi_cycle_instrument (now : Date) (fetch : string -> option Frame)
    (watchlist : list string) (signals : gmap string Monitor.WatchState)
    (code : string) (w : Monitor.WatchState) :
  List.NoDup watchlist -> In code watchlist -> signals !! code = Some w ->
  fst (Monitor.multi_cycle now fetch watchlist signals) !! code
  = Some (fst (Monitor.check_instrument now (fetch code) w)) /\
  map snd (List.filter (fun ca => String.eqb (fst ca) code)
                       (snd (Monitor.multi_cycle now fetch watchlist signals)))
  = snd (Monitor.check_instrument now (fetch code) w).
Proof.
  revert signals. induction watchlist as [|c rest IH]; intros signals Hnd Hin Hw.
  - destruct Hin.
  - apply List.NoDup_cons_iff in Hnd as [Hnin Hnd]. simpl.
    destruct (String.eqb_spec c code) as [->|Hne].
    + rewrite Hw.
      destruct (Monitor.check_instrument now (fetch code) w) as [w' out].
      destruct (multi_cycle_other now fetch rest (<[code:=w']> signals) code Hnin)
        as [H1 H2].
      destruct (Monitor.multi_cycle now fetch rest (<[code:=w']> signals)) as [s' outs].
      simpl in *. split.
      * rewrite H1. apply lookup_insert_eq.
      * rewrite List.filter_app, H2, app_nil_r.
        induction out as [|a out IHo]; simpl; [reflexivity|].
        rewrite String.eqb_refl. simpl. now rewrite IHo.
    + destruct Hin as [->|Hin]; [tauto|].
      destruct (signals !! c) as [wc|] eqn:Ec; [|now apply IH].
      destruct (Monitor.check_instrument now (fetch c) wc) as [w' out].
      specialize (IH (<[c:=w']> signals) Hnd Hin).
      destruct (Monitor.multi_cycle now fetch rest (<[c:=w']> signals)) as [s' outs].
      simpl in *. destruct IH as [IH1 IH2].
      { rewrite lookup_insert_ne by exact Hne. exact Hw. }
      split; [exact IH1|].
      rewrite List.filter_app, List.map_app, IH2.
      replace (List.filter (fun ca => String.eqb (fst ca) code)
                           (map (fun a => (c, a)) out)) with (@nil (string * Monitor.Alert)).
      * reflexivity.
      * induction out as [|a out IHo]; simpl; [reflexivity|].
        destruct (String.eqb_spec c code) as [E|_]; [tauto|exact IHo].
Qed.

(** The de-duplication as far as it goes.  (1) In one polling cycle an alert of a kind is sent
    only for the most recent detected pattern of that kind, only if its date
    differs from the date stored for that kind, and only if it lies at most 3
    days before the current day; the date is then the stored one, so it is
    not alerted again in the next cycle that sees the same most recent
    pattern.  (2) Over any sequence of cycles started from the empty state in
    which the date of the most recent pattern never moves backwards, no
    pattern date is alerted twice.  (3) In the multi-instrument monitor an
    instrument listed once is handled by the same block on its own entry of
    [last_signals]: its new entry and its alerts are those of
    [check_instrument] on its own previous entry. *)
Theorem alerts_only_for_new_recent_patterns :
  (forall now data w a,
      In a (snd (Monitor.check_instrument now data w)) ->
      Monitor.last_pattern (cycle_patterns (Monitor.a_kind a) data)
      = Some (Monitor.a_pattern a) /\
      stored (Monitor.a_kind a) w <> Some (p_date (Monitor.a_pattern a)) /\
      (now - p_date (Monitor.a_pattern a) <= 3)%Z /\
      stored (Monitor.a_kind a) (fst (Monitor.check_instrument now data w))
      = Some (p_date (Monitor.a_pattern a))) /\
  (forall k cycles,
      StronglySorted Z.le (latest_dates k cycles) ->
      List.NoDup
        (alert_dates k (snd (Monitor.run_live_monitor cycles Monitor.watch_init)))) /\
  (forall now fetch watchlist (signals : gmap string Monitor.WatchState) code w,
      List.NoDup watchlist -> In code watchlist -> signals !! code = Some w ->
      fst (Monitor.multi_cycle now fetch watchlist signals) !! code
      = Some (fst (Monitor.check_instrument now (fetch code) w)) /\
      map snd (List.filter (fun ca => String.eqb (fst ca) code)
                           (snd (Monitor.multi_cycle now fetch watchlist signals)))
      = snd (Monitor.check_instrument now (fetch code) w)).
Proof.
  split; [|split].
  - apply alert_justified.
  - intros k cycles Hs.
    apply (run_alert_dates k cycles Monitor.watch_init Hs).
    intros d0 Hd0. destruct k; discriminate Hd0.
  - apply multi_cycle_instrument.
Qed.

Lemma alerts_only_for_new_recent_patterns_witness :
  StronglySorted Z.le (latest_dates Monitor.BottomAlert monitor_cycles) /\
  List.NoDup
    (alert_dates Monitor.BottomAlert
       (snd (Monitor.run_live_monitor monitor_cycles Monitor.watch_init))) /\
  alert_dates Monitor.BottomAlert
    (snd (Monitor.run_live_monitor monitor_cycles Monitor.watch_init))
  = [11; 13]%Z.
Proof.
  assert (H : StronglySorted Z.le
                (latest_dates Monitor.BottomAlert monitor_cycles)).
  { replace (latest_dates Monitor.BottomAlert monitor_cycles)
      with [11; 13]%Z by (vm_compute; reflexivity).
    repeat constructor; discriminate. }
  split; [exact H|]. split.
  - exact (proj1 (proj2 alerts_only_for_new_recent_patterns) Monitor.BottomAlert
                 monitor_cycles H).
  - vm_compute. reflexivity.
Defined.

(** Every listed instrument starts with an empty entry. *)
Lemma init_signals_lookup (watchlist : list string) (code : string) :
  In code watchlist ->
  Monitor.init_signals watchlist !! code = Some Monitor.watch_init.
Proof.
  unfold Monitor.init_signals.
  induction watchlist as [|c rest IH]; intros Hin; [destruct Hin|].
  simpl. destruct (String.eqb_spec c code) as [->|Hne].
  - apply lookup_insert_eq.
  - rewrite lookup_insert_ne by exact Hne. apply IH.
    destruct Hin as [->|Hin]; [contradiction|exact Hin].
Qed.

(** ** Ranges and shapes of the indicator columns *)

Lemma Qdiv_nonneg (x y : Q) : (0 <= x)%Q -> (0 <= y)%Q -> (0 <= x / y)%Q.
Proof.
  intros Hx Hy. unfold Qdiv. apply Qmult_le_0_compat; [exact Hx|].
  now apply Qinv_le_0_compat.
Qed.

Lemma Qsum_nonneg (l : list Q) : Forall (fun x => (0 <= x)%Q) l -> (0 <= Qsum l)%Q.
Proof.
  induction 1 as [|x l Hx _ IH].
  - unfold Qsum. simpl. apply Qle_refl.
  - rewrite Qsum_cons. lra.
Qed.

Lemma Qsum_nonpos (l : list Q) : Forall (fun x => (x <= 0)%Q) l -> (Qsum l <= 0)%Q.
Proof.
  induction 1 as [|x l Hx _ IH].
  - unfold Qsum. simpl. apply Qle_refl.
  - rewrite Qsum_cons. lra.
Qed.

Lemma nat_Q_pos (n : nat) : (1 <= n)%nat -> (1 <= inject_Z (Z.of_nat n))%Q.
Proof.
  intros H. change 1%Q with (inject_Z 1). rewrite <- Zle_Qle. lia.
Qed.

Lemma length_diff (l : list Q) : length (diff l) = (length l - 1)%nat.
Proof.
  induction l as [|a [|b t] IH]; simpl in *; try reflexivity.
  rewrite IH. lia.
Qed.

Lemma rsi_loop_length (period up down : Q) (ds : list Q) :
  length (Indicators.rsi_loop period up down ds) = length ds.
Proof.
  revert up down. induction ds as [|d ds IH]; intros up down; simpl; [reflexivity|].
  now rewrite IH.
Qed.

Lemma calculate_rsi_length (prices : list Q) (period : nat) :
  (1 <= period)%nat ->
  length (Indicators.calculate_rsi prices period) = length prices.
Proof.
  intros Hp. unfold Indicators.calculate_rsi.
  rewrite length_app, repeat_length, rsi_loop_length, length_skipn, length_diff. lia.
Qed.

Lemma rsi_value_range (up down : Q) :
  (0 <= up)%Q -> (0 <= down)%Q ->
  (0 <= Indicators.rsi_value up down <= 100)%Q.
Proof.
  intros Hu Hd. unfold Indicators.rsi_value.
  set (rs := if negb (Qeq_bool down 0) then (up / down)%Q else 0%Q).
  assert (Hrs : (0 <= rs)%Q).
  { unfold rs. destruct (negb (Qeq_bool down 0)); [now apply Qdiv_nonneg|apply Qle_refl]. }
  assert (Hpos : (0 < 1 + rs)%Q) by lra.
  assert (H1 : (100 / (1 + rs) <= 100)%Q) by (apply Qle_shift_div_r; [exact Hpos|lra]).
  assert (H2 : (0 <= 100 / (1 + rs))%Q) by (apply Qle_shift_div_l; [exact Hpos|lra]).
  lra.
Qed.

Lemma rsi_loop_range (period up down : Q) (ds : list Q) :
  (1 <= period)%Q -> (0 <= up)%Q -> (0 <= down)%Q ->
  Forall (fun r => (0 <= r <= 100)%Q) (Indicators.rsi_loop period up down ds).
Proof.
  intros Hp. revert up down. induction ds as [|d ds IH]; intros up down Hu Hd; simpl.
  - constructor.
  - assert (Hu' : (0 <= (up * (period - 1) + (if Qlt_bool 0 d then d else 0)) / period)%Q).
    { apply Qdiv_nonneg; [|lra].
      assert (0 <= up * (period - 1))%Q by (apply Qmult_le_0_compat; lra).
      destruct (Qlt_bool 0 d) eqn:E; [apply Qlt_bool_iff in E|]; lra. }
    assert (Hd' : (0 <= (down * (period - 1) + (if Qlt_bool 0 d then 0 else - d)) / period)%Q).
    { apply Qdiv_nonneg; [|lra].
      assert (0 <= down * (period - 1))%Q by (apply Qmult_le_0_compat; lra).
      destruct (Qlt_bool 0 d) eqn:E; [|apply Qlt_bool_false_iff in E]; lra. }
    constructor; [now apply rsi_value_range|now apply IH].
Qed.

Lemma rsi_seed_up_nonneg (period : nat) (deltas : list Q) :
  (0 <= Indicators.rsi_seed_up period deltas)%Q.
Proof.
  unfold Indicators.rsi_seed_up. apply Qdiv_nonneg.
  - apply Qsum_nonneg, List.Forall_forall. intros x Hx.
    apply List.filter_In in Hx as [_ Hx]. now apply Qle_bool_iff.
  - change 0%Q with (inject_Z 0). rewrite <- Zle_Qle. lia.
Qed.

Lemma rsi_seed_down_nonneg (period : nat) (deltas : list Q) :
  (0 <= Indicators.rsi_seed_down period deltas)%Q.
Proof.
  unfold Indicators.rsi_seed_down. apply Qdiv_nonneg.
  - assert (Qsum (List.filter (fun d => Qlt_bool d 0) (firstn (period + 1) deltas)) <= 0)%Q.
    { apply Qsum_nonpos, List.Forall_forall. intros x Hx.
      apply List.filter_In in Hx as [_ Hx]. apply Qlt_bool_iff in Hx. lra. }
    lra.
  - change 0%Q with (inject_Z 0). rewrite <- Zle_Qle. lia.
Qed.

(** X1.  [calculate_rsi] (both scripts), for a period of at least 1 and any
    price array, the empty one included: the result has one cell per price
    and every cell lies between 0 and 100. *)
Theorem rsi_stays_between_0_and_100 (prices : list Q) (period : nat) :
  (1 <= period)%nat ->
  length (Indicators.calculate_rsi prices period) = length prices /\
  Forall (fun r => (0 <= r <= 100)%Q) (Indicators.calculate_rsi prices period).
Proof.
  intros Hp. split; [now apply calculate_rsi_length|].
  unfold Indicators.calculate_rsi. apply List.Forall_app. split.
  - apply List.Forall_forall. intros r Hr. apply repeat_spec in Hr. subst r.
    apply rsi_value_range; [apply rsi_seed_up_nonneg|apply rsi_seed_down_nonneg].
  - apply rsi_loop_range;
      [now apply nat_Q_pos|apply rsi_seed_up_nonneg|apply rsi_seed_down_nonneg].
Qed.

Lemma rsi_stays_between_0_and_100_witness :
  (1 <= 14)%nat /\
  length (Indicators.calculate_rsi rsi_seed_prices 14) = length rsi_seed_prices /\
  Forall (fun r => (0 <= r <= 100)%Q) (Indicators.calculate_rsi rsi_seed_prices 14).
Proof.
  split; [lia|]. apply (rsi_stays_between_0_and_100 rsi_seed_prices). lia.
Defined.

Lemma rsi_value_no_loss (up down : Q) :
  (down == 0)%Q -> (Indicators.rsi_value up down == 0)%Q.
Proof.
  intros Hd. unfold Indicators.rsi_value.
  apply Qeq_bool_iff in Hd. rewrite Hd. simpl. reflexivity.
Qed.

Lemma rsi_loop_no_loss (period up down : Q) (ds : list Q) :
  (down == 0)%Q -> Forall (fun d => (0 <= d)%Q) ds ->
  Forall (fun r => (r == 0)%Q) (Indicators.rsi_loop period up down ds).
Proof.
  intros Hd Hds. revert up down Hd.
  induction Hds as [|d ds H0 _ IH]; intros up down Hd; simpl.
  - constructor.
  - assert (Hd' : ((down * (period - 1) + (if Qlt_bool 0 d then 0 else - d)) / period == 0)%Q).
    { assert (Hn : (down * (period - 1) + (if Qlt_bool 0 d then 0 else - d) == 0)%Q).
      { rewrite Hd. destruct (Qlt_bool 0 d) eqn:E; [ring|].
        apply Qlt_bool_false_iff in E. assert (d == 0)%Q by lra. lra. }
      rewrite Hn. unfold Qdiv. ring. }
    constructor; [now apply rsi_value_no_loss|now apply IH].
Qed.

Lemma Forall_firstn_Q (P : Q -> Prop) (n : nat) (l : list Q) :
  Forall P l -> Forall P (firstn n l).
Proof.
  intros H. revert n. induction H as [|x l Hx _ IH]; intros [|n]; simpl; constructor; auto.
Qed.

Lemma Forall_skipn_Q (P : Q -> Prop) (n : nat) (l : list Q) :
  Forall P l -> Forall P (skipn n l).
Proof.
  intros H. revert n. induction H as [|x l Hx Hl IH]; intros [|n]; simpl; auto.
Qed.

Lemma filter_losses_nil (l : list Q) :
  Forall (fun d => (0 <= d)%Q) l -> List.filter (fun d => Qlt_bool d 0) l = [].
Proof.
  induction 1 as [|d l Hd _ IH]; simpl; [reflexivity|].
  destruct (Qlt_bool d 0) eqn:E; [|exact IH].
  apply Qlt_bool_iff in E. lra.
Qed.

(** X2.  [calculate_rsi] (both scripts): when no close is below the one
    before it, the average loss stays 0, [rs] takes the value of the [else 0]
    branch and every cell of the result is 0: on a series that only rises
    the column reads 0, below the threshold 30 of the bottom score. *)
Theorem rsi_is_zero_when_no_close_falls (prices : list Q) (period : nat) :
  (1 <= period)%nat ->
  Forall (fun d => (0 <= d)%Q) (diff prices) ->
  Forall (fun r => (r == 0)%Q /\ Qlt_bool r 30 = true)
         (Indicators.calculate_rsi prices period).
Proof.
  intros _ Hup.
  assert (Hseed : (Indicators.rsi_seed_down period (diff prices) == 0)%Q).
  { unfold Indicators.rsi_seed_down.
    rewrite filter_losses_nil by now apply Forall_firstn_Q.
    unfold Qsum, Qdiv. simpl. ring. }
  assert (Hall : Forall (fun r => (r == 0)%Q) (Indicators.calculate_rsi prices period)).
  { unfold Indicators.calculate_rsi. apply List.Forall_app. split.
    - apply List.Forall_forall. intros r Hr. apply repeat_spec in Hr. subst r.
      now apply rsi_value_no_loss.
    - apply rsi_loop_no_loss; [exact Hseed|now apply Forall_skipn_Q]. }
  revert Hall. apply List.Forall_impl. intros r Hr. split; [exact Hr|].
  apply Qlt_bool_iff. lra.
Qed.

Lemma rsi_is_zero_when_no_close_falls_witness :
  (1 <= 2)%nat /\
  Forall (fun d => (0 <= d)%Q) (diff (map inject_Z [10; 11; 11; 13; 14]%Z)) /\
  Forall (fun r => (r == 0)%Q /\ Qlt_bool r 30 = true)
         (Indicators.calculate_rsi (map inject_Z [10; 11; 11; 13; 14]%Z) 2).
Proof.
  assert (H : Forall (fun d => (0 <= d)%Q) (diff (map inject_Z [10; 11; 11; 13; 14]%Z))).
  { simpl. repeat constructor; discriminate. }
  split; [lia|]. split; [exact H|].
  apply (@rsi_is_zero_when_no_close_falls _ 2); [lia|exact H].
Defined.

Lemma ema_loop_length (mult prev : Q) (xs : list Q) :
  length (Indicators.ema_loop mult prev xs) = length xs.
Proof.
  revert prev. induction xs as [|x xs IH]; intros prev; simpl; [reflexivity|].
  now rewrite IH.
Qed.

Lemma ema_from_length (start : nat) (seedv mult : Q) (xs : list Q) :
  (start < length xs)%nat ->
  length (Indicators.ema_from start seedv mult xs) = length xs.
Proof.
  intros H. unfold Indicators.ema_from.
  rewrite length_app, repeat_length. simpl.
  rewrite ema_loop_length, length_skipn. lia.
Qed.

Lemma ema_from_warmup (start : nat) (seedv mult : Q) (xs : list Q) (i : nat) :
  (i < start)%nat -> iloc (Indicators.ema_from start seedv mult xs) i = 0%Q.
Proof.
  intros H. unfold iloc, Indicators.ema_from.
  rewrite app_nth1 by (rewrite repeat_length; lia).
  apply List.nth_repeat.
Qed.

Lemma ema_from_seed (start : nat) (seedv mult : Q) (xs : list Q) :
  iloc (Indicators.ema_from start seedv mult xs) start = seedv.
Proof.
  unfold iloc, Indicators.ema_from.
  rewrite app_nth2 by (rewrite repeat_length; lia).
  rewrite repeat_length, Nat.sub_diag. reflexivity.
Qed.

Lemma Qsub_list_length (a b : list Q) :
  length a = length b -> length (Indicators.Qsub_list a b) = length a.
Proof.
  intros H. unfold Indicators.Qsub_list.
  rewrite length_map, length_combine. lia.
Qed.

Lemma Qsub_list_iloc (a b : list Q) (i : nat) :
  length a = length b -> (i < length a)%nat ->
  iloc (Indicators.Qsub_list a b) i = (iloc a i - iloc b i)%Q.
Proof.
  intros Hab Hi. unfold iloc, Indicators.Qsub_list.
  set (f := fun p : Q * Q => (fst p - snd p)%Q).
  rewrite (nth_indep _ 0%Q (f (0%Q, 0%Q)))
    by (rewrite length_map, length_combine; lia).
  rewrite map_nth, combine_nth by exact Hab. reflexivity.
Qed.

(** X3.  [calculate_macd] (both scripts), for periods of at least 1 and a
    price array of at least [slow_period + signal_period] entries: the call
    returns three arrays with one cell per price; the histogram is the MACD
    line minus the signal line on every row; the MACD line is 0 on the rows
    [0 .. slow_period-1] and the signal line is 0 on the rows
    [0 .. slow_period+signal_period-2], so that the histogram repeats the
    MACD line there. *)
Theorem macd_columns_shape (prices : list Q) (fast slow signal : nat) :
  (1 <= slow)%nat -> (1 <= signal)%nat -> (slow + signal <= length prices)%nat ->
  exists m s h,
    Indicators.calculate_macd prices fast slow signal = Some (m, s, h) /\
    length m = length prices /\ length s = length prices /\
    length h = length prices /\
    (forall i, (i < length prices)%nat -> iloc h i = (iloc m i - iloc s i)%Q) /\
    (forall i, (i < slow)%nat -> (iloc m i == 0)%Q) /\
    (forall i, (i < slow + signal - 1)%nat ->
               iloc s i = 0%Q /\ (iloc h i == iloc m i)%Q).
Proof.
  intros Hs Hg Hlen. unfold Indicators.calculate_macd.
  destruct (Nat.ltb_spec (length prices) (slow + signal)) as [|_]; [lia|].
  set (seedv := mean (firstn slow prices)).
  set (ef := Indicators.ema_from (slow - 1) seedv _ prices).
  set (es := Indicators.ema_from (slow - 1) seedv _ prices).
  set (m := Indicators.Qsub_list ef es).
  set (sg := Indicators.ema_from (slow + signal - 1) _ _ m).
  assert (Lef : length ef = length prices) by (apply ema_from_length; lia).
  assert (Les : length es = length prices) by (apply ema_from_length; lia).
  assert (Lm : length m = length prices)
    by (unfold m; rewrite Qsub_list_length; congruence).
  assert (Lsg : length sg = length prices)
    by (unfold sg; rewrite ema_from_length; [exact Lm|lia]).
  assert (Hm0 : forall i, (i < slow)%nat -> (iloc m i == 0)%Q).
  { intros i Hi. unfold m. rewrite Qsub_list_iloc by (congruence || lia).
    destruct (Nat.eq_dec i (slow - 1)) as [->|Hne].
    - unfold ef, es. rewrite !ema_from_seed. ring.
    - unfold ef, es. rewrite !ema_from_warmup by lia. ring. }
  assert (Hh : forall i, (i < length prices)%nat ->
                         iloc (Indicators.Qsub_list m sg) i = (iloc m i - iloc sg i)%Q).
  { intros i Hi. apply Qsub_list_iloc; [congruence|lia]. }
  exists m, sg, (Indicators.Qsub_list m sg).
  split; [reflexivity|]. split; [exact Lm|]. split; [exact Lsg|].
  split; [rewrite Qsub_list_length; congruence|].
  split; [exact Hh|]. split; [exact Hm0|].
  intros i Hi.
  assert (Hs0 : iloc sg i = 0%Q) by (unfold sg; apply ema_from_warmup; exact Hi).
  split; [exact Hs0|]. rewrite Hh by lia. rewrite Hs0. ring.
Qed.

Lemma macd_columns_shape_witness :
  (1 <= 2)%nat /\ (1 <= 2)%nat /\
  (2 + 2 <= length (map inject_Z [10; 11; 12; 11; 13]%Z))%nat /\
  exists m s h,
    Indicators.calculate_macd (map inject_Z [10; 11; 12; 11; 13]%Z) 1 2 2
    = Some (m, s, h) /\
    length m = length (map inject_Z [10; 11; 12; 11; 13]%Z) /\
    length s = length (map inject_Z [10; 11; 12; 11; 13]%Z) /\
    length h = length (map inject_Z [10; 11; 12; 11; 13]%Z) /\
    (forall i, (i < length (map inject_Z [10; 11; 12; 11; 13]%Z))%nat ->
               iloc h i = (iloc m i - iloc s i)%Q) /\
    (forall i, (i < 2)%nat -> (iloc m i == 0)%Q) /\
    (forall i, (i < 2 + 2 - 1)%nat -> iloc s i = 0%Q /\ (iloc h i == iloc m i)%Q).
Proof.
  split; [lia|]. split; [lia|]. split; [simpl; lia|].
  apply macd_columns_shape; simpl; lia.
Defined.

Lemma bollinger_cell (np_sqrt : Q -> Q) (prices : list Q) (period : nat) (num_std : Q)
    (i : nat) :
  (i < length prices)%nat ->
  let cell := if (i <? period - 1)%nat then (0%Q, 0%Q, 0%Q)
              else Indicators.bollinger_at np_sqrt prices period num_std i in
  let '(u, m, l) := Indicators.calculate_bollinger_bands np_sqrt prices period num_std in
  iloc u i = fst (fst cell) /\ iloc m i = snd (fst cell) /\ iloc l i = snd cell.
Proof.
  intros Hi. unfold Indicators.calculate_bollinger_bands, iloc. cbv zeta.
  set (g := fun i => if (i <? period - 1)%nat then (0%Q, 0%Q, 0%Q)
                     else Indicators.bollinger_at np_sqrt prices period num_std i).
  assert (Hn : forall (f : Q * Q * Q -> Q),
             nth i (map f (map g (seq 0 (length prices)))) 0%Q = f (g i)).
  { intros f.
    rewrite (nth_indep _ 0%Q (f (g 0%nat))) by (rewrite !length_map, length_seq; exact Hi).
    rewrite map_nth, map_nth, seq_nth by exact Hi. reflexivity. }
  rewrite !Hn. auto.
Qed.

(** X4.  [calculate_bollinger_bands] (both scripts), for a period of at
    least 1, a non-negative [num_std] and a square root that is never
    negative: the three arrays have one cell per price, and on every row
    the lower band is at most the middle band and the middle band at most
    the upper band (the warm-up rows, which hold 0 three times, included). *)
Theorem bollinger_bands_ordered (np_sqrt : Q -> Q) (prices : list Q) (period : nat)
    (num_std : Q) :
  (1 <= period)%nat -> (forall x, (0 <= np_sqrt x)%Q) -> (0 <= num_std)%Q ->
  exists u m l,
    Indicators.calculate_bollinger_bands np_sqrt prices period num_std = (u, m, l) /\
    length u = length prices /\ length m = length prices /\
    length l = length prices /\
    forall i, (i < length prices)%nat ->
      (iloc l i <= iloc m i)%Q /\ (iloc m i <= iloc u i)%Q.
Proof.
  intros _ Hsqrt Hnum.
  pose proof (bollinger_cell np_sqrt prices period num_std) as Hcell.
  destruct (Indicators.calculate_bollinger_bands np_sqrt prices period num_std)
    as [[u m] l] eqn:E.
  exists u, m, l. split; [reflexivity|].
  unfold Indicators.calculate_bollinger_bands in E.
  injection E as <- <- <-.
  rewrite !length_map, length_seq.
  do 3 (split; [reflexivity|]).
  intros i Hi. specialize (Hcell i Hi). cbv zeta in Hcell.
  destruct Hcell as (-> & -> & ->).
  destruct (i <? period - 1)%nat; simpl.
  - split; apply Qle_refl.
  - set (w := slice prices (i - (period - 1)) (i + 1)).
    assert (0 <= Indicators.np_std np_sqrt w * num_std)%Q
      by (apply Qmult_le_0_compat; [apply Hsqrt|exact Hnum]).
    split; lra.
Qed.

Lemma sqrt_floor_nonneg (x : Q) : (0 <= sqrt_floor x)%Q.
Proof.
  unfold sqrt_floor, Qle. simpl. rewrite Z.mul_1_r. apply Z.sqrt_nonneg.
Qed.

Lemma bollinger_bands_ordered_witness :
  (1 <= 2)%nat /\ (forall x, (0 <= sqrt_floor x)%Q) /\ (0 <= 2)%Q /\
  exists u m l,
    Indicators.calculate_bollinger_bands sqrt_floor (map inject_Z [10; 12; 11]%Z) 2 2
    = (u, m, l) /\
    length u = length (map inject_Z [10; 12; 11]%Z) /\
    length m = length (map inject_Z [10; 12; 11]%Z) /\
    length l = length (map inject_Z [10; 12; 11]%Z) /\
    forall i, (i < length (map inject_Z [10; 12; 11]%Z))%nat ->
      (iloc l i <= iloc m i)%Q /\ (iloc m i <= iloc u i)%Q.
Proof.
  split; [lia|]. split; [exact sqrt_floor_nonneg|]. split; [discriminate|].
  apply bollinger_bands_ordered; [lia|exact sqrt_floor_nonneg|discriminate].
Defined.

Lemma true_ranges_length (prev_close : Q) (hlc : list (Q * Q * Q)) :
  length (Indicators.true_ranges prev_close hlc) = length hlc.
Proof.
  revert prev_close. induction hlc as [|[[h l] c] rest IH]; intros pc; simpl; [reflexivity|].
  now rewrite IH.
Qed.

Lemma true_ranges_nonneg (prev_close : Q) (hlc : list (Q * Q * Q)) :
  Forall (fun t => (0 <= t)%Q) (Indicators.true_ranges prev_close hlc).
Proof.
  revert prev_close. induction hlc as [|[[h l] c] rest IH]; intros pc; simpl; constructor.
  - apply Qle_trans with (Qabs (l - pc)); [apply Qabs_nonneg|apply Q.le_max_r].
  - apply IH.
Qed.

Lemma atr_loop_length (period prev : Q) (trs : list Q) :
  length (Indicators.atr_loop period prev trs) = length trs.
Proof.
  revert prev. induction trs as [|t trs IH]; intros prev; simpl; [reflexivity|].
  now rewrite IH.
Qed.

Lemma atr_loop_nonneg (period prev : Q) (trs : list Q) :
  (1 <= period)%Q -> (0 <= prev)%Q -> Forall (fun t => (0 <= t)%Q) trs ->
  Forall (fun a => (0 <= a)%Q) (Indicators.atr_loop period prev trs).
Proof.
  intros Hp Hprev Htrs. revert prev Hprev.
  induction Htrs as [|t trs Ht _ IH]; intros prev Hprev; simpl; constructor.
  - apply Qdiv_nonneg; [|lra].
    assert (0 <= prev * (period - 1))%Q by (apply Qmult_le_0_compat; lra). lra.
  - apply IH. apply Qdiv_nonneg; [|lra].
    assert (0 <= prev * (period - 1))%Q by (apply Qmult_le_0_compat; lra). lra.
Qed.

Lemma mean_nonneg (l : list Q) : Forall (fun x => (0 <= x)%Q) l -> (0 <= mean l)%Q.
Proof.
  intros H. unfold mean. apply Qdiv_nonneg; [now apply Qsum_nonneg|].
  unfold Qlen. change 0%Q with (inject_Z 0). rewrite <- Zle_Qle. lia.
Qed.

(** X5.  [calculate_atr] (both scripts), on three arrays of one length:
    the store [atr[period] = ...] raises [IndexError] unless the arrays are
    longer than [period]; when they are, and [period >= 1], the result has one
    cell per bar, the cells [0 .. period-1] hold 0, and no cell is negative,
    whatever the prices. *)
Theorem atr_is_never_negative (high low close : list Q) (period : nat) :
  (1 <= period)%nat -> length low = length high -> length close = length high ->
  ((length high <= period)%nat ->
   Indicators.calculate_atr high low close period = None) /\
  ((period < length high)%nat ->
   exists a, Indicators.calculate_atr high low close period = Some a /\
             length a = length high /\
             Forall (fun x => (0 <= x)%Q) a /\
             forall i, (i < period)%nat -> iloc a i = 0%Q).
Proof.
  intros Hp Hl Hc. unfold Indicators.calculate_atr. split.
  - intros Hle. apply Nat.leb_le in Hle. now rewrite Hle.
  - intros Hlt. destruct (Nat.leb_spec (length high) period) as [|_]; [lia|].
    set (tr := match combine (combine high low) close with
               | [] => []
               | (_, _, c0) :: rest => 0%Q :: Indicators.true_ranges c0 rest
               end).
    assert (Ltr : length tr = length high).
    { unfold tr.
      assert (Lc : length (combine (combine high low) close) = length high)
        by (rewrite !length_combine; lia).
      destruct (combine (combine high low) close) as [|[[h l] c] rest];
        simpl in *; [lia|]. rewrite true_ranges_length. lia. }
    assert (Ntr : Forall (fun t => (0 <= t)%Q) tr).
    { unfold tr. destruct (combine (combine high low) close) as [|[[h l] c] rest];
        constructor; [apply Qle_refl|apply true_ranges_nonneg]. }
    set (seedv := mean (slice tr 1 (period + 1))).
    assert (Hseed : (0 <= seedv)%Q).
    { apply mean_nonneg. unfold slice. now apply Forall_firstn_Q, Forall_skipn_Q. }
    eexists. split; [reflexivity|]. split; [|split].
    + rewrite length_app, repeat_length. simpl.
      rewrite atr_loop_length, length_skipn. lia.
    + apply List.Forall_app. split.
      * apply List.Forall_forall. intros x Hx. apply repeat_spec in Hx. subst x.
        apply Qle_refl.
      * constructor; [exact Hseed|].
        apply atr_loop_nonneg; [now apply nat_Q_pos|exact Hseed|].
        now apply Forall_skipn_Q.
    + intros i Hi. unfold iloc.
      rewrite app_nth1 by (rewrite repeat_length; lia).
      apply List.nth_repeat.
Qed.

Lemma atr_is_never_negative_witness :
  (1 <= 2)%nat /\
  length (map inject_Z [9; 10; 8; 11]%Z) = length (map inject_Z [11; 12; 12; 13]%Z) /\
  length (map inject_Z [10; 11; 9; 12]%Z) = length (map inject_Z [11; 12; 12; 13]%Z) /\
  ((length (map inject_Z [11; 12; 12; 13]%Z) <= 2)%nat ->
   Indicators.calculate_atr (map inject_Z [11; 12; 12; 13]%Z) (map inject_Z [9; 10; 8; 11]%Z)
                            (map inject_Z [10; 11; 9; 12]%Z) 2 = None) /\
  ((2 < length (map inject_Z [11; 12; 12; 13]%Z))%nat ->
   exists a,
     Indicators.calculate_atr (map inject_Z [11; 12; 12; 13]%Z) (map inject_Z [9; 10; 8; 11]%Z)
                              (map inject_Z [10; 11; 9; 12]%Z) 2 = Some a /\
     length a = length (map inject_Z [11; 12; 12; 13]%Z) /\
     Forall (fun x => (0 <= x)%Q) a /\
     forall i, (i < 2)%nat -> iloc a i = 0%Q).
Proof.
  split; [lia|]. split; [reflexivity|]. split; [reflexivity|].
  apply atr_is_never_negative; [lia|reflexivity|reflexivity].
Defined.

(** ** The frame built by get_data *)

Lemma insert_by_date_perm (b : Bar) (l : list Bar) :
  Permutation (b :: l) (insert_by_date b l).
Proof.
  induction l as [|c l IH]; simpl; [reflexivity|].
  destruct (b_date b <? b_date c)%Z; [reflexivity|].
  rewrite perm_swap. now constructor.
Qed.

Lemma sort_values_perm (l : list Bar) : Permutation l (sort_values l).
Proof.
  induction l as [|b l IH]; simpl; [constructor|].
  rewrite <- insert_by_date_perm. now constructor.
Qed.

Lemma sort_values_length (l : list Bar) : length (sort_values l) = length l.
Proof. symmetry. apply Permutation_length, sort_values_perm. Qed.

Lemma insert_by_date_sorted (b : Bar) (l : list Bar) :
  Sorted date_le l -> Sorted date_le (insert_by_date b l).
Proof.
  induction 1 as [|c l Hs IH Hhd]; simpl.
  - repeat constructor.
  - destruct (Z.ltb_spec (b_date b) (b_date c)) as [Hlt|Hge].
    + constructor; [now constructor|]. constructor. unfold date_le. lia.
    + constructor; [exact IH|].
      destruct l as [|d l]; simpl.
      * constructor. exact Hge.
      * destruct (b_date b <? b_date d)%Z; constructor; [exact Hge|].
        now inversion Hhd.
Qed.

Lemma sort_values_sorted (l : list Bar) : StronglySorted date_le (sort_values l).
Proof.
  apply Sorted_StronglySorted.
  - intros x y z. unfold date_le. lia.
  - induction l as [|b l IH]; simpl; [constructor|].
    now apply insert_by_date_sorted.
Qed.

Lemma rolling_mean_length (n : nat) (xs : list Q) :
  length (rolling_mean n xs) = length xs.
Proof. unfold rolling_mean. now rewrite length_map, length_seq. Qed.

Lemma get_data_fails_window (np_sqrt : Q -> Q) (fetched : list Bar) :
  get_data np_sqrt fetched = None <-> (27 <= length fetched <= 34)%nat.
Proof.
  unfold get_data. rewrite sort_values_length.
  set (bars := sort_values fetched).
  assert (Lb : length bars = length fetched) by apply sort_values_length.
  unfold Indicators.calculate_macd, Indicators.calculate_atr.
  rewrite !length_map, Lb.
  destruct (Indicators.calculate_bollinger_bands np_sqrt (map b_close bars) 20 2)
    as [[u m] l].
  destruct (Nat.ltb_spec 26 (length fetched)) as [H26|H26];
    destruct (Nat.ltb_spec (length fetched) (26 + 9)) as [H35|H35];
    destruct (Nat.ltb_spec 14 (length fetched)) as [H14|H14];
    destruct (Nat.leb_spec (length fetched) 14) as [H14'|H14'];
    try lia; split; intros H; try discriminate H; try reflexivity; lia.
Qed.

(** X6.  [get_data] (both scripts): the indicator block raises, and the
    method returns an empty frame without setting [self.data], exactly when
    the provider returned between 27 and 34 rows: the MACD columns are
    requested from 27 rows on, while [calculate_macd] stores into index 34 of
    its signal array. *)
Theorem get_data_fails_between_27_and_34_rows (np_sqrt : Q -> Q) (fetched : list Bar) :
  get_data np_sqrt fetched = None <-> (27 <= length fetched <= 34)%nat.
Proof. apply get_data_fails_window. Qed.

Lemma calculate_macd_lengths (prices : list Q) (fast slow signal : nat)
    (m s h : list Q) :
  (1 <= slow)%nat ->
  Indicators.calculate_macd prices fast slow signal = Some (m, s, h) ->
  length m = length prices /\ length s = length prices /\ length h = length prices.
Proof.
  intros Hs. unfold Indicators.calculate_macd.
  destruct (Nat.ltb_spec (length prices) (slow + signal)) as [|Hlen]; [discriminate|].
  intros [= <- <- <-].
  assert (L1 : forall mult, length (Indicators.ema_from (slow - 1)
                                      (mean (firstn slow prices)) mult prices)
                            = length prices)
    by (intros mult; apply ema_from_length; lia).
  assert (Lm : forall a b, length (Indicators.Qsub_list
                  (Indicators.ema_from (slow - 1) (mean (firstn slow prices)) a prices)
                  (Indicators.ema_from (slow - 1) (mean (firstn slow prices)) b prices))
               = length prices)
    by (intros a b; rewrite Qsub_list_length; rewrite !L1; reflexivity).
  split; [apply Lm|].
  assert (Ls : forall sv mult a b, length (Indicators.ema_from (slow + signal - 1) sv mult
                 (Indicators.Qsub_list
                  (Indicators.ema_from (slow - 1) (mean (firstn slow prices)) a prices)
                  (Indicators.ema_from (slow - 1) (mean (firstn slow prices)) b prices)))
               = length prices)
    by (intros sv mult a b; rewrite ema_from_length; [apply Lm|rewrite Lm; lia]).
  split; [apply Ls|].
  rewrite Qsub_list_length; [apply Lm|]. now rewrite Lm, Ls.
Qed.

Lemma calculate_atr_length (high low close : list Q) (period : nat) (a : list Q) :
  length low = length high -> length close = length high ->
  Indicators.calculate_atr high low close period = Some a ->
  length a = length high.
Proof.
  intros Hl Hc. unfold Indicators.calculate_atr.
  destruct (Nat.leb_spec (length high) period) as [|Hlt]; [discriminate|].
  intros [= <-].
  rewrite length_app, repeat_length. simpl.
  rewrite atr_loop_length, length_skipn.
  assert (Lc : length (combine (combine high low) close) = length high)
    by (rewrite !length_combine; lia).
  destruct (combine (combine high low) close) as [|[[h l] c] rest];
    simpl in *; [lia|]. rewrite true_ranges_length. lia.
Qed.

Lemma bollinger_lengths (np_sqrt : Q -> Q) (prices : list Q) (period : nat)
    (num_std : Q) (u m l : list Q) :
  Indicators.calculate_bollinger_bands np_sqrt prices period num_std = (u, m, l) ->
  length u = length prices /\ length m = length prices /\ length l = length prices.
Proof.
  unfold Indicators.calculate_bollinger_bands. intros [= <- <- <-].
  now rewrite !length_map, length_seq.
Qed.

(** X7.  [get_data] (both scripts), outside the failing window of 27 to 34
    rows: a frame is built, it has one row per fetched bar, every column,
    indicator columns included, has one cell per row, and the indicator
    columns present are those the row count selects: [rsi] and [atr] above 14
    rows, the Bollinger columns above 20, the MACD columns above 26. *)
Theorem get_data_columns_aligned (np_sqrt : Q -> Q) (fetched : list Bar) :
  (length fetched < 27 \/ 34 < length fetched)%nat ->
  exists df,
    get_data np_sqrt fetched = Some df /\
    frame_len df = length fetched /\
    length (open df) = length fetched /\
    length (high df) = length fetched /\
    length (low df) = length fetched /\
    length (close df) = length fetched /\
    length (vol df) = length fetched /\
    length (ma5 df) = length fetched /\
    length (ma10 df) = length fetched /\
    length (ma20 df) = length fetched /\
    length (ma60 df) = length fetched /\
    col_aligned (length fetched) (14 <? length fetched)%nat (rsi df) /\
    col_aligned (length fetched) (26 <? length fetched)%nat (macd df) /\
    col_aligned (length fetched) (26 <? length fetched)%nat (macd_signal df) /\
    col_aligned (length fetched) (26 <? length fetched)%nat (macd_hist df) /\
    col_aligned (length fetched) (20 <? length fetched)%nat (bb_upper df) /\
    col_aligned (length fetched) (20 <? length fetched)%nat (bb_middle df) /\
    col_aligned (length fetched) (20 <? length fetched)%nat (bb_lower df) /\
    col_aligned (length fetched) (14 <? length fetched)%nat (atr df).
Proof.
  intros Hn.
  destruct (get_data np_sqrt fetched) as [df|] eqn:E.
  2: { apply get_data_fails_window in E. lia. }
  exists df. split; [reflexivity|].
  revert E. unfold get_data. rewrite sort_values_length.
  set (bars := sort_values fetched).
  assert (Lb : length bars = length fetched) by apply sort_values_length.
  destruct (Indicators.calculate_bollinger_bands np_sqrt (map b_close bars) 20 2)
    as [[u m] l] eqn:Ebb.
  apply bollinger_lengths in Ebb. rewrite length_map, Lb in Ebb.
  destruct Ebb as (Lu & Lm & Ll).
  pose proof (@calculate_rsi_length (map b_close bars) 14) as Lrsi.
  rewrite length_map, Lb in Lrsi. specialize (Lrsi ltac:(lia)).
  assert (Hmacd : forall mm ss hh,
             Indicators.calculate_macd (map b_close bars) 12 26 9 = Some (mm, ss, hh) ->
             length mm = length fetched /\ length ss = length fetched /\
             length hh = length fetched).
  { intros mm ss hh Em. apply calculate_macd_lengths in Em; [|lia].
    now rewrite length_map, Lb in Em. }
  assert (Hatr : forall a,
             Indicators.calculate_atr (map b_high bars) (map b_low bars)
                                      (map b_close bars) 14 = Some a ->
             length a = length fetched).
  { intros a Ea. apply calculate_atr_length in Ea; [|now rewrite !length_map..].
    now rewrite length_map, Lb in Ea. }
  destruct (Indicators.calculate_macd (map b_close bars) 12 26 9)
    as [[[mm ss] hh]|] eqn:Em;
    destruct (Indicators.calculate_atr (map b_high bars) (map b_low bars)
                                       (map b_close bars) 14) as [a|] eqn:Ea;
    destruct (14 <? length fetched)%nat eqn:E14;
    destruct (26 <? length fetched)%nat eqn:E26;
    destruct (20 <? length fetched)%nat eqn:E20;
    intros [= <-]; unfold frame_len, col_aligned;
    cbn [trade_date open high low close vol ma5 ma10 ma20 ma60 rsi macd macd_signal
         macd_hist bb_upper bb_middle bb_lower atr fst snd];
    try (destruct (Hmacd _ _ _ eq_refl) as (? & ? & ?));
    try (pose proof (Hatr _ eq_refl));
    repeat split;
    first [ reflexivity
          | assumption
          | rewrite length_map; exact Lb
          | rewrite rolling_mean_length, length_map; exact Lb ].
Qed.

Lemma get_data_columns_aligned_witness :
  (length lookahead_bars < 27 \/ 34 < length lookahead_bars)%nat /\
  exists df,
    get_data sqrt_floor lookahead_bars = Some df /\
    frame_len df = length lookahead_bars /\
    length (open df) = length lookahead_bars /\
    length (high df) = length lookahead_bars /\
    length (low df) = length lookahead_bars /\
    length (close df) = length lookahead_bars /\
    length (vol df) = length lookahead_bars /\
    length (ma5 df) = length lookahead_bars /\
    length (ma10 df) = length lookahead_bars /\
    length (ma20 df) = length lookahead_bars /\
    length (ma60 df) = length lookahead_bars /\
    col_aligned (length lookahead_bars) (14 <? length lookahead_bars)%nat (rsi df) /\
    col_aligned (length lookahead_bars) (26 <? length lookahead_bars)%nat (macd df) /\
    col_aligned (length lookahead_bars) (26 <? length lookahead_bars)%nat (macd_signal df) /\
    col_aligned (length lookahead_bars) (26 <? length lookahead_bars)%nat (macd_hist df) /\
    col_aligned (length lookahead_bars) (20 <? length lookahead_bars)%nat (bb_upper df) /\
    col_aligned (length lookahead_bars) (20 <? length lookahead_bars)%nat (bb_middle df) /\
    col_aligned (length lookahead_bars) (20 <? length lookahead_bars)%nat (bb_lower df) /\
    col_aligned (length lookahead_bars) (14 <? length lookahead_bars)%nat (atr df).
Proof.
  assert (H : (length lookahead_bars < 27 \/ 34 < length lookahead_bars)%nat)
    by (left; vm_compute; lia).
  split; [exact H|]. exact (get_data_columns_aligned sqrt_floor lookahead_bars H).
Defined.

(** The six provider columns of the frame are those of the sorted rows. *)
Lemma get_data_raw_columns (np_sqrt : Q -> Q) (fetched : list Bar) (df : Frame) :
  get_data np_sqrt fetched = Some df ->
  trade_date df = map b_date (sort_values fetched) /\
  open df = map b_open (sort_values fetched) /\
  high df = map b_high (sort_values fetched) /\
  low df = map b_low (sort_values fetched) /\
  close df = map b_close (sort_values fetched) /\
  vol df = map b_vol (sort_values fetched).
Proof.
  unfold get_data.
  destruct (Indicators.calculate_bollinger_bands _ _ _ _) as [[u m] l].
  destruct (if (26 <? _)%nat then _ else _) as [[[mm ss] hh]|]; [|discriminate].
  destruct (if (14 <? length (sort_values fetched))%nat
            then match Indicators.calculate_atr _ _ _ _ with
                 | Some a => Some (Some a) | None => None end
            else Some None) as [a|]; [|discriminate].
  intros [= <-]. cbn. repeat split; reflexivity.
Qed.

Lemma get_data_dates_sorted (np_sqrt : Q -> Q) (fetched : list Bar) (df : Frame) :
  get_data np_sqrt fetched = Some df -> StronglySorted Z.le (trade_date df).
Proof.
  intros E. apply get_data_raw_columns in E as (-> & _).
  pose proof (sort_values_sorted fetched) as Hs.
  induction Hs as [|b l _ IH Hall]; simpl; constructor; [exact IH|].
  rewrite List.Forall_forall in *. intros d Hd.
  apply List.in_map_iff in Hd as (c & <- & Hc). now apply Hall.
Qed.

Lemma get_data_frame_len (np_sqrt : Q -> Q) (fetched : list Bar) (df : Frame) :
  get_data np_sqrt fetched = Some df -> frame_len df = length fetched.
Proof.
  intros E. apply get_data_raw_columns in E as (E & _).
  unfold frame_len. now rewrite E, length_map, sort_values_length.
Qed.

(** X8.  [get_data] (both scripts): whatever the order in which the
    provider returns the rows, the frame holds exactly the fetched bars, each
    once, in ascending order of [trade_date]. *)
Theorem get_data_rows_in_date_order (np_sqrt : Q -> Q) (fetched : list Bar) (df : Frame) :
  get_data np_sqrt fetched = Some df ->
  exists bars,
    Permutation fetched bars /\
    StronglySorted date_le bars /\
    trade_date df = map b_date bars /\
    open df = map b_open bars /\
    high df = map b_high bars /\
    low df = map b_low bars /\
    close df = map b_close bars /\
    vol df = map b_vol bars /\
    StronglySorted Z.le (trade_date df).
Proof.
  intros E. exists (sort_values fetched).
  split; [apply sort_values_perm|]. split; [apply sort_values_sorted|].
  pose proof (get_data_dates_sorted _ _ E) as Hs.
  apply get_data_raw_columns in E as (E1 & E2 & E3 & E4 & E5 & E6).
  repeat split; assumption.
Qed.

Lemma get_data_rows_in_date_order_witness :
  exists df,
    get_data sqrt_floor unordered_bars = Some df /\
    exists bars,
      Permutation unordered_bars bars /\
      StronglySorted date_le bars /\
      trade_date df = map b_date bars /\
      open df = map b_open bars /\
      high df = map b_high bars /\
      low df = map b_low bars /\
      close df = map b_close bars /\
      vol df = map b_vol bars /\
      StronglySorted Z.le (trade_date df).
Proof.
  eexists.
  assert (H : forall (A B : Prop), A -> (A -> B) -> A /\ B) by tauto.
  apply H.
  - vm_compute. reflexivity.
  - apply get_data_rows_in_date_order.
Defined.

(** ** Provider code and endpoint *)

Lemma prefix_cons (a b : Ascii.ascii) (p s : string) :
  String.prefix (String a p) (String b s)
  = if Ascii.ascii_dec a b then String.prefix p s else false.
Proof. reflexivity. Qed.

Lemma prefix_nil (s : string) : String.prefix "" s = true.
Proof. now destruct s. Qed.

Lemma prefix_app (p s t : string) :
  String.prefix p s = true -> String.prefix p (String.append s t) = true.
Proof.
  revert s. induction p as [|a p IH]; intros s H; [apply prefix_nil|].
  destruct s as [|b s]; [discriminate|].
  change (String.append (String b s) t) with (String b (String.append s t)).
  rewrite prefix_cons in *.
  destruct (Ascii.ascii_dec a b); [now apply IH|discriminate].
Qed.

Lemma prefix_app_long (p s t : string) :
  (String.length p <= String.length s)%nat ->
  String.prefix p (String.append s t) = String.prefix p s.
Proof.
  revert s. induction p as [|a p IH]; intros s H; [now rewrite !prefix_nil|].
  destruct s as [|b s]; [simpl in H; lia|].
  change (String.append (String b s) t) with (String b (String.append s t)).
  rewrite !prefix_cons.
  destruct (Ascii.ascii_dec a b); [apply IH; simpl in H; lia|reflexivity].
Qed.

(** A code that starts with the character [a] starts with no literal whose
    first character is another one. *)
Lemma prefix_other_head (a b : Ascii.ascii) (p q s : string) :
  a <> b -> String.prefix (String a p) s = true ->
  String.prefix (String b q) s = false.
Proof.
  intros Hab H. destruct s as [|c s]; [reflexivity|].
  rewrite prefix_cons in *.
  destruct (Ascii.ascii_dec a c) as [<-|]; [|discriminate].
  destruct (Ascii.ascii_dec b a) as [->|]; [contradiction|reflexivity].
Qed.

Lemma endpoint_of_ts_code (code : string) :
  endpoint_of (ts_code code)
  = if startswith "000" code || startswith "399" code then IndexDaily else Daily.
Proof.
  unfold endpoint_of, ts_code, startswith.
  destruct (String.prefix "399" code) eqn:E399.
  - rewrite (@prefix_app _ _ _ E399). now rewrite !orb_true_r.
  - destruct (String.prefix "000" code) eqn:E000.
    + destruct (String.length code =? 6)%nat; now rewrite (@prefix_app _ _ _ E000).
    + destruct (String.prefix "6" code) eqn:E6.
      * pose proof (@prefix_app _ _ ".SH" E6) as E6'.
        assert (H0 : String.prefix "000" (String.append code ".SH") = false)
          by (eapply prefix_other_head; [|exact E6']; discriminate).
        assert (H3 : String.prefix "399" (String.append code ".SH") = false)
          by (eapply prefix_other_head; [|exact E6']; discriminate).
        now rewrite H0, H3.
      * destruct (Nat.eqb_spec (String.length code) 6) as [L|L].
        -- rewrite !prefix_app_long by (rewrite L; simpl; lia).
           now rewrite E000, E399.
        -- now rewrite E000, E399.
Qed.

(** X9.  The head of [get_data] (both scripts): a six-character code
    receives the suffix [.SH] when it starts with [6] and [.SZ] otherwise;
    a code that starts with none of [399], [000], [6] and is not six
    characters long is sent unchanged; and the index endpoint is used
    exactly for the codes that start with [000] or [399], six-character
    [000...] codes included, every other code going to the stock endpoint. *)
Theorem provider_code_and_endpoint (code : string) :
  ((String.length code = 6)%nat ->
   ts_code code
   = String.append code (if startswith "6" code then ".SH" else ".SZ")) /\
  (startswith "399" code = false -> startswith "000" code = false ->
   startswith "6" code = false -> (String.length code <> 6)%nat ->
   ts_code code = code) /\
  (fst (provider_request code) = IndexDaily <->
   startswith "000" code = true \/ startswith "399" code = true).
Proof.
  split; [|split].
  - intros L. unfold ts_code, startswith. rewrite L. simpl Nat.eqb. cbv iota.
    destruct (String.prefix "399" code) eqn:E399.
    + assert (H6 : String.prefix "6" code = false)
        by (eapply prefix_other_head; [|exact E399]; discriminate).
      now rewrite H6.
    + destruct (String.prefix "000" code) eqn:E000.
      * assert (H6 : String.prefix "6" code = false)
          by (eapply prefix_other_head; [|exact E000]; discriminate).
        now rewrite H6.
      * destruct (String.prefix "6" code); reflexivity.
  - intros E399 E000 E6 L. unfold ts_code. rewrite E399, E000, E6.
    apply Nat.eqb_neq in L. now rewrite L.
  - unfold provider_request. cbn [fst]. rewrite endpoint_of_ts_code.
    destruct (startswith "000" code), (startswith "399" code); simpl;
      split; auto; try discriminate; intros [H|H]; discriminate.
Qed.

Lemma provider_code_and_endpoint_witness :
  provider_request "000001" = (IndexDaily, "000001.SZ"%string) /\
  provider_request "600519" = (Daily, "600519.SH"%string) /\
  provider_request "300750" = (Daily, "300750.SZ"%string) /\
  (fst (provider_request "000001") = IndexDaily <->
   startswith "000" "000001" = true \/ startswith "399" "000001" = true).
Proof.
  split; [reflexivity|]. split; [reflexivity|]. split; [reflexivity|].
  exact (proj2 (proj2 (provider_code_and_endpoint "000001"))).
Defined.

(** ** More on the batch detector *)

Lemma Qlt_bool_asym (x y : Q) : Qlt_bool x y = true -> Qlt_bool y x = false.
Proof.
  intros H. apply Qlt_bool_iff in H. apply Qlt_bool_false_iff. lra.
Qed.

Lemma bottom_fractal_not_adjacent (df : Frame) (i : nat) :
  Detector.is_bottom_fractal df i = true ->
  Detector.is_bottom_fractal df (i + 1) = false.
Proof.
  unfold Detector.is_bottom_fractal. intros H.
  apply andb_prop in H as [_ H].
  replace (i + 1 - 1)%nat with i by lia.
  now rewrite (Qlt_bool_asym _ _ H).
Qed.

Lemma top_fractal_not_adjacent (df : Frame) (i : nat) :
  Detector.is_top_fractal df i = true ->
  Detector.is_top_fractal df (i + 1) = false.
Proof.
  unfold Detector.is_top_fractal. intros H.
  apply andb_prop in H as [_ H].
  replace (i + 1 - 1)%nat with i by lia.
  now rewrite (Qlt_bool_asym _ _ H).
Qed.

(** X10.  [identify_bottom_pattern] and [identify_top_pattern] (both
    scripts): the loop never appends a pattern of one kind for two
    consecutive rows; a row reported as a bottom is followed by a row that
    is not, and the same for tops. *)
Theorem patterns_never_on_consecutive_rows (df : Frame) (i : nat) :
  (forall p, Detector.bottom_pattern_at df i = Some p ->
             Detector.bottom_pattern_at df (i + 1) = None) /\
  (forall p, Detector.top_pattern_at df i = Some p ->
             Detector.top_pattern_at df (i + 1) = None).
Proof.
  split; intros p H.
  - apply bottom_pattern_at_spec in H as (H & _).
    unfold Detector.bottom_pattern_at.
    now rewrite (bottom_fractal_not_adjacent _ _ H).
  - apply top_pattern_at_spec in H as (H & _).
    unfold Detector.top_pattern_at.
    now rewrite (top_fractal_not_adjacent _ _ H).
Qed.

Lemma patterns_never_on_consecutive_rows_witness :
  exists df p,
    get_data sqrt_floor lookahead_bars = Some df /\
    Detector.bottom_pattern_at df 2 = Some p /\
    Detector.bottom_pattern_at df (2 + 1) = None.
Proof.
  eexists. eexists. split; [vm_compute; reflexivity|].
  assert (H : forall (A B : Prop), A -> (A -> B) -> A /\ B) by tauto.
  apply H.
  - vm_compute. reflexivity.
  - apply (proj1 (patterns_never_on_consecutive_rows _ 2)).
Defined.

Lemma filter_labels_nodup (fs : list Factor) :
  List.NoDup (map label fs) -> List.NoDup (map label (List.filter satisfied fs)).
Proof.
  induction fs as [|f fs IH]; simpl; intros Hl; [constructor|].
  apply List.NoDup_cons_iff in Hl as [Hn Hl].
  destruct (satisfied f); simpl.
  - apply List.NoDup_cons_iff. split; [|now apply IH].
    intros Hin. apply Hn. apply List.in_map_iff in Hin as (g & Hg & Hin).
    apply List.in_map_iff. exists g. split; [exact Hg|].
    now apply List.filter_In in Hin as [Hin _].
  - now apply IH.
Qed.

Lemma score_range (fs : list Factor) :
  map weight fs = table_weights ->
  List.NoDup (map label fs) ->
  (3 <= fst (score_factors fs))%Q ->
  (fst (score_factors fs) <= 8)%Q /\
  (2 <= length (snd (score_factors fs)) <= 6)%nat /\
  List.NoDup (snd (score_factors fs)).
Proof.
  intros Hw Hl. rewrite score_factors_spec. cbn [fst snd].
  destruct fs as [|[c1 w1 l1] [|[c2 w2 l2] [|[c3 w3 l3] [|[c4 w4 l4]
    [|[c5 w5 l5] [|[c6 w6 l6] [|]]]]]]]; try discriminate Hw.
  injection Hw as -> -> -> -> -> ->.
  unfold satisfied_weights, satisfied_labels.
  intros H3.
  pose proof (filter_labels_nodup _ Hl) as Hnd.
  split; [|split; [|exact Hnd]].
  - clear Hnd Hl. revert H3.
    destruct c1, c2, c3, c4, c5, c6; cbn [List.filter satisfied map weight];
      unfold Qsum; cbn [fold_left]; intros H3; lra.
  - clear Hnd Hl. revert H3.
    destruct c1, c2, c3, c4, c5, c6;
      cbn [List.filter satisfied map weight label length];
      unfold Qsum; cbn [fold_left]; intros H3; first [lia|exfalso; lra].
Qed.

(** X11.  [identify_bottom_pattern] and [identify_top_pattern] (both
    scripts): every pattern of the returned list has a score between 3 and
    8 (the sum of the six weights) and lists between two and six reasons,
    none of them twice. *)
Theorem pattern_scores_and_reasons_are_bounded (df : Frame) (p : Pattern) :
  In p (Detector.identify_bottom_pattern df) \/
  In p (Detector.identify_top_pattern df) ->
  (3 <= p_score p <= 8)%Q /\
  (2 <= length (p_reason p) <= 6)%nat /\
  List.NoDup (p_reason p).
Proof.
  intros [H|H].
  - apply identify_bottom_pattern_spec in H as (j & _ & _ & H3 & ->).
    unfold bottom_entry. cbn [p_score p_reason].
    rewrite bottom_score_table in *.
    destruct (@score_range (bottom_factors df j)) as (H8 & Hlen & Hnd);
      [reflexivity| |exact H3|auto].
    cbn. repeat (constructor; [simpl; intuition discriminate|]). constructor.
  - apply identify_top_pattern_spec in H as (j & _ & _ & H3 & ->).
    unfold top_entry. cbn [p_score p_reason].
    rewrite top_score_table in *.
    destruct (@score_range (top_factors df j)) as (H8 & Hlen & Hnd);
      [reflexivity| |exact H3|auto].
    cbn. repeat (constructor; [simpl; intuition discriminate|]). constructor.
Qed.

Lemma pattern_scores_and_reasons_are_bounded_witness :
  exists df p,
    get_data sqrt_floor lookahead_bars = Some df /\
    (In p (Detector.identify_bottom_pattern df) \/
     In p (Detector.identify_top_pattern df)) /\
    (3 <= p_score p <= 8)%Q /\
    (2 <= length (p_reason p) <= 6)%nat /\
    List.NoDup (p_reason p).
Proof.
  eexists. eexists. split; [vm_compute; reflexivity|].
  assert (H : forall (A B : Prop), A -> (A -> B) -> A /\ B) by tauto.
  apply H.
  - left. vm_compute. left. reflexivity.
  - apply pattern_scores_and_reasons_are_bounded.
Defined.

Lemma sorted_nth_le (l : list Z) (i j : nat) :
  StronglySorted Z.le l -> (i <= j)%nat -> (j < length l)%nat ->
  (nth i l 0 <= nth j l 0)%Z.
Proof.
  intros Hs. revert i j. induction Hs as [|a l _ IH Hall]; intros i j Hij Hj.
  - simpl in Hj. lia.
  - destruct i as [|i], j as [|j]; simpl in *; try lia.
    + rewrite List.Forall_forall in Hall. apply Hall, nth_In. lia.
    + apply IH; lia.
Qed.

Lemma collect_dates_sorted (df : Frame) (body : nat -> option Pattern) (idxs : list nat) :
  StronglySorted Z.le (trade_date df) ->
  StronglySorted lt idxs ->
  Forall (fun i => (i < frame_len df)%nat) idxs ->
  (forall i p, body i = Some p -> p_date p = date_at df i) ->
  StronglySorted Z.le (map p_date (Detector.collect body idxs)).
Proof.
  intros Hd Hs Hlen Hbody.
  induction Hs as [|i idxs Hs IH Hall]; simpl; [constructor|].
  apply List.Forall_inv_tail in Hlen as Hlen'.
  apply List.Forall_inv in Hlen.
  destruct (body i) as [p|] eqn:E; [|now apply IH].
  simpl. constructor; [now apply IH|].
  apply List.Forall_forall. intros d Hin.
  apply List.in_map_iff in Hin as (q & <- & Hq).
  apply in_collect in Hq as (j & Hj & Hq).
  rewrite (Hbody _ _ E), (Hbody _ _ Hq).
  rewrite List.Forall_forall in Hall, Hlen'.
  unfold date_at. apply sorted_nth_le; [exact Hd| |].
  - specialize (Hall _ Hj). lia.
  - apply Hlen', Hj.
Qed.

Lemma seq_sorted (a n : nat) : StronglySorted lt (seq a n).
Proof.
  revert a. induction n as [|n IH]; intros a; simpl; constructor; [apply IH|].
  apply List.Forall_forall. intros x Hx. apply List.in_seq in Hx. lia.
Qed.

Lemma pattern_dates_sorted (df : Frame) :
  StronglySorted Z.le (trade_date df) ->
  StronglySorted Z.le (map p_date (Detector.identify_bottom_pattern df)) /\
  StronglySorted Z.le (map p_date (Detector.identify_top_pattern df)).
Proof.
  intros Hd.
  assert (Hr : Forall (fun i => (i < frame_len df)%nat) (Detector.scan_range df)).
  { apply List.Forall_forall. intros i Hi. apply in_scan_range in Hi. lia. }
  split; apply (@collect_dates_sorted df); try assumption; try apply seq_sorted.
  - intros i p H. apply bottom_pattern_at_spec in H as (_ & _ & ->). reflexivity.
  - intros i p H. apply top_pattern_at_spec in H as (_ & _ & ->). reflexivity.
Qed.

Lemma last_is_greatest (l : list Z) (d x : Z) :
  StronglySorted Z.le l -> In x l -> (x <= List.last l d)%Z.
Proof.
  intros Hs. revert x. induction Hs as [|a l _ IH Hall]; intros x Hx; [destruct Hx|].
  destruct l as [|b l]; simpl in *.
  - destruct Hx as [<-|[]]. lia.
  - destruct Hx as [<-|Hx].
    + rewrite List.Forall_forall in Hall.
      apply Z.le_trans with b; [apply Hall; now left|apply IH; now left].
    + now apply IH.
Qed.

Lemma latest_date_is_greatest (patterns : list Pattern) (p q : Pattern) :
  StronglySorted Z.le (map p_date patterns) ->
  Monitor.last_pattern patterns = Some q -> In p patterns ->
  (p_date p <= p_date q)%Z.
Proof.
  intros Hs Hq Hp.
  assert (Hl : List.last (map p_date patterns) 0%Z = p_date q).
  { unfold Monitor.last_pattern in Hq. clear Hs Hp.
    induction patterns as [|a [|b l] IH]; simpl in *; [discriminate|congruence|].
    now apply IH. }
  rewrite <- Hl. apply last_is_greatest; [exact Hs|]. now apply List.in_map.
Qed.

(** X12.  [get_data] followed by [identify_bottom_pattern] or
    [identify_top_pattern] (both scripts): the patterns are listed in
    ascending date order, so that [patterns[-1]], the entry on which the
    monitors decide, is a pattern of the latest date. *)
Theorem last_pattern_is_the_latest (np_sqrt : Q -> Q) (fetched : list Bar) (df : Frame) :
  get_data np_sqrt fetched = Some df ->
  StronglySorted Z.le (map p_date (Detector.identify_bottom_pattern df)) /\
  StronglySorted Z.le (map p_date (Detector.identify_top_pattern df)) /\
  (forall p q, Monitor.last_pattern (Detector.identify_bottom_pattern df) = Some q ->
               In p (Detector.identify_bottom_pattern df) -> (p_date p <= p_date q)%Z) /\
  (forall p q, Monitor.last_pattern (Detector.identify_top_pattern df) = Some q ->
               In p (Detector.identify_top_pattern df) -> (p_date p <= p_date q)%Z).
Proof.
  intros E. apply get_data_dates_sorted in E.
  destruct (@pattern_dates_sorted df E) as [Hb Ht].
  split; [exact Hb|]. split; [exact Ht|]. split.
  - intros p q. now apply latest_date_is_greatest.
  - intros p q. now apply latest_date_is_greatest.
Qed.

Lemma last_pattern_is_the_latest_witness :
  exists df,
    get_data sqrt_floor monitor_day14_early = Some df /\
    StronglySorted Z.le (map p_date (Detector.identify_bottom_pattern df)) /\
    StronglySorted Z.le (map p_date (Detector.identify_top_pattern df)) /\
    (forall p q, Monitor.last_pattern (Detector.identify_bottom_pattern df) = Some q ->
                 In p (Detector.identify_bottom_pattern df) -> (p_date p <= p_date q)%Z) /\
    (forall p q, Monitor.last_pattern (Detector.identify_top_pattern df) = Some q ->
                 In p (Detector.identify_top_pattern df) -> (p_date p <= p_date q)%Z).
Proof.
  eexists.
  assert (H : forall (A B : Prop), A -> (A -> B) -> A /\ B) by tauto.
  apply H.
  - vm_compute. reflexivity.
  - apply last_pattern_is_the_latest.
Defined.

(** ** One position at a time *)

Lemma sequential_mono (df : Frame) (b b' : nat) (l : list Trade) :
  (b <= b')%nat -> sequential df b l -> sequential df b' l.
Proof.
  intros Hle. destruct l as [|t l]; simpl; [auto|].
  intros (lo & hi & Hs & Hhi & Hrest). exists lo, hi.
  split; [exact Hs|]. split; [lia|exact Hrest].
Qed.

Lemma span_inv_weaken (df : Frame) (b b' : nat) h bd bp tr :
  (b <= b')%nat -> span_inv df b h bd bp tr -> span_inv df b' h bd bp tr.
Proof.
  intros Hle. unfold span_inv. destruct h.
  - intros (lo & Hlo & Hrest). exists lo. split; [lia|exact Hrest].
  - apply sequential_mono. lia.
Qed.

Lemma span_inv_open (df : Frame) (b : nat) bd bp tr :
  span_inv df b false bd bp tr ->
  span_inv df (b + 1) true (Some (date_at df (b + 1))) (iloc (open df) (b + 1)) tr.
Proof.
  unfold span_inv. intros H. exists (b + 1)%nat. repeat split; auto.
Qed.

Lemma span_inv_close (df : Frame) (b : nat) bd bp tr bd' bp' br px r :
  span_inv df b true bd bp tr -> (b < frame_len df)%nat ->
  px = iloc (open df) b \/ px = iloc (close df) b ->
  span_inv df b false bd' bp' (tr ++ [make_trade bd bp br (date_at df b) px r]).
Proof.
  unfold span_inv. intros (lo & Hlo & -> & -> & Hseq) Hb Hpx.
  rewrite rev_app_distr. simpl. exists lo, b.
  split; [|split; [lia|exact Hseq]].
  unfold trade_span. cbn. repeat split; auto; lia.
Qed.

Lemma fractal_before_exits_span (df : Frame) (i : nat) (st : Fractal.State) :
  (1 <= i)%nat -> (i < frame_len df)%nat ->
  fractal_span_inv df (i - 1) st ->
  fractal_span_inv df i (Fractal.before_exits df i st).
Proof.
  intros H1 Hi. unfold fractal_span_inv, Fractal.before_exits. intros H.
  destruct (update_highest_fields df i st)
    as (Uh & Ubp & Ubd & _ & _ & _ & _ & _ & Utr & _).
  rewrite <- Uh, <- Ubp, <- Ubd, <- Utr in H. clear Uh Ubp Ubd Utr.
  set (st1 := Fractal.update_highest df i st) in *. clearbody st1.
  assert (H2 : fractal_span_inv df i (Fractal.fill_pending_buy df i st1)).
  { unfold fractal_span_inv, Fractal.fill_pending_buy.
    destruct (Fractal.pending_buy_signal st1 && negb (Fractal.holding st1)) eqn:E.
    - apply andb_prop in E as [_ E]. apply negb_true_iff in E. rewrite E in H.
      apply span_inv_open in H. replace (i - 1 + 1)%nat with i in H by lia.
      exact H.
    - eapply span_inv_weaken; [|exact H]. lia. }
  set (st2 := Fractal.fill_pending_buy df i st1) in *. clearbody st2.
  assert (H3 : fractal_span_inv df i (Fractal.fill_pending_sell df i st2)).
  { unfold fractal_span_inv, Fractal.fill_pending_sell.
    destruct (Fractal.pending_sell_signal st2 && Fractal.holding st2) eqn:E; [|exact H2].
    apply andb_prop in E as [_ E]. unfold fractal_span_inv in H2. rewrite E in H2.
    unfold Fractal.close_position. proj.
    apply span_inv_close; auto. }
  set (st3 := Fractal.fill_pending_sell df i st2) in *. clearbody st3.
  unfold fractal_span_inv in H3. unfold Fractal.detect_bottom.
  destruct (negb (Fractal.holding st3) && negb (Fractal.pending_buy_signal st3)
            && (2 <=? i)%nat); [|exact H3].
  destruct (Fractal.bottom_signal df i) as [[s r]|]; [|exact H3].
  proj. exact H3.
Qed.

Lemma fractal_sell_block_span (P : Params) (df : Frame) (i : nat) (st : Fractal.State) :
  (i < frame_len df)%nat ->
  fractal_span_inv df i st -> fractal_span_inv df i (Fractal.sell_block P df i st).
Proof.
  intros Hi H. unfold fractal_span_inv in *. unfold Fractal.sell_block.
  destruct (Fractal.holding st && negb (Fractal.pending_sell_signal st)) eqn:E; [|exact H].
  apply andb_prop in E as [E _]. rewrite E in H.
  destruct (Fractal.stop_loss_hit P df i st).
  { unfold Fractal.close_position. proj. apply span_inv_close; auto. }
  destruct (Fractal.trailing_stop_hit P df i st).
  { unfold Fractal.close_position. proj. apply span_inv_close; auto. }
  destruct (if (2 <=? i)%nat then _ else _); proj; rewrite ?E; exact H.
Qed.

Lemma fractal_run_span (P : Params) (df : Frame) (k : nat) :
  (k + 2 <= frame_len df)%nat ->
  fractal_span_inv df (k + 1) (Fractal.run_steps P df k).
Proof.
  induction k as [|k IH]; intros Hk.
  - unfold fractal_span_inv, span_inv. simpl. exact I.
  - rewrite run_steps_S. unfold Fractal.step.
    replace (S k + 1)%nat with (k + 2)%nat by lia.
    apply fractal_sell_block_span; [lia|].
    apply fractal_before_exits_span; [lia|lia|].
    replace (k + 2 - 1)%nat with (k + 1)%nat by lia. apply IH. lia.
Qed.

Lemma last_is_nth (A : Type) (l : list A) (d : A) :
  List.last l d = nth (length l - 1) l d.
Proof.
  induction l as [|a [|b l] IH]; simpl in *; try reflexivity.
  rewrite IH. now rewrite Nat.sub_0_r.
Qed.

Lemma fractal_trades_sequential (P : Params) (df : Frame) :
  length (close df) = frame_len df ->
  sequential df (frame_len df) (rev (Fractal.backtest_trades P df)).
Proof.
  intros Hc. unfold Fractal.backtest_trades, Fractal.close_at_end.
  destruct (Nat.le_gt_cases 2 (frame_len df)) as [Hlen|Hlen].
  - pose proof (@fractal_run_span P df (frame_len df - 2) ltac:(lia)) as H.
    replace (frame_len df - 2 + 1)%nat with (frame_len df - 1)%nat in H by lia.
    set (st := Fractal.run_steps P df (frame_len df - 2)) in *. clearbody st.
    unfold fractal_span_inv in H.
    destruct (Fractal.holding st) eqn:Eh; simpl.
    + destruct (Nat.ltb_spec 0 (frame_len df)) as [_|]; [|lia].
      assert (Hd : List.last (trade_date df) 0%Z = date_at df (frame_len df - 1))
        by (unfold date_at, frame_len; apply last_is_nth).
      assert (Hp : iloc_last (close df) = iloc (close df) (frame_len df - 1))
        by (unfold iloc_last, iloc; rewrite last_is_nth, Hc; reflexivity).
      rewrite Hd, Hp.
      pose proof (@span_inv_close df (frame_len df - 1) _ _ _
                    (Fractal.buy_date st) (Fractal.buy_price st)
                    (Some (Fractal.buy_reason st)) (iloc (close df) (frame_len df - 1))
                    EndOfBacktest H ltac:(lia) (or_intror eq_refl)) as H'.
      unfold span_inv in H'.
      replace (frame_len df - 1 + 1)%nat with (frame_len df) in H' by lia. exact H'.
    + unfold span_inv in H.
      replace (frame_len df - 1 + 1)%nat with (frame_len df) in H by lia. exact H.
  - replace (frame_len df - 2)%nat with 0%nat by lia. simpl. exact I.
Qed.

Lemma sequential_adjacent (df : Frame) (bound : nat) (l1 l2 : list Trade) (t1 t2 : Trade) :
  sequential df bound (l1 ++ t2 :: t1 :: l2) ->
  exists lo1 hi1 lo2 hi2,
    trade_span df t1 lo1 hi1 /\ trade_span df t2 lo2 hi2 /\ (hi1 < lo2)%nat.
Proof.
  revert bound. induction l1 as [|t l1 IH]; intros bound; simpl.
  - intros (lo2 & hi2 & H2 & _ & lo1 & hi1 & H1 & Hlt & _).
    exists lo1, hi1, lo2, hi2. auto.
  - intros (lo & hi & _ & _ & H). eapply IH, H.
Qed.

Lemma sequential_forall (df : Frame) (bound : nat) (l : list Trade) :
  sequential df bound l -> Forall (fun t => exists lo hi, trade_span df t lo hi) l.
Proof.
  revert bound. induction l as [|t l IH]; intros bound; simpl; [constructor|].
  intros (lo & hi & H & _ & Hrest). constructor; [exists lo, hi; exact H|].
  eapply IH, Hrest.
Qed.

Lemma sequential_dates (df : Frame) (bound : nat) (ts : list Trade) :
  StronglySorted Z.le (trade_date df) ->
  sequential df bound (rev ts) ->
  Forall (fun t => (0 <= t_hold_days t)%Z) ts /\
  forall pre t1 t2 post,
    ts = pre ++ t1 :: t2 :: post ->
    exists d, t_buy_date t2 = Some d /\ (t_sell_date t1 <= d)%Z.
Proof.
  intros Hd H. split.
  - apply sequential_forall in H. apply List.Forall_rev in H.
    rewrite rev_involutive in H. revert H. apply List.Forall_impl.
    intros t (lo & hi & (Hlo & Hhi) & _ & _ & _ & _ & _ & ->).
    assert (nth lo (trade_date df) 0 <= nth hi (trade_date df) 0)%Z
      by (apply sorted_nth_le; [exact Hd|lia|exact Hhi]).
    unfold date_at. lia.
  - intros pre t1 t2 post ->.
    rewrite rev_app_distr in H. simpl in H. rewrite <- !app_assoc in H. simpl in H.
    apply sequential_adjacent in H
      as (lo1 & hi1 & lo2 & hi2 & S1 & S2 & Hlt).
    destruct S1 as (_ & _ & _ & Hs1 & _). destruct S2 as ((? & ?) & Hb2 & _).
    exists (date_at df lo2). split; [exact Hb2|]. rewrite Hs1.
    unfold date_at. apply sorted_nth_le; [exact Hd|lia|unfold frame_len, Date in *; lia].
Qed.

Lemma get_data_close_length (np_sqrt : Q -> Q) (fetched : list Bar) (df : Frame) :
  get_data np_sqrt fetched = Some df ->
  length (open df) = frame_len df /\ length (close df) = frame_len df.
Proof.
  intros E. apply get_data_raw_columns in E as (E1 & E2 & _ & _ & E5 & _).
  unfold frame_len. now rewrite E1, E2, E5, !length_map.
Qed.

(** X13.  [backtest_strategy_realtime] of [底分型.py] on a frame built by
    [get_data]: the simulator never holds two positions.  Taken latest
    first, the returned trades lie on spans of bars, entered at the open of
    the first bar of the span and left at the open or the close of its last
    bar, each span ending strictly before the next one begins; hence no
    trade has a negative [hold_days], and each trade is sold no later than
    the next one is bought. *)
Theorem first_script_trades_never_overlap (np_sqrt : Q -> Q) (fetched : list Bar)
    (df : Frame) (P : Params) :
  get_data np_sqrt fetched = Some df ->
  sequential df (frame_len df) (rev (Fractal.backtest_trades P df)) /\
  Forall (fun t => (0 <= t_hold_days t)%Z) (Fractal.backtest_trades P df) /\
  forall pre t1 t2 post,
    Fractal.backtest_trades P df = pre ++ t1 :: t2 :: post ->
    exists d, t_buy_date t2 = Some d /\ (t_sell_date t1 <= d)%Z.
Proof.
  intros E.
  pose proof (get_data_dates_sorted _ _ E) as Hd.
  apply get_data_close_length in E as [_ Hc].
  pose proof (@fractal_trades_sequential P df Hc) as Hs.
  split; [exact Hs|]. eapply sequential_dates; eassumption.
Qed.

Lemma first_script_trades_never_overlap_witness :
  exists df,
    get_data sqrt_floor stale_exit_bars = Some df /\
    sequential df (frame_len df) (rev (Fractal.backtest_trades default_params df)) /\
    Forall (fun t => (0 <= t_hold_days t)%Z) (Fractal.backtest_trades default_params df) /\
    forall pre t1 t2 post,
      Fractal.backtest_trades default_params df = pre ++ t1 :: t2 :: post ->
      exists d, t_buy_date t2 = Some d /\ (t_sell_date t1 <= d)%Z.
Proof.
  eexists.
  assert (H : forall (A B : Prop), A -> (A -> B) -> A /\ B) by tauto.
  apply H.
  - vm_compute. reflexivity.
  - apply first_script_trades_never_overlap.
Defined.

Ltac projn :=
  cbn [FractalNotify.holding FractalNotify.pending_buy_signal
       FractalNotify.pending_sell_signal FractalNotify.trades FractalNotify.buy_price
       FractalNotify.buy_date FractalNotify.buy_reason FractalNotify.highest_price
       FractalNotify.pending_buy_reason andb negb].

Lemma notify_run_steps_S (P : Params) (df : Frame) (k : nat) :
  FractalNotify.run_steps P df (S k)
  = FractalNotify.step P df (FractalNotify.run_steps P df k) (k + 2).
Proof.
  unfold FractalNotify.run_steps. rewrite List.seq_S, List.fold_left_app.
  cbn [fold_left]. now rewrite (Nat.add_comm 2 k).
Qed.

Lemma notify_before_exits_span (df : Frame) (i : nat) (st : FractalNotify.State) :
  (1 <= i)%nat -> (i < frame_len df)%nat ->
  notify_span_inv df (i - 1) st ->
  notify_span_inv df i (FractalNotify.before_exits df i st).
Proof.
  intros H1 Hi H. unfold FractalNotify.before_exits.
  assert (H2 : notify_span_inv df i (FractalNotify.fill_pending df i st)).
  { unfold notify_span_inv in *. unfold FractalNotify.fill_pending.
    destruct (FractalNotify.pending_buy_signal st && negb (FractalNotify.holding st)) eqn:E.
    - apply andb_prop in E as [_ E]. apply negb_true_iff in E. rewrite E in H.
      apply span_inv_open in H. replace (i - 1 + 1)%nat with i in H by lia.
      projn. exact H.
    - destruct (FractalNotify.pending_sell_signal st && FractalNotify.holding st) eqn:E'.
      + apply andb_prop in E' as [_ E']. rewrite E' in H.
        unfold FractalNotify.close_position. projn.
        apply span_inv_close; auto.
        eapply span_inv_weaken; [|exact H]. lia.
      + eapply span_inv_weaken; [|exact H]. lia. }
  set (st1 := FractalNotify.fill_pending df i st) in *. clearbody st1.
  assert (H3 : notify_span_inv df i (FractalNotify.update_highest df i st1)).
  { unfold notify_span_inv in *. unfold FractalNotify.update_highest.
    destruct (FractalNotify.holding st1
              && Qlt_bool (FractalNotify.highest_price st1) (iloc (close df) i));
      [projn|]; exact H2. }
  set (st2 := FractalNotify.update_highest df i st1) in *. clearbody st2.
  assert (H4 : notify_span_inv df i (FractalNotify.detect_bottom df i st2)).
  { unfold notify_span_inv in *. unfold FractalNotify.detect_bottom.
    destruct (negb (FractalNotify.holding st2)
              && negb (FractalNotify.pending_buy_signal st2) && (3 <=? i)%nat);
      [|exact H3].
    destruct (FractalNotify.bottom_signal df i) as [[s r]|]; [projn|]; exact H3. }
  set (st3 := FractalNotify.detect_bottom df i st2) in *. clearbody st3.
  unfold notify_span_inv in *. unfold FractalNotify.detect_top.
  destruct (FractalNotify.holding st3 && negb (FractalNotify.pending_sell_signal st3)
            && (3 <=? i)%nat); [|exact H4].
  destruct (FractalNotify.top_signal df i); [projn|]; exact H4.
Qed.

Lemma notify_risk_exits_span (P : Params) (df : Frame) (i : nat)
    (st : FractalNotify.State) :
  (i < frame_len df)%nat ->
  notify_span_inv df i st -> notify_span_inv df i (FractalNotify.risk_exits P df i st).
Proof.
  intros Hi H.
  destruct (risk_exits_cases P df i st) as [(-> & _)|(r & -> & Hh & _)]; [exact H|].
  unfold notify_span_inv in *. rewrite Hh in H.
  unfold FractalNotify.close_position. projn.
  apply span_inv_close; auto.
Qed.

Lemma notify_run_span (P : Params) (df : Frame) (k : nat) :
  (k + 2 <= frame_len df)%nat ->
  notify_span_inv df (k + 1) (FractalNotify.run_steps P df k).
Proof.
  induction k as [|k IH]; intros Hk.
  - unfold notify_span_inv, span_inv. simpl. exact I.
  - rewrite notify_run_steps_S. unfold FractalNotify.step.
    replace (S k + 1)%nat with (k + 2)%nat by lia.
    apply notify_risk_exits_span; [lia|].
    apply notify_before_exits_span; [lia|lia|].
    replace (k + 2 - 1)%nat with (k + 1)%nat by lia. apply IH. lia.
Qed.

Lemma notify_trades_sequential (P : Params) (df : Frame) :
  length (close df) = frame_len df ->
  sequential df (frame_len df) (rev (FractalNotify.backtest_trades P df)).
Proof.
  intros Hc. unfold FractalNotify.backtest_trades, FractalNotify.close_at_end.
  destruct (Nat.le_gt_cases 2 (frame_len df)) as [Hlen|Hlen].
  - pose proof (@notify_run_span P df (frame_len df - 2) ltac:(lia)) as H.
    replace (frame_len df - 2 + 1)%nat with (frame_len df - 1)%nat in H by lia.
    set (st := FractalNotify.run_steps P df (frame_len df - 2)) in *. clearbody st.
    unfold notify_span_inv in H.
    destruct (FractalNotify.holding st) eqn:Eh.
    + assert (Hd : List.last (trade_date df) 0%Z = date_at df (frame_len df - 1))
        by (unfold date_at, frame_len; apply last_is_nth).
      assert (Hp : iloc_last (close df) = iloc (close df) (frame_len df - 1))
        by (unfold iloc_last, iloc; rewrite last_is_nth, Hc; reflexivity).
      rewrite Hd, Hp.
      pose proof (@span_inv_close df (frame_len df - 1) _ _ _
                    (FractalNotify.buy_date st) (FractalNotify.buy_price st)
                    (FractalNotify.buy_reason st)
                    (iloc (close df) (frame_len df - 1))
                    EndOfBacktest H ltac:(lia) (or_intror eq_refl)) as H'.
      unfold span_inv in H'.
      replace (frame_len df - 1 + 1)%nat with (frame_len df) in H' by lia. exact H'.
    + unfold span_inv in H.
      replace (frame_len df - 1 + 1)%nat with (frame_len df) in H by lia. exact H.
  - replace (frame_len df - 2)%nat with 0%nat by lia. simpl. exact I.
Qed.

(** X14.  [backtest_strategy_realtime] of [底分型微信通知.py] on a frame built
    by [get_data]: the same holds there.  Taken latest first, the returned
    trades lie on spans of bars, entered at the open of the first bar and
    left at the open or the close of the last one, each span ending strictly
    before the next one begins; no trade has a negative [hold_days] and each
    trade is sold no later than the next one is bought. *)
Theorem second_script_trades_never_overlap (np_sqrt : Q -> Q) (fetched : list Bar)
    (df : Frame) (P : Params) :
  get_data np_sqrt fetched = Some df ->
  sequential df (frame_len df) (rev (FractalNotify.backtest_trades P df)) /\
  Forall (fun t => (0 <= t_hold_days t)%Z) (FractalNotify.backtest_trades P df) /\
  forall pre t1 t2 post,
    FractalNotify.backtest_trades P df = pre ++ t1 :: t2 :: post ->
    exists d, t_buy_date t2 = Some d /\ (t_sell_date t1 <= d)%Z.
Proof.
  intros E.
  pose proof (get_data_dates_sorted _ _ E) as Hd.
  apply get_data_close_length in E as [_ Hc].
  pose proof (@notify_trades_sequential P df Hc) as Hs.
  split; [exact Hs|]. eapply sequential_dates; eassumption.
Qed.

Lemma second_script_trades_never_overlap_witness :
  exists df,
    get_data sqrt_floor stale_exit_bars = Some df /\
    sequential df (frame_len df) (rev (FractalNotify.backtest_trades default_params df)) /\
    Forall (fun t => (0 <= t_hold_days t)%Z)
           (FractalNotify.backtest_trades default_params df) /\
    forall pre t1 t2 post,
      FractalNotify.backtest_trades default_params df = pre ++ t1 :: t2 :: post ->
      exists d, t_buy_date t2 = Some d /\ (t_sell_date t1 <= d)%Z.
Proof.
  eexists.
  assert (H : forall (A B : Prop), A -> (A -> B) -> A /\ B) by tauto.
  apply H.
  - vm_compute. reflexivity.
  - apply second_script_trades_never_overlap.
Defined.

(** ** Exits and their reasons *)

Lemma notify_before_exits_trades (df : Frame) (i : nat) (st : FractalNotify.State) :
  FractalNotify.trades (FractalNotify.before_exits df i st) = FractalNotify.trades st \/
  FractalNotify.trades (FractalNotify.before_exits df i st)
  = FractalNotify.trades st
    ++ [make_trade (FractalNotify.buy_date st) (FractalNotify.buy_price st)
                   (FractalNotify.buy_reason st) (date_at df i) (iloc (open df) i)
                   TopPattern].
Proof.
  unfold FractalNotify.before_exits.
  assert (H1 : forall s, FractalNotify.trades (FractalNotify.detect_top df i s)
                         = FractalNotify.trades s).
  { intros s. unfold FractalNotify.detect_top.
    destruct (_ && _ && _); [|reflexivity].
    destruct (FractalNotify.top_signal df i); reflexivity. }
  assert (H2 : forall s, FractalNotify.trades (FractalNotify.detect_bottom df i s)
                         = FractalNotify.trades s).
  { intros s. unfold FractalNotify.detect_bottom.
    destruct (_ && _ && _); [|reflexivity].
    destruct (FractalNotify.bottom_signal df i) as [[? ?]|]; reflexivity. }
  assert (H3 : forall s, FractalNotify.trades (FractalNotify.update_highest df i s)
                         = FractalNotify.trades s).
  { intros s. unfold FractalNotify.update_highest. destruct (_ && _); reflexivity. }
  rewrite H1, H2, H3. unfold FractalNotify.fill_pending.
  destruct (_ && negb _); [left; reflexivity|].
  destruct (_ && _); [right; reflexivity|left; reflexivity].
Qed.

Lemma notify_step_exits (P : Params) (df : Frame) (i : nat) (st : FractalNotify.State) :
  Forall (exit_respects_params P) (FractalNotify.trades st) ->
  Forall (exit_respects_params P) (FractalNotify.trades (FractalNotify.step P df st i)).
Proof.
  intros H. unfold FractalNotify.step.
  assert (H' : Forall (exit_respects_params P)
                 (FractalNotify.trades (FractalNotify.before_exits df i st))).
  { destruct (notify_before_exits_trades df i st) as [-> | ->]; [exact H|].
    apply List.Forall_app. split; [exact H|]. repeat constructor. }
  set (st' := FractalNotify.before_exits df i st) in *. clearbody st'.
  destruct (risk_exits_cases P df i st') as [(-> & _)|(r & -> & _ & Hr)]; [exact H'|].
  unfold FractalNotify.close_position. projn.
  apply List.Forall_app. split; [exact H'|]. constructor; [|constructor].
  unfold exit_respects_params.
  destruct Hr as [(-> & Hu & Hc)|[(-> & Hu & _)|(-> & Hpos & d & Hd & Hle)]]; cbn.
  - auto.
  - exact Hu.
  - rewrite Hd. cbn. auto.
Qed.

Lemma notify_trades_exits (P : Params) (df : Frame) :
  Forall (exit_respects_params P) (FractalNotify.backtest_trades P df).
Proof.
  unfold FractalNotify.backtest_trades.
  assert (H : forall k, Forall (exit_respects_params P)
                          (FractalNotify.trades (FractalNotify.run_steps P df k))).
  { induction k as [|k IH]; [constructor|].
    rewrite notify_run_steps_S. now apply notify_step_exits. }
  specialize (H (frame_len df - 2)%nat).
  unfold FractalNotify.close_at_end. destruct (FractalNotify.holding _); [|exact H].
  apply List.Forall_app. split; [exact H|]. repeat constructor.
Qed.

Lemma fractal_trades_exits (P : Params) (df : Frame) :
  Forall (exit_respects_params P) (Fractal.backtest_trades P df).
Proof.
  apply List.Forall_forall. intros t Ht.
  apply backtest_trades_good in Ht as (e & r & _ & _ & Hx).
  unfold exit_fill in Hx. unfold exit_respects_params.
  destruct (t_sell_reason t); try exact I; try contradiction.
  - destruct Hx as (Hp & Hu & j & _ & -> & _ & Hle). auto.
  - destruct Hx as [Hu _]. exact Hu.
Qed.

Lemma stop_level_bounds_profit (buy sell pct : Q) :
  (0 < buy)%Q -> (sell <= buy * (1 - pct / 100))%Q ->
  (profit_of buy sell <= - pct)%Q.
Proof.
  intros Hb Hs. unfold profit_of.
  assert (E : (pct / 100 == pct * (1 # 100))%Q) by (unfold Qdiv; reflexivity).
  rewrite E in Hs.
  assert (H : ((sell - buy) / buy <= - (pct * (1 # 100)))%Q).
  { apply Qle_shift_div_r; [exact Hb|].
    assert (Heq : (- (pct * (1 # 100)) * buy == buy * (1 - pct * (1 # 100)) - buy)%Q)
      by ring.
    rewrite Heq. lra. }
  set (q := ((sell - buy) / buy)%Q) in *. clearbody q. lra.
Qed.

Lemma span_buy_price_positive (np_sqrt : Q -> Q) (fetched : list Bar) (df : Frame)
    (t : Trade) (lo hi : nat) :
  get_data np_sqrt fetched = Some df ->
  Forall (fun b => (0 < b_open b)%Q) fetched ->
  trade_span df t lo hi -> (0 < t_buy_price t)%Q.
Proof.
  intros E Hpos ((Hlo & Hhi) & _ & -> & _).
  pose proof (get_data_frame_len _ _ E) as Hlen.
  apply get_data_raw_columns in E as (_ & -> & _).
  assert (Hall : Forall (fun o => (0 < o)%Q) (map b_open (sort_values fetched))).
  { apply List.Forall_forall. intros o Ho.
    apply List.in_map_iff in Ho as (b & <- & Hb).
    rewrite List.Forall_forall in Hpos. apply Hpos.
    eapply Permutation_in; [symmetry; apply sort_values_perm|exact Hb]. }
  rewrite List.Forall_forall in Hall. apply Hall. unfold iloc. apply nth_In.
  rewrite length_map, sort_values_length. lia.
Qed.

(** X15.  Both simulators, on a frame built by [get_data] from bars whose
    opens are positive: a trade closed by the fixed stop-loss carries the
    percentage of the run and its [profit_pct] is at most minus that
    percentage. *)
Theorem stop_loss_trades_lose_at_least_the_stop (np_sqrt : Q -> Q) (fetched : list Bar)
    (df : Frame) (P : Params) :
  get_data np_sqrt fetched = Some df ->
  Forall (fun b => (0 < b_open b)%Q) fetched ->
  forall t pct,
    In t (Fractal.backtest_trades P df) \/ In t (FractalNotify.backtest_trades P df) ->
    t_sell_reason t = StopLoss pct ->
    pct = stop_loss_pct P /\ (t_profit_pct t <= - pct)%Q.
Proof.
  intros E Hpos t pct Hin Hr.
  pose proof (get_data_close_length _ _ E) as [_ Hc].
  assert (Hsp : exists lo hi, trade_span df t lo hi).
  { destruct Hin as [Hin|Hin].
    - pose proof (sequential_forall _ _ _ (@fractal_trades_sequential P df Hc)) as Hs.
      rewrite List.Forall_forall in Hs. apply Hs. now apply -> List.in_rev.
    - pose proof (sequential_forall _ _ _ (@notify_trades_sequential P df Hc)) as Hs.
      rewrite List.Forall_forall in Hs. apply Hs. now apply -> List.in_rev. }
  assert (Hex : exit_respects_params P t).
  { destruct Hin as [Hin|Hin].
    - pose proof (fractal_trades_exits P df) as H.
      rewrite List.Forall_forall in H. now apply H.
    - pose proof (notify_trades_exits P df) as H.
      rewrite List.Forall_forall in H. now apply H. }
  destruct Hsp as (lo & hi & Hsp).
  pose proof (span_buy_price_positive _ E Hpos Hsp) as Hbuy.
  unfold exit_respects_params in Hex. rewrite Hr in Hex.
  destruct Hex as (-> & _ & Hle). split; [reflexivity|].
  destruct Hsp as (_ & _ & _ & _ & _ & -> & _).
  now apply stop_level_bounds_profit.
Qed.

Lemma stop_loss_trades_lose_at_least_the_stop_witness :
  exists df t,
    get_data sqrt_floor stop_precedence_bars = Some df /\
    Forall (fun b => (0 < b_open b)%Q) stop_precedence_bars /\
    (In t (Fractal.backtest_trades default_params df) \/
     In t (FractalNotify.backtest_trades default_params df)) /\
    t_sell_reason t = StopLoss 5 /\
    5%Q = stop_loss_pct default_params /\ (t_profit_pct t <= - (5))%Q.
Proof.
  eexists. eexists.
  assert (H : forall (A B C D E : Prop),
             A -> B -> C -> D -> (A -> B -> C -> D -> E) -> A /\ B /\ C /\ D /\ E)
    by tauto.
  apply H.
  - vm_compute. reflexivity.
  - repeat constructor.
  - left. vm_compute. left. reflexivity.
  - reflexivity.
  - intros E Hpos Hin Hr.
    exact (stop_loss_trades_lose_at_least_the_stop sqrt_floor default_params E Hpos _ Hin Hr).
Defined.

(** X16.  [backtest_strategy_realtime] of [底分型微信通知.py], any frame: a
    trade carries the maximum-holding reason only when [hold_days] is
    positive, the reason names the [hold_days] of the run, and the trade was
    held at least that many calendar days; a stop-loss or trailing-stop
    reason is recorded only when that stop is enabled; no trade carries the
    empty reason. *)
Theorem second_script_exit_reasons (P : Params) (df : Frame) (t : Trade) :
  In t (FractalNotify.backtest_trades P df) ->
  match t_sell_reason t with
  | StopLoss pct => pct = stop_loss_pct P /\ use_stop_loss P = true
  | TrailingStop => use_trailing_stop P = true
  | MaxHold d => d = hold_days P /\ (0 < hold_days P)%Z /\ (hold_days P <= t_hold_days t)%Z
  | TopPattern | EndOfBacktest => True
  | EmptyReason => False
  end.
Proof.
  intros Hin. pose proof (notify_trades_exits P df) as H.
  rewrite List.Forall_forall in H. specialize (H _ Hin).
  unfold exit_respects_params in H.
  destruct (t_sell_reason t); auto.
  - destruct H as (? & ? & _). auto.
  - destruct H as (-> & ? & ?). auto.
Qed.

Lemma second_script_exit_reasons_witness :
  exists df t,
    get_data sqrt_floor stop_precedence_bars = Some df /\
    In t (FractalNotify.backtest_trades (mkParams 1 true 5 true) df) /\
    match t_sell_reason t with
    | StopLoss pct => pct = 5%Q /\ true = true
    | TrailingStop => true = true
    | MaxHold d => d = 1%Z /\ (0 < 1)%Z /\ (1 <= t_hold_days t)%Z
    | TopPattern | EndOfBacktest => True
    | EmptyReason => False
    end.
Proof.
  eexists. eexists.
  assert (H : forall (A B C : Prop), A -> B -> (B -> C) -> A /\ B /\ C) by tauto.
  apply H.
  - vm_compute. reflexivity.
  - vm_compute. left. reflexivity.
  - intros Hin. exact (second_script_exit_reasons (mkParams 1 true 5 true) _ _ Hin).
Defined.

(** ** Entries of the second simulator *)

Lemma notify_entry_mono (df : Frame) (b b' : nat) d p r :
  (b <= b')%nat -> notify_entry df b d p r -> notify_entry df b' d p r.
Proof.
  intros Hle (e & s & rs & (He & Hb) & Hrest). exists e, s, rs.
  split; [lia|exact Hrest].
Qed.

Lemma notify_trades_entry_mono (df : Frame) (b b' : nat) (l : list Trade) :
  (b <= b')%nat -> Forall (notify_trade_entry df b) l ->
  Forall (notify_trade_entry df b') l.
Proof.
  intros Hle. apply List.Forall_impl. intros t. now apply notify_entry_mono.
Qed.

(** After the deferred fills of step [b]: no entry is pending any more, and
    an open position was entered by bar [b]. *)
Lemma notify_fill_pending_entries (df : Frame) (b : nat) (st : FractalNotify.State) :
  notify_inv df b st ->
  let st1 := FractalNotify.fill_pending df b st in
  FractalNotify.pending_buy_signal st1 = false /\
  (FractalNotify.holding st1 = true ->
   notify_entry df (S b) (FractalNotify.buy_date st1) (FractalNotify.buy_price st1)
                (FractalNotify.buy_reason st1)) /\
  Forall (notify_trade_entry df (S b)) (FractalNotify.trades st1).
Proof.
  intros [I1 I2 I3]. cbv zeta. unfold FractalNotify.fill_pending.
  assert (I3' : Forall (notify_trade_entry df (S b)) (FractalNotify.trades st))
    by (eapply notify_trades_entry_mono; [|exact I3]; lia).
  destruct (FractalNotify.pending_buy_signal st) eqn:Epb.
  - destruct (I1 eq_refl) as (Hh & j & s & rs & (Hj & <-) & Hs & Hr).
    rewrite Hh. projn. split; [reflexivity|]. split; [|exact I3'].
    intros _. exists j, s, rs. repeat split; auto; lia.
  - projn. destruct (FractalNotify.pending_sell_signal st && FractalNotify.holding st) eqn:E.
    + apply andb_prop in E as [_ Hh]. unfold FractalNotify.close_position. projn.
      split; [exact Epb|]. split; [discriminate|].
      apply List.Forall_app. split; [exact I3'|]. constructor; [|constructor].
      unfold notify_trade_entry. cbn.
      eapply notify_entry_mono; [|exact (I2 Hh)]. lia.
    + split; [exact Epb|]. split; [|exact I3'].
      intros Hh. eapply notify_entry_mono; [|exact (I2 Hh)]. lia.
Qed.

Lemma notify_step_entries (P : Params) (df : Frame) (b : nat) (st : FractalNotify.State) :
  notify_inv df b st -> notify_inv df (S b) (FractalNotify.step P df st b).
Proof.
  intros Hinv. unfold FractalNotify.step, FractalNotify.before_exits.
  destruct (notify_fill_pending_entries Hinv) as (Hpb & Hh & Htr).
  set (st1 := FractalNotify.fill_pending df b st) in *. clearbody st1. clear Hinv.
  assert (M2 : let st2 := FractalNotify.update_highest df b st1 in
               FractalNotify.pending_buy_signal st2 = false /\
               (FractalNotify.holding st2 = true ->
                notify_entry df (S b) (FractalNotify.buy_date st2)
                             (FractalNotify.buy_price st2) (FractalNotify.buy_reason st2)) /\
               Forall (notify_trade_entry df (S b)) (FractalNotify.trades st2)).
  { cbv zeta. unfold FractalNotify.update_highest.
    destruct (FractalNotify.holding st1
              && Qlt_bool (FractalNotify.highest_price st1) (iloc (close df) b));
      projn; auto. }
  clear Hpb Hh Htr.
  set (st2 := FractalNotify.update_highest df b st1) in *. clearbody st2.
  destruct M2 as (Hpb & Hh & Htr).
  assert (M3 : notify_inv df (S b) (FractalNotify.detect_bottom df b st2)).
  { unfold FractalNotify.detect_bottom. rewrite Hpb. projn.
    destruct (FractalNotify.holding st2) eqn:Eh; projn.
    - constructor; [rewrite Hpb; discriminate|rewrite Eh; exact Hh|exact Htr].
    - destruct (Nat.leb_spec 3 b) as [H3|H3].
      + destruct (FractalNotify.bottom_signal df b) as [[s rs]|] eqn:Eb.
        * constructor; projn; [|discriminate|exact Htr].
          intros _. split; [reflexivity|]. exists b, s, rs.
          split; [lia|]. split; [exact Eb|reflexivity].
        * constructor; [rewrite Hpb; discriminate|rewrite Eh; discriminate|exact Htr].
      + constructor; [rewrite Hpb; discriminate|rewrite Eh; discriminate|exact Htr]. }
  clear Hpb Hh Htr.
  set (st3 := FractalNotify.detect_bottom df b st2) in *. clearbody st3.
  assert (M4 : notify_inv df (S b) (FractalNotify.detect_top df b st3)).
  { destruct M3 as [I1 I2 I3]. unfold FractalNotify.detect_top.
    destruct (_ && _ && _); [|constructor; assumption].
    destruct (FractalNotify.top_signal df b); constructor; projn; assumption. }
  clear M3.
  set (st4 := FractalNotify.detect_top df b st3) in *. clearbody st4.
  destruct (risk_exits_cases P df b st4) as [(-> & _)|(r & -> & Hh & _)]; [exact M4|].
  destruct M4 as [I1 I2 I3].
  unfold FractalNotify.close_position. constructor; projn.
  - intros Hpb. destruct (I1 Hpb) as [Hf _]. congruence.
  - discriminate.
  - apply List.Forall_app. split; [exact I3|]. constructor; [|constructor].
    unfold notify_trade_entry. cbn. exact (I2 Hh).
Qed.

Lemma notify_run_entries (P : Params) (df : Frame) (k : nat) :
  notify_inv df (k + 2) (FractalNotify.run_steps P df k).
Proof.
  induction k as [|k IH].
  - constructor; simpl; try discriminate. constructor.
  - rewrite notify_run_steps_S. now apply notify_step_entries.
Qed.

Lemma notify_trades_entries (P : Params) (df : Frame) (t : Trade) :
  In t (FractalNotify.backtest_trades P df) -> notify_trade_entry df (frame_len df) t.
Proof.
  unfold FractalNotify.backtest_trades, FractalNotify.close_at_end.
  destruct (Nat.le_gt_cases 2 (frame_len df)) as [Hlen|Hlen].
  - pose proof (notify_run_entries P df (frame_len df - 2)) as Hinv.
    replace (frame_len df - 2 + 2)%nat with (frame_len df) in Hinv by lia.
    destruct Hinv as [_ I2 I3]. rewrite List.Forall_forall in I3.
    destruct (FractalNotify.holding _) eqn:Eh; [|apply I3].
    rewrite List.in_app_iff. intros [Hin|[<-|[]]]; [now apply I3|].
    unfold notify_trade_entry. cbn. exact (I2 eq_refl).
  - replace (frame_len df - 2)%nat with 0%nat by lia. simpl. tauto.
Qed.

(** X17.  [backtest_strategy_realtime] of [底分型微信通知.py], any frame:
    every trade of the returned list was entered at the open (and on the
    date) of the bar that follows a processing step [e >= 3] at which the
    causal bottom decision fired, never on that step's own bar, and carries
    the reasons of that decision; so a frame of fewer than five rows yields
    no trade, and an empty or missing frame yields the no-data message. *)
Theorem second_script_entries_follow_a_bottom_signal (P : Params) (df : Frame) :
  (forall t, In t (FractalNotify.backtest_trades P df) ->
             exists e s reasons,
               (3 <= e /\ e + 1 < frame_len df)%nat /\
               FractalNotify.bottom_signal df e = Some (s, reasons) /\
               t_buy_reason t = Some reasons /\
               t_buy_date t = Some (date_at df (e + 1)) /\
               t_buy_price t = iloc (open df) (e + 1)) /\
  ((frame_len df < 5)%nat -> FractalNotify.backtest_trades P df = []) /\
  ((0 < frame_len df < 5)%nat ->
   FractalNotify.backtest_strategy_realtime P (Some df) = NoTrades) /\
  (frame_len df = 0%nat -> FractalNotify.backtest_strategy_realtime P (Some df) = NoData) /\
  FractalNotify.backtest_strategy_realtime P None = NoData.
Proof.
  assert (H5 : (frame_len df < 5)%nat -> FractalNotify.backtest_trades P df = []).
  { intros Hlen. destruct (FractalNotify.backtest_trades P df) as [|t l] eqn:E; [reflexivity|].
    assert (Hin : In t (FractalNotify.backtest_trades P df)) by (rewrite E; now left).
    apply notify_trades_entries in Hin as (e & _ & _ & (? & ?) & _). lia. }
  split; [|split; [exact H5|split; [|split]]].
  - intros t Hin. apply (notify_trades_entries P df t Hin).
  - intros [Hpos Hlen]. unfold FractalNotify.backtest_strategy_realtime.
    destruct (Nat.eqb_spec (frame_len df) 0); [lia|]. now rewrite (H5 Hlen).
  - intros H0. unfold FractalNotify.backtest_strategy_realtime. now rewrite H0.
  - reflexivity.
Qed.

Lemma second_script_entries_follow_a_bottom_signal_witness :
  exists df t,
    get_data sqrt_floor stale_exit_bars = Some df /\
    In t (FractalNotify.backtest_trades default_params df) /\
    exists e s reasons,
      (3 <= e /\ e + 1 < frame_len df)%nat /\
      FractalNotify.bottom_signal df e = Some (s, reasons) /\
      t_buy_reason t = Some reasons /\
      t_buy_date t = Some (date_at df (e + 1)) /\
      t_buy_price t = iloc (open df) (e + 1).
Proof.
  eexists. eexists. split; [vm_compute; reflexivity|].
  assert (H : forall (A B : Prop), A -> (A -> B) -> A /\ B) by tauto.
  apply H.
  - vm_compute. left. reflexivity.
  - apply (proj1 (second_script_entries_follow_a_bottom_signal default_params _)).
Defined.

(** ** The aggregate figures *)

Lemma Qmax_list_fold_ge (l : list Q) (m : Q) :
  (m <= fold_left (fun m y => if Qlt_bool m y then y else m) l m)%Q /\
  Forall (fun x => (x <= fold_left (fun m y => if Qlt_bool m y then y else m) l m)%Q) l.
Proof.
  revert m. induction l as [|y l IH]; intros m; simpl.
  - split; [apply Qle_refl|constructor].
  - destruct (IH (if Qlt_bool m y then y else m)) as [H1 H2].
    destruct (Qlt_bool m y) eqn:E.
    + apply Qlt_bool_iff in E. split; [lra|]. constructor; assumption.
    + apply Qlt_bool_false_iff in E. split; [exact H1|]. constructor; [lra|exact H2].
Qed.

Lemma Qmin_list_fold_le (l : list Q) (m : Q) :
  (fold_left (fun m y => if Qlt_bool y m then y else m) l m <= m)%Q /\
  Forall (fun x => (fold_left (fun m y => if Qlt_bool y m then y else m) l m <= x)%Q) l.
Proof.
  revert m. induction l as [|y l IH]; intros m; simpl.
  - split; [apply Qle_refl|constructor].
  - destruct (IH (if Qlt_bool y m then y else m)) as [H1 H2].
    destruct (Qlt_bool y m) eqn:E.
    + apply Qlt_bool_iff in E. split; [lra|]. constructor; assumption.
    + apply Qlt_bool_false_iff in E. split; [exact H1|]. constructor; [lra|exact H2].
Qed.

Lemma Qmax_list_ge (l : list Q) : Forall (fun x => (x <= Qmax_list l)%Q) l.
Proof.
  destruct l as [|x l]; [constructor|]. unfold Qmax_list.
  destruct (Qmax_list_fold_ge l x) as [H1 H2]. constructor; assumption.
Qed.

Lemma Qmin_list_le (l : list Q) : Forall (fun x => (Qmin_list l <= x)%Q) l.
Proof.
  destruct l as [|x l]; [constructor|]. unfold Qmin_list.
  destruct (Qmin_list_fold_le l x) as [H1 H2]. constructor; assumption.
Qed.

Lemma Qsum_bounds (l : list Q) (lo hi : Q) :
  Forall (fun x => (lo <= x <= hi)%Q) l ->
  (lo * Qlen l <= Qsum l <= hi * Qlen l)%Q.
Proof.
  induction 1 as [|x l [Hlo Hhi] _ IH].
  - assert (E : (Qlen (@nil Q) == 0)%Q) by reflexivity.
    assert (E' : (Qsum [] == 0)%Q) by reflexivity.
    rewrite E, E'. split; ring_simplify; apply Qle_refl.
  - rewrite Qsum_cons.
    assert (E : (Qlen (x :: l) == Qlen l + 1)%Q).
    { unfold Qlen. simpl length. rewrite Nat2Z.inj_succ, <- Z.add_1_r, inject_Z_plus.
      reflexivity. }
    rewrite E. destruct IH as [IH1 IH2].
    assert (E1 : (lo * (Qlen l + 1) == lo * Qlen l + lo)%Q) by ring.
    assert (E2 : (hi * (Qlen l + 1) == hi * Qlen l + hi)%Q) by ring.
    rewrite E1, E2. split; lra.
Qed.

Lemma Qlen_pos (A : Type) (l : list A) :
  l <> [] -> (0 < inject_Z (Z.of_nat (length l)))%Q.
Proof.
  intros H. destruct l as [|a l]; [contradiction|].
  change 0%Q with (inject_Z 0). rewrite <- Zlt_Qlt. simpl length. lia.
Qed.

Lemma filter_all_length {A} (f : A -> bool) (l : list A) :
  length (List.filter f l) = length l <-> Forall (fun x => f x = true) l.
Proof.
  induction l as [|x l IH]; cbn [List.filter length].
  - split; [constructor|reflexivity].
  - pose proof (List.filter_length_le f l) as Hle.
    destruct (f x) eqn:E; cbn [length].
    + split.
      * intros H. constructor; [exact E|]. apply IH. lia.
      * intros H. inversion H; subst. f_equal. now apply IH.
    + split; [lia|]. intros H. inversion H; subst. congruence.
Qed.

Lemma filter_none_length {A} (f : A -> bool) (l : list A) :
  length (List.filter f l) = 0%nat <-> Forall (fun x => f x = false) l.
Proof.
  induction l as [|x l IH]; cbn [List.filter length].
  - split; [constructor|reflexivity].
  - destruct (f x) eqn:E; cbn [length].
    + split; [discriminate|]. intros H. inversion H; subst. congruence.
    + split.
      * intros H. constructor; [exact E|]. now apply IH.
      * intros H. inversion H; subst. now apply IH.
Qed.

Lemma Qmax_list_fold_in (r : list Q) (x : Q) :
  let m := fold_left (fun m y => if Qlt_bool m y then y else m) r x in
  m = x \/ In m r.
Proof.
  revert x. induction r as [|y r IH]; intros x; cbn [fold_left]; [now left|].
  destruct (IH (if Qlt_bool x y then y else x)) as [H|H].
  - rewrite H. destruct (Qlt_bool x y); [right; now left|now left].
  - right. now right.
Qed.

Lemma Qmin_list_fold_in (r : list Q) (x : Q) :
  let m := fold_left (fun m y => if Qlt_bool y m then y else m) r x in
  m = x \/ In m r.
Proof.
  revert x. induction r as [|y r IH]; intros x; cbn [fold_left]; [now left|].
  destruct (IH (if Qlt_bool y x then y else x)) as [H|H].
  - rewrite H. destruct (Qlt_bool y x); [right; now left|now left].
  - right. now right.
Qed.

Lemma nat_Q_div_eq (a n : nat) (k : Z) :
  (0 < nat_Q n)%Q ->
  (nat_Q a / nat_Q n == inject_Z k)%Q <-> Z.of_nat a = (k * Z.of_nat n)%Z.
Proof.
  intros Hn. unfold nat_Q in *. split.
  - intros H.
    assert (H' : (inject_Z (Z.of_nat a) == inject_Z (k * Z.of_nat n))%Q).
    { rewrite inject_Z_mult, <- H. field. lra. }
    apply inject_Z_injective. exact H'.
  - intros H. rewrite H, inject_Z_mult. field. lra.
Qed.

(** X18.  The aggregate block of [backtest_strategy_realtime] (both
    scripts): an empty trade list gives the no-trades message; otherwise the
    report counts the trades and keeps them; [max_profit_pct] and
    [max_loss_pct] are the [profit_pct] of two of the trades and every
    trade's [profit_pct] lies between them; the win rate lies between 0 and
    1, it is 1 exactly when every trade has a positive [profit_pct] and 0
    exactly when none has. *)
Theorem report_figures_are_consistent (trades : list Trade) :
  (trades = [] -> summarize trades = NoTrades) /\
  (trades <> [] ->
   exists s,
     summarize trades = Report s /\
     total_trades s = length trades /\
     details s = trades /\
     Forall (fun t => (max_loss_pct s <= t_profit_pct t <= max_profit_pct s)%Q) trades /\
     In (max_profit_pct s) (map t_profit_pct trades) /\
     In (max_loss_pct s) (map t_profit_pct trades) /\
     (0 <= win_rate s <= 1)%Q /\
     ((win_rate s == 1)%Q <-> Forall (fun t => (0 < t_profit_pct t)%Q) trades) /\
     ((win_rate s == 0)%Q <-> Forall (fun t => (t_profit_pct t <= 0)%Q) trades)).
Proof.
  split; [intros ->; reflexivity|].
  intros Hne.
  assert (Hn : (0 < nat_Q (length trades))%Q) by (apply Qlen_pos; exact Hne).
  set (profits := map t_profit_pct trades).
  set (wins := List.filter (fun p => Qlt_bool 0 p) profits).
  assert (Hlp : length profits = length trades) by (unfold profits; apply length_map).
  assert (Hb : Forall (fun x => (Qmin_list profits <= x <= Qmax_list profits)%Q) profits).
  { pose proof (Qmax_list_ge profits) as H1. pose proof (Qmin_list_le profits) as H2.
    rewrite List.Forall_forall in *. intros x Hx. split; auto. }
  assert (Hpne : profits <> []).
  { unfold profits. destruct trades; [contradiction|discriminate]. }
  exists {| total_trades := length trades;
            avg_profit_pct := (Qsum profits / nat_Q (length trades))%Q;
            win_rate := (nat_Q (length wins) / nat_Q (length trades))%Q;
            total_profit_pct := Qsum profits;
            max_profit_pct := Qmax_list profits;
            max_loss_pct := Qmin_list profits;
            avg_hold_days :=
              (inject_Z (fold_left Z.add (map t_hold_days trades) 0%Z)
               / nat_Q (length trades))%Q;
            details := trades |}.
  split; [destruct trades; [contradiction|reflexivity]|].
  cbn [total_trades avg_profit_pct win_rate total_profit_pct max_profit_pct
       max_loss_pct details].
  assert (Hwle : (length wins <= length trades)%nat).
  { rewrite <- Hlp. apply List.filter_length_le. }
  pose proof (fun k => nat_Q_div_eq (length wins) k Hn) as Heq.
  split; [reflexivity|]. split; [reflexivity|].
  split; [|split; [|split; [|split; [|split]]]].
  - unfold profits in Hb. rewrite List.Forall_forall in *.
    intros t Ht. apply Hb. now apply List.in_map.
  - unfold Qmax_list. destruct profits as [|x r]; [contradiction|].
    destruct (Qmax_list_fold_in r x) as [H|H]; [left; now rewrite H|now right].
  - unfold Qmin_list. destruct profits as [|x r]; [contradiction|].
    destruct (Qmin_list_fold_in r x) as [H|H]; [left; now rewrite H|now right].
  - split.
    + apply Qdiv_nonneg; [|lra].
      unfold nat_Q. change 0%Q with (inject_Z 0). rewrite <- Zle_Qle. lia.
    + apply Qle_shift_div_r; [exact Hn|]. rewrite Qmult_1_l.
      unfold nat_Q. rewrite <- Zle_Qle. lia.
  - change 1%Q with (inject_Z 1). rewrite Heq.
    assert (Hw : length wins = length profits <->
                 Forall (fun x => Qlt_bool 0 x = true) profits)
      by apply filter_all_length.
    rewrite List.Forall_forall. rewrite List.Forall_forall in Hw. split.
    + intros H t Ht. apply Qlt_bool_iff. apply Hw; [lia|]. now apply List.in_map.
    + intros H. assert (length wins = length profits); [|lia].
      apply Hw. intros x Hx. unfold profits in Hx.
      apply List.in_map_iff in Hx as (t & <- & Ht). apply Qlt_bool_iff. now apply H.
  - change 0%Q with (inject_Z 0). rewrite Heq.
    assert (Hw : length wins = 0%nat <->
                 Forall (fun x => Qlt_bool 0 x = false) profits)
      by apply filter_none_length.
    rewrite List.Forall_forall. rewrite List.Forall_forall in Hw. split.
    + intros H t Ht. apply Qlt_bool_false_iff. apply Hw; [lia|]. now apply List.in_map.
    + intros H. assert (length wins = 0%nat); [|lia].
      apply Hw. intros x Hx. unfold profits in Hx.
      apply List.in_map_iff in Hx as (t & <- & Ht). apply Qlt_bool_false_iff. now apply H.
Qed.

Lemma report_figures_are_consistent_witness :
  [make_trade (Some 1%Z) 100 None 3%Z 110 TopPattern;
   make_trade (Some 4%Z) 100 None 5%Z 90 (StopLoss 5)] <> [] /\
  exists s,
    summarize [make_trade (Some 1%Z) 100 None 3%Z 110 TopPattern;
               make_trade (Some 4%Z) 100 None 5%Z 90 (StopLoss 5)] = Report s /\
    total_trades s = 2%nat /\
    (0 <= win_rate s <= 1)%Q /\
    In (max_profit_pct s)
       (map t_profit_pct [make_trade (Some 1%Z) 100 None 3%Z 110 TopPattern;
                          make_trade (Some 4%Z) 100 None 5%Z 90 (StopLoss 5)]).
Proof.
  assert (Hne : [make_trade (Some 1%Z) 100 None 3%Z 110 TopPattern;
                 make_trade (Some 4%Z) 100 None 5%Z 90 (StopLoss 5)] <> [])
    by discriminate.
  split; [exact Hne|].
  destruct (proj2 (report_figures_are_consistent _) Hne)
    as (s & Hs & Hn & _ & _ & Hmax & _ & Hw & _).
  exists s. auto.
Defined.

(** ** Short, empty and missing frames *)

Lemma fractal_short_frame_no_trades (P : Params) (df : Frame) :
  (frame_len df < 4)%nat -> Fractal.backtest_trades P df = [].
Proof.
  intros Hlen. destruct (Fractal.backtest_trades P df) as [|t l] eqn:E; [reflexivity|].
  assert (Hin : In t (Fractal.backtest_trades P df)) by (rewrite E; now left).
  apply backtest_trades_good in Hin as (e & r & _ & ((? & ?) & _) & _). lia.
Qed.

(** X19.  [backtest_strategy_realtime] of [底分型.py]: a frame of fewer than
    four rows, the empty one included, yields the no-trades message.  When
    [self.data] is unset and the provider returns between 27 and 34 rows,
    [get_data] fails, [self.data] stays [None] and the method raises on
    [self.data.copy()]; the method of [底分型微信通知.py] returns its no-data
    message on the same rows. *)
Theorem backtest_on_short_or_missing_frames (P : Params) :
  (forall df, (frame_len df < 4)%nat ->
              Fractal.backtest_strategy_realtime P df = NoTrades /\
              fractal_backtest_method P (Some df) None = Some NoTrades) /\
  (forall np_sqrt fetched,
      (27 <= length fetched <= 34)%nat ->
      fractal_backtest_method P None (get_data np_sqrt fetched) = None /\
      FractalNotify.backtest_strategy_realtime P (get_data np_sqrt fetched) = NoData).
Proof.
  split.
  - intros df Hlen.
    assert (E : Fractal.backtest_strategy_realtime P df = NoTrades)
      by (unfold Fractal.backtest_strategy_realtime;
          now rewrite (fractal_short_frame_no_trades P df Hlen)).
    split; [exact E|]. unfold fractal_backtest_method. simpl. now rewrite E.
  - intros np_sqrt fetched Hn.
    apply (get_data_fails_window np_sqrt) in Hn. rewrite Hn. split; reflexivity.
Qed.

Lemma backtest_on_short_or_missing_frames_witness :
  (27 <= length (repeat (bar 1 1000 1010 990 1000 100) 30) <= 34)%nat /\
  fractal_backtest_method default_params None
    (get_data sqrt_floor (repeat (bar 1 1000 1010 990 1000 100) 30)) = None /\
  FractalNotify.backtest_strategy_realtime default_params
    (get_data sqrt_floor (repeat (bar 1 1000 1010 990 1000 100) 30)) = NoData.
Proof.
  assert (H : (27 <= length (repeat (bar 1 1000 1010 990 1000 100) 30) <= 34)%nat)
    by (rewrite repeat_length; lia).
  split; [exact H|].
  exact (proj2 (backtest_on_short_or_missing_frames default_params) sqrt_floor _ H).
Defined.

(** ** The polling window *)

(** X20.  [run_multi_monitor], one pass of [while True] at a clock with
    [0 <= minute < 60]: the watch-list is checked exactly when it is Monday
    to Friday between 09:30 and 15:00, both ends included, or, on any day of
    the week, between 08:00 and 08:09; at any other time the pass sends
    nothing and leaves [last_signals] as it was. *)
Theorem monitor_polls_only_in_its_window (t : Clock) (now : Date)
    (fetch : string -> option Frame) (watchlist : list string)
    (signals : gmap string Monitor.WatchState) :
  (0 <= minute t < 60)%Z ->
  (((weekday t < 5)%Z /\ (570 <= minute_of_day t <= 900)%Z) \/
   (480 <= minute_of_day t < 490)%Z ->
   monitor_tick t now fetch watchlist signals
   = Monitor.multi_cycle now fetch watchlist signals) /\
  (~ (((weekday t < 5)%Z /\ (570 <= minute_of_day t <= 900)%Z) \/
      (480 <= minute_of_day t < 490)%Z) ->
   monitor_tick t now fetch watchlist signals = (signals, [])).
Proof.
  intros Hm. unfold monitor_tick, is_trading_hours, force_check, minute_of_day.
  destruct (Z.leb_spec 9 (hour t)), (Z.leb_spec (hour t) 15),
    (Z.eqb_spec (hour t) 9), (Z.leb_spec 30 (minute t)),
    (Z.eqb_spec (hour t) 15), (Z.eqb_spec (minute t) 0),
    (Z.ltb_spec (weekday t) 5), (Z.eqb_spec (hour t) 8),
    (Z.leb_spec 0 (minute t)), (Z.ltb_spec (minute t) 10);
    simpl; split; intros Hw; try reflexivity; exfalso; lia.
Qed.

Lemma monitor_polls_only_in_its_window_witness :
  (0 <= minute (mkClock 15 0 4) < 60)%Z /\
  (0 <= minute (mkClock 15 1 4) < 60)%Z /\
  (0 <= minute (mkClock 8 5 6) < 60)%Z /\
  monitor_tick (mkClock 15 0 4) 14%Z (fun _ => get_data sqrt_floor monitor_day14_early)
               ["399300"%string] (Monitor.init_signals ["399300"%string])
  = Monitor.multi_cycle 14%Z (fun _ => get_data sqrt_floor monitor_day14_early)
                        ["399300"%string] (Monitor.init_signals ["399300"%string]) /\
  monitor_tick (mkClock 15 1 4) 14%Z (fun _ => get_data sqrt_floor monitor_day14_early)
               ["399300"%string] (Monitor.init_signals ["399300"%string])
  = (Monitor.init_signals ["399300"%string], []) /\
  monitor_tick (mkClock 8 5 6) 14%Z (fun _ => get_data sqrt_floor monitor_day14_early)
               ["399300"%string] (Monitor.init_signals ["399300"%string])
  = Monitor.multi_cycle 14%Z (fun _ => get_data sqrt_floor monitor_day14_early)
                        ["399300"%string] (Monitor.init_signals ["399300"%string]).
Proof.
  assert (H1 : (0 <= minute (mkClock 15 0 4) < 60)%Z) by (simpl; lia).
  assert (H2 : (0 <= minute (mkClock 15 1 4) < 60)%Z) by (simpl; lia).
  assert (H3 : (0 <= minute (mkClock 8 5 6) < 60)%Z) by (simpl; lia).
  split; [exact H1|]. split; [exact H2|]. split; [exact H3|].
  split; [|split].
  - apply (proj1 (monitor_polls_only_in_its_window _ _ _ _ _ H1)).
    left. unfold minute_of_day. simpl. lia.
  - apply (proj2 (monitor_polls_only_in_its_window _ _ _ _ _ H2)).
    unfold minute_of_day. simpl. lia.
  - apply (proj1 (monitor_polls_only_in_its_window _ _ _ _ _ H3)).
    right. unfold minute_of_day. simpl. lia.
Defined.

(** ** The watch-list kept by ConfigManager *)

Lemma as_dicts_map (l : list Config.Json) (items : list (gmap string Config.Json)) :
  Config.as_dicts l = Some items -> l = map Config.JObj items.
Proof.
  revert items. induction l as [|j l IH]; intros items; simpl.
  - now intros [= <-].
  - destruct j; try discriminate.
    destruct (Config.as_dicts l) as [r|]; [|discriminate].
    intros [= <-]. simpl. now rewrite (IH r eq_refl).
Qed.

Lemma as_dicts_of_map (items : list (gmap string Config.Json)) :
  Config.as_dicts (map Config.JObj items) = Some items.
Proof.
  induction items as [|it items IH]; simpl; [reflexivity|]. now rewrite IH.
Qed.

Lemma find_code_of_map (code : string) (items : list (gmap string Config.Json)) :
  Config.find_code code (map Config.JObj items)
  = Some (existsb (Config.has_code code) items).
Proof.
  induction items as [|it items IH]; simpl; [reflexivity|].
  destruct (Config.has_code code it); [reflexivity|exact IH].
Qed.

Lemma watchlist_of_inv (c : Config.Json) (items : list (gmap string Config.Json)) :
  watchlist_of c = Some items ->
  exists m mon,
    c = Config.JObj m /\
    m !! "monitoring"%string = Some (Config.JObj mon) /\
    mon !! "watchlist"%string = Some (Config.JList (map Config.JObj items)).
Proof.
  unfold watchlist_of. cbn [json_at]. unfold json_get.
  destruct c as [| | | | |m]; try discriminate.
  destruct (m !! "monitoring"%string) as [[| | | | |mon]|] eqn:Em; try discriminate.
  destruct (mon !! "watchlist"%string) as [[| | | |l|]|] eqn:Ew; try discriminate.
  intros H. apply as_dicts_map in H. subst l. exists m, mon. auto.
Qed.

Lemma watchlist_of_insert (m mon : gmap string Config.Json)
    (items : list (gmap string Config.Json)) :
  watchlist_of
    (Config.JObj (<["monitoring"%string :=
                     Config.JObj (<["watchlist"%string :=
                                     Config.JList (map Config.JObj items)]> mon)]> m))
  = Some items.
Proof.
  unfold watchlist_of. cbn [json_at]. unfold json_get.
  rewrite lookup_insert_eq. rewrite lookup_insert_eq. apply as_dicts_of_map.
Qed.

Lemma has_code_new_item (code name type : string) :
  Config.has_code code (new_item_dict code name type) = true.
Proof.
  unfold Config.has_code, new_item_dict.
  rewrite list_to_map_cons, lookup_insert_eq. apply String.eqb_refl.
Qed.

Lemma load_held (w : Config.World) (c : Config.Json) :
  Config.file w = Config.Holds c -> Config.load_config w = (Config.Loaded c, w).
Proof. unfold Config.load_config. now intros ->. Qed.

Lemma add_found (w : Config.World) (c : Config.Json)
    (items : list (gmap string Config.Json)) (code name type : string) :
  Config.file w = Config.Holds c -> watchlist_of c = Some items ->
  existsb (Config.has_code code) items = true ->
  Config.add_watchlist_item code name type w = (Some c, w).
Proof.
  intros Hf Hw Hex. apply watchlist_of_inv in Hw as (m & mon & -> & Em & Ew).
  unfold Config.add_watchlist_item. rewrite (load_held _ Hf). cbn [Config.deref].
  rewrite Em, Ew, find_code_of_map, Hex. reflexivity.
Qed.

Lemma add_fresh (w : Config.World) (c : Config.Json)
    (items : list (gmap string Config.Json)) (code name type : string) :
  Config.file w = Config.Holds c -> watchlist_of c = Some items ->
  existsb (Config.has_code code) items = false ->
  exists c',
    Config.add_watchlist_item code name type w
    = (Some c', if Config.writable w then saved c' w else w) /\
    watchlist_of c' = Some (items ++ [new_item_dict code name type]) /\
    (forall k, k <> "monitoring"%string -> json_get k c' = json_get k c) /\
    (forall k, k <> "watchlist"%string ->
               json_at ["monitoring"%string; k] c' = json_at ["monitoring"%string; k] c).
Proof.
  intros Hf Hw Hex. apply watchlist_of_inv in Hw as (m & mon & -> & Em & Ew).
  unfold Config.add_watchlist_item. rewrite (load_held _ Hf). cbn [Config.deref].
  rewrite Em, Ew, find_code_of_map, Hex.
  eexists. split; [|split; [|split]].
  - cbn [Config.mutate]. unfold Config.save_config, saved.
    destruct (Config.writable w); reflexivity.
  - unfold Config.new_item.
    change [Config.JObj (list_to_map [("code"%string, Config.JStr code);
                                      ("name"%string, Config.JStr name);
                                      ("type"%string, Config.JStr type)])]
      with (map Config.JObj [new_item_dict code name type]).
    rewrite <- List.map_app. apply watchlist_of_insert.
  - intros k Hk. unfold json_get. now rewrite lookup_insert_ne.
  - intros k Hk. cbn [json_at]. unfold json_get.
    rewrite lookup_insert_eq, Em. now rewrite lookup_insert_ne.
Qed.

(** X21.  [ConfigManager.add_watchlist_item], when [config.json] holds a
    configuration whose watch-list is a list of dictionaries: if an item
    with the code is already listed the configuration is returned unchanged
    and nothing is written; otherwise one item with the code, the name and
    the type is appended after the existing ones, every other setting is
    kept, the file receives the new configuration when it can be written,
    and the new list holds the code exactly once. *)
Theorem add_watchlist_item_never_duplicates (w : Config.World) (c : Config.Json)
    (items : list (gmap string Config.Json)) (code name type : string) :
  Config.file w = Config.Holds c -> watchlist_of c = Some items ->
  (existsb (Config.has_code code) items = true ->
   Config.add_watchlist_item code name type w = (Some c, w)) /\
  (existsb (Config.has_code code) items = false ->
   exists c',
     Config.add_watchlist_item code name type w
     = (Some c', if Config.writable w then saved c' w else w) /\
     watchlist_of c' = Some (items ++ [new_item_dict code name type]) /\
     length (List.filter (Config.has_code code) (items ++ [new_item_dict code name type]))
     = 1%nat /\
     (forall k, k <> "monitoring"%string -> json_get k c' = json_get k c) /\
     (forall k, k <> "watchlist"%string ->
                json_at ["monitoring"%string; k] c' = json_at ["monitoring"%string; k] c)).
Proof.
  intros Hf Hw. split; intros Hex.
  - eapply add_found; eassumption.
  - destruct (add_fresh w code name type Hf Hw Hex) as (c' & H1 & H2 & H3 & H4).
    exists c'. repeat split; try assumption.
    rewrite List.filter_app, length_app. simpl. rewrite has_code_new_item. simpl.
    assert (Hn : List.filter (Config.has_code code) items = []).
    { clear -Hex. induction items as [|it items IH]; simpl in *; [reflexivity|].
      apply orb_false_elim in Hex as [-> Hex]. now apply IH. }
    now rewrite Hn.
Qed.

Lemma filter_none_has_code (code : string) (items : list (gmap string Config.Json)) :
  existsb (Config.has_code code) items = false ->
  List.filter (fun it => negb (Config.has_code code it)) items = items.
Proof.
  induction items as [|it items IH]; simpl; [reflexivity|].
  intros H. apply orb_false_elim in H as [-> H]. simpl. now rewrite IH.
Qed.

Lemma remove_listed (w : Config.World) (c : Config.Json)
    (items : list (gmap string Config.Json)) (code : string) :
  Config.file w = Config.Holds c -> watchlist_of c = Some items ->
  exists m mon,
    c = Config.JObj m /\
    m !! "monitoring"%string = Some (Config.JObj mon) /\
    let kept := List.filter (fun it => negb (Config.has_code code it)) items in
    let c' := Config.JObj (<["monitoring"%string :=
                              Config.JObj (<["watchlist"%string :=
                                              Config.JList (map Config.JObj kept)]> mon)]> m) in
    Config.remove_watchlist_item code w
    = (Some c', if Config.writable w && (length kept <? length items)%nat
                then saved c' w else w).
Proof.
  intros Hf Hw. apply watchlist_of_inv in Hw as (m & mon & -> & Em & Ew).
  exists m, mon. split; [reflexivity|]. split; [exact Em|]. cbv zeta.
  unfold Config.remove_watchlist_item. rewrite (load_held _ Hf).
  cbn [Config.deref Config.py_in].
  rewrite bool_decide_eq_true_2 by (rewrite Em; eauto).
  rewrite Em. cbn [Config.py_in].
  rewrite bool_decide_eq_true_2 by (rewrite Ew; eauto).
  rewrite Ew. cbn [Config.iter_items]. rewrite as_dicts_of_map.
  cbn [Config.mutate]. unfold Config.save_config, saved.
  destruct (_ <? _)%nat; destruct (Config.writable w); reflexivity.
Qed.

(** X22.  [ConfigManager.remove_watchlist_item], when [config.json] holds a
    configuration whose watch-list is a list of dictionaries: the returned
    configuration lists exactly the items whose code differs from the given
    one, in their order; no item with the code is left; every other setting
    is kept; and the file is written only when an item was removed (and the
    file can be written). *)
Theorem remove_watchlist_item_removes_every_match (w : Config.World) (c : Config.Json)
    (items : list (gmap string Config.Json)) (code : string) :
  Config.file w = Config.Holds c -> watchlist_of c = Some items ->
  exists c',
    Config.remove_watchlist_item code w
    = (Some c',
       if Config.writable w && existsb (Config.has_code code) items
       then saved c' w else w) /\
    watchlist_of c'
    = Some (List.filter (fun it => negb (Config.has_code code it)) items) /\
    existsb (Config.has_code code)
            (List.filter (fun it => negb (Config.has_code code it)) items) = false /\
    (forall k, k <> "monitoring"%string -> json_get k c' = json_get k c) /\
    (forall k, k <> "watchlist"%string ->
               json_at ["monitoring"%string; k] c' = json_at ["monitoring"%string; k] c).
Proof.
  intros Hf Hw.
  destruct (remove_listed w code Hf Hw) as (m & mon & -> & Em & H). cbv zeta in H.
  eexists. split; [|split; [|split; [|split]]].
  - rewrite H. f_equal.
    assert (E : (length (List.filter (fun it => negb (Config.has_code code it)) items)
                 <? length items)%nat = existsb (Config.has_code code) items).
    { clear. induction items as [|it items IH]; [reflexivity|]. simpl.
      destruct (Config.has_code code it); simpl.
      - apply Nat.ltb_lt. pose proof (List.filter_length_le
          (fun it => negb (Config.has_code code it)) items). lia.
      - exact IH. }
    now rewrite E.
  - apply watchlist_of_insert.
  - clear. induction items as [|it items IH]; [reflexivity|]. simpl.
    destruct (Config.has_code code it) eqn:E; simpl; [exact IH|]. now rewrite E.
  - intros k Hk. unfold json_get. now rewrite lookup_insert_ne.
  - intros k Hk. cbn [json_at]. unfold json_get.
    rewrite lookup_insert_eq, Em. now rewrite lookup_insert_ne.
Qed.

(** X23.  [add_watchlist_item] followed by [remove_watchlist_item] of the
    same code, when the file can be written and holds a configuration that
    does not list the code: the second call returns the configuration the
    first one started from, and the file holds it again. *)
Theorem add_then_remove_restores_the_configuration (w : Config.World) (c : Config.Json)
    (items : list (gmap string Config.Json)) (code name type : string) :
  Config.file w = Config.Holds c -> Config.writable w = true ->
  watchlist_of c = Some items ->
  existsb (Config.has_code code) items = false ->
  Config.remove_watchlist_item code (snd (Config.add_watchlist_item code name type w))
  = (Some c, w).
Proof.
  intros Hf Hwr Hw Hex.
  destruct (add_fresh w code name type Hf Hw Hex) as (c' & H1 & H2 & _).
  rewrite H1, Hwr. cbn [snd].
  assert (Hf' : Config.file (saved c' w) = Config.Holds c') by reflexivity.
  destruct (remove_listed (saved c' w) code Hf' H2) as (m' & mon' & Ec' & Em' & H).
  cbv zeta in H. rewrite H. clear H.
  assert (Hk : List.filter (fun it => negb (Config.has_code code it))
                           (items ++ [new_item_dict code name type]) = items).
  { rewrite List.filter_app. simpl. rewrite has_code_new_item. simpl.
    rewrite app_nil_r. now apply filter_none_has_code. }
  rewrite Hk.
  assert (Hlt : (length items <? length (items ++ [new_item_dict code name type]))%nat = true)
    by (apply Nat.ltb_lt; rewrite length_app; simpl; lia).
  rewrite Hlt. cbn [Config.writable saved]. rewrite Hwr. cbn [andb].
  apply watchlist_of_inv in Hw as (m & mon & -> & Em & Ew).
  (* the configuration written by the first call *)
  unfold Config.add_watchlist_item in H1. rewrite (load_held _ Hf) in H1.
  cbn [Config.deref] in H1. rewrite Em, Ew, find_code_of_map, Hex in H1.
  injection H1 as H1 _. subst c'. injection Ec' as <-.
  rewrite lookup_insert_eq in Em'. injection Em' as <-.
  rewrite insert_insert_eq. rewrite insert_insert_eq.
  rewrite (insert_id mon _ _ Ew). rewrite (insert_id m _ _ Em).
  f_equal. unfold saved. destruct w as [f wr d]. simpl in *. now subst.
Qed.

(** ** Paths and the shared default *)

Lemma set_path_lookup (init : list string) (final : string) (value target c' : Config.Json) :
  Config.set_path init final value target = Some c' ->
  json_at (init ++ [final]) c' = Some value.
Proof.
  revert target c'. induction init as [|k init IH]; intros target c'; simpl.
  - destruct target; try discriminate. intros [= <-].
    unfold json_get. now rewrite lookup_insert_eq.
  - destruct target as [| | | | |m]; try discriminate.
    destruct (Config.set_path init final value _) as [child'|] eqn:E; [|discriminate].
    intros [= <-]. unfold json_get. rewrite lookup_insert_eq. eapply IH, E.
Qed.

Lemma set_path_other_keys (init : list string) (final : string)
    (value target c' : Config.Json) (k : string) :
  Config.set_path init final value target = Some c' ->
  k <> hd final init -> json_get k c' = json_get k target.
Proof.
  destruct init as [|k0 init]; simpl.
  - destruct target; try discriminate. intros [= <-] Hk.
    unfold json_get. now rewrite lookup_insert_ne.
  - destruct target as [| | | | |m]; try discriminate.
    destruct (Config.set_path init final value _); [|discriminate].
    intros [= <-] Hk. unfold json_get. now rewrite lookup_insert_ne.
Qed.

Lemma split_from_not_nil (cur s : string) : Config.split_from cur s <> [].
Proof.
  revert cur. induction s as [|c s IH]; intros cur; cbn [Config.split_from];
    [discriminate|].
  destruct (String.eqb (String c EmptyString) "."); [discriminate|apply IH].
Qed.

Lemma split_dot_parts (path : string) :
  removelast (Config.split_dot path) ++ [List.last (Config.split_dot path) EmptyString]
  = Config.split_dot path /\
  hd (List.last (Config.split_dot path) EmptyString) (removelast (Config.split_dot path))
  = hd EmptyString (Config.split_dot path).
Proof.
  pose proof (split_from_not_nil EmptyString path) as Hne.
  unfold Config.split_dot. destruct (Config.split_from EmptyString path) as [|a l]; [contradiction|].
  split.
  - symmetry. apply app_removelast_last. discriminate.
  - destruct l as [|b l]; reflexivity.
Qed.

(** X24.  [ConfigManager.update_config]: when the call returns, the value
    is found in the returned configuration at the end of the dotted path,
    every top-level entry other than the first component of the path is as
    it was loaded, and the file holds the returned configuration if it can
    be written.  The call raises, and leaves the file alone, only when a
    value that is already stored on the path is not a dictionary; on a
    two-part path it succeeds as soon as the configuration is a dictionary
    whose entry for the first part, if any, is a dictionary. *)
Theorem update_config_sets_the_path (w : Config.World) (c : Config.Json)
    (path : string) (value : Config.Json) :
  Config.file w = Config.Holds c ->
  (forall c' w',
      Config.update_config path value w = (Some c', w') ->
      json_at (Config.split_dot path) c' = Some value /\
      (forall k, k <> hd EmptyString (Config.split_dot path) ->
                 json_get k c' = json_get k c) /\
      w' = (if Config.writable w then saved c' w else w)) /\
  (fst (Config.update_config path value w) = None ->
   snd (Config.update_config path value w) = w) /\
  (forall k1 k2 m,
      Config.split_dot path = [k1; k2] -> c = Config.JObj m ->
      (forall j, m !! k1 = Some j -> exists mm, j = Config.JObj mm) ->
      exists c', fst (Config.update_config path value w) = Some c').
Proof.
  intros Hf. unfold Config.update_config. rewrite (load_held _ Hf).
  cbn [Config.deref Config.mutate].
  destruct (split_dot_parts path) as [Hparts Hhd].
  split; [|split].
  - intros c' w'.
    destruct (Config.set_path _ _ value c) as [cfg|] eqn:E; [|discriminate].
    intros [= <- <-]. split; [|split].
    + rewrite <- Hparts. eapply set_path_lookup, E.
    + intros k Hk. eapply set_path_other_keys; [exact E|]. now rewrite Hhd.
    + unfold Config.save_config, saved. destruct (Config.writable w); reflexivity.
  - destruct (Config.set_path _ _ value c); [discriminate|reflexivity].
  - intros k1 k2 m Hs -> Hk1. rewrite Hs. simpl.
    destruct (m !! k1) as [j|] eqn:E.
    + destruct (Hk1 j eq_refl) as [mm ->]. eexists. reflexivity.
    + eexists. reflexivity.
Qed.

(** X25.  [load_config] hands out the class attribute [DEFAULT_CONFIG]
    itself when [config.json] cannot be read, and [add_watchlist_item]
    mutates the object it was handed: after such a call the default
    configuration of the process lists the new item, and, when the file
    cannot be written either, every later [load_config] returns the default
    with that item although nothing was saved. *)
Theorem unreadable_file_lets_the_default_be_changed (w : Config.World)
    (items : list (gmap string Config.Json)) (code name type : string) :
  Config.file w = Config.Absent \/ Config.file w = Config.Unreadable ->
  watchlist_of (Config.default_config w) = Some items ->
  existsb (Config.has_code code) items = false ->
  exists c',
    fst (Config.add_watchlist_item code name type w) = Some c' /\
    watchlist_of c' = Some (items ++ [new_item_dict code name type]) /\
    Config.default_config (snd (Config.add_watchlist_item code name type w)) = c' /\
    (Config.writable w = false ->
     Config.file (snd (Config.add_watchlist_item code name type w)) = Config.file w /\
     Config.load_config (snd (Config.add_watchlist_item code name type w))
     = (Config.TheDefault, snd (Config.add_watchlist_item code name type w))).
Proof.
  intros Hf Hw Hex.
  apply watchlist_of_inv in Hw as (m & mon & Hd & Em & Ew).
  assert (Hl : exists w1, Config.load_config w = (Config.TheDefault, w1) /\
                          Config.default_config w1 = Config.default_config w /\
                          Config.writable w1 = Config.writable w /\
                          (Config.writable w = false -> w1 = w)).
  { unfold Config.load_config, Config.save_config.
    destruct Hf as [-> | ->].
    - destruct (Config.writable w) eqn:E; eexists; split; try reflexivity; simpl; auto.
      split; [reflexivity|]. split; [reflexivity|discriminate].
    - exists w. auto. }
  destruct Hl as (w1 & Hl & Hd1 & Hwr1 & Hsame).
  unfold Config.add_watchlist_item. rewrite Hl. cbn [Config.deref].
  rewrite Hd1, Hd, Em, Ew, find_code_of_map, Hex.
  cbn [fst snd Config.mutate]. unfold Config.save_config. cbn [Config.writable].
  rewrite Hwr1.
  eexists. split; [reflexivity|]. split; [|split].
  - unfold Config.new_item.
    change [Config.JObj (list_to_map [("code"%string, Config.JStr code);
                                      ("name"%string, Config.JStr name);
                                      ("type"%string, Config.JStr type)])]
      with (map Config.JObj [new_item_dict code name type]).
    rewrite <- List.map_app. apply watchlist_of_insert.
  - destruct (Config.writable w); reflexivity.
  - intros Hnw. rewrite Hnw. cbn [snd Config.file]. rewrite (Hsame Hnw).
    split; [reflexivity|].
    unfold Config.load_config, Config.save_config. cbn [Config.file Config.writable].
    destruct Hf as [-> | ->]; reflexivity.
Qed.

Lemma add_watchlist_item_never_duplicates_witness :
  Config.file (world_with Config.DEFAULT_CONFIG true) = Config.Holds Config.DEFAULT_CONFIG /\
  watchlist_of Config.DEFAULT_CONFIG = Some [new_item_dict "399300" "沪深300" "index"] /\
  (existsb (Config.has_code "399300") [new_item_dict "399300" "沪深300" "index"] = true ->
   Config.add_watchlist_item "399300" "x" "stock" (world_with Config.DEFAULT_CONFIG true)
   = (Some Config.DEFAULT_CONFIG, world_with Config.DEFAULT_CONFIG true)).
Proof.
  assert (Hf : Config.file (world_with Config.DEFAULT_CONFIG true)
               = Config.Holds Config.DEFAULT_CONFIG) by reflexivity.
  assert (Hw : watchlist_of Config.DEFAULT_CONFIG
               = Some [new_item_dict "399300" "沪深300" "index"])
    by (vm_compute; reflexivity).
  split; [exact Hf|]. split; [exact Hw|].
  exact (proj1 (add_watchlist_item_never_duplicates _ "399300" "x" "stock" Hf Hw)).
Defined.

Lemma remove_watchlist_item_removes_every_match_witness :
  Config.file (world_with Config.DEFAULT_CONFIG true) = Config.Holds Config.DEFAULT_CONFIG /\
  watchlist_of Config.DEFAULT_CONFIG = Some [new_item_dict "399300" "沪深300" "index"] /\
  exists c',
    fst (Config.remove_watchlist_item "399300" (world_with Config.DEFAULT_CONFIG true))
    = Some c' /\
    watchlist_of c' = Some [].
Proof.
  assert (Hf : Config.file (world_with Config.DEFAULT_CONFIG true)
               = Config.Holds Config.DEFAULT_CONFIG) by reflexivity.
  assert (Hw : watchlist_of Config.DEFAULT_CONFIG
               = Some [new_item_dict "399300" "沪深300" "index"])
    by (vm_compute; reflexivity).
  split; [exact Hf|]. split; [exact Hw|].
  destruct (remove_watchlist_item_removes_every_match _ "399300" Hf Hw)
    as (c' & H1 & H2 & _).
  exists c'. split; [now rewrite H1|].
  rewrite H2. vm_compute. reflexivity.
Defined.

Lemma add_then_remove_restores_the_configuration_witness :
  Config.file (world_with Config.DEFAULT_CONFIG true) = Config.Holds Config.DEFAULT_CONFIG /\
  Config.writable (world_with Config.DEFAULT_CONFIG true) = true /\
  watchlist_of Config.DEFAULT_CONFIG = Some [new_item_dict "399300" "沪深300" "index"] /\
  existsb (Config.has_code "600519") [new_item_dict "399300" "沪深300" "index"] = false /\
  Config.remove_watchlist_item "600519"
    (snd (Config.add_watchlist_item "600519" "贵州茅台" "stock"
            (world_with Config.DEFAULT_CONFIG true)))
  = (Some Config.DEFAULT_CONFIG, world_with Config.DEFAULT_CONFIG true).
Proof.
  assert (Hf : Config.file (world_with Config.DEFAULT_CONFIG true)
               = Config.Holds Config.DEFAULT_CONFIG) by reflexivity.
  assert (Hw : watchlist_of Config.DEFAULT_CONFIG
               = Some [new_item_dict "399300" "沪深300" "index"])
    by (vm_compute; reflexivity).
  assert (Hex : existsb (Config.has_code "600519")
                        [new_item_dict "399300" "沪深300" "index"] = false)
    by (vm_compute; reflexivity).
  split; [exact Hf|]. split; [reflexivity|]. split; [exact Hw|]. split; [exact Hex|].
  exact (add_then_remove_restores_the_configuration _ "600519" "贵州茅台" "stock"
           Hf eq_refl Hw Hex).
Defined.

Lemma update_config_sets_the_path_witness :
  Config.file (world_with Config.DEFAULT_CONFIG true) = Config.Holds Config.DEFAULT_CONFIG /\
  exists c',
    fst (Config.update_config "monitoring.days_back" (Config.JNum 45)
           (world_with Config.DEFAULT_CONFIG true)) = Some c' /\
    json_at (Config.split_dot "monitoring.days_back") c' = Some (Config.JNum 45).
Proof.
  assert (Hf : Config.file (world_with Config.DEFAULT_CONFIG true)
               = Config.Holds Config.DEFAULT_CONFIG) by reflexivity.
  split; [exact Hf|].
  pose proof (@update_config_sets_the_path _ _ "monitoring.days_back" (Config.JNum 45) Hf)
    as (H1 & _ & _).
  destruct (Config.update_config "monitoring.days_back" (Config.JNum 45)
              (world_with Config.DEFAULT_CONFIG true)) as [[c'|] w'] eqn:E.
  - exists c'. split; [reflexivity|]. exact (proj1 (H1 c' w' eq_refl)).
  - exfalso. revert E. vm_compute. discriminate.
Defined.

Lemma unreadable_file_lets_the_default_be_changed_witness :
  (Config.file (Config.mkWorld Config.Unreadable false Config.DEFAULT_CONFIG) = Config.Absent \/
   Config.file (Config.mkWorld Config.Unreadable false Config.DEFAULT_CONFIG)
   = Config.Unreadable) /\
  watchlist_of Config.DEFAULT_CONFIG = Some [new_item_dict "399300" "沪深300" "index"] /\
  existsb (Config.has_code "600519") [new_item_dict "399300" "沪深300" "index"] = false /\
  exists c',
    fst (Config.add_watchlist_item "600519" "贵州茅台" "stock"
           (Config.mkWorld Config.Unreadable false Config.DEFAULT_CONFIG)) = Some c' /\
    watchlist_of c'
    = Some ([new_item_dict "399300" "沪深300" "index"]
            ++ [new_item_dict "600519" "贵州茅台" "stock"]) /\
    Config.default_config
      (snd (Config.add_watchlist_item "600519" "贵州茅台" "stock"
              (Config.mkWorld Config.Unreadable false Config.DEFAULT_CONFIG))) = c'.
Proof.
  assert (Hw : watchlist_of Config.DEFAULT_CONFIG
               = Some [new_item_dict "399300" "沪深300" "index"])
    by (vm_compute; reflexivity).
  assert (Hex : existsb (Config.has_code "600519")
                        [new_item_dict "399300" "沪深300" "index"] = false)
    by (vm_compute; reflexivity).
  split; [right; reflexivity|]. split; [exact Hw|]. split; [exact Hex|].
  destruct (@unreadable_file_lets_the_default_be_changed
              (Config.mkWorld Config.Unreadable false Config.DEFAULT_CONFIG)
              _ "600519" "贵州茅台" "stock" (or_intror eq_refl) Hw Hex)
    as (c' & H1 & H2 & H3 & _).
  exists c'. auto.
Defined.

(** ** The notifier *)

Lemma get_token_cached (n : WeChat.Notifier) (t : Q) (net : WeChat.Net) :
  WeChat.enabled n = true -> WeChat.truthy (WeChat.token n) = true ->
  (t < WeChat.token_expires_time n)%Q ->
  WeChat.get_token t net n = (n, WeChat.token n, []).
Proof.
  intros He Ht Hlt. unfold WeChat.get_token. rewrite He, Ht.
  apply Qlt_bool_iff in Hlt. rewrite Hlt. reflexivity.
Qed.

Lemma send_cached (n : WeChat.Notifier) (c : SendCall) :
  WeChat.enabled n = true -> WeChat.truthy (WeChat.token n) = true ->
  (sc_time c < WeChat.token_expires_time n)%Q ->
  WeChat.send_notification (sc_title c) (sc_content c) (sc_level c) (sc_time c) (sc_net c) n
  = (n, accepted (sc_net c) (post_of (WeChat.token n) n c), [post_of (WeChat.token n) n c]).
Proof.
  intros He Ht Hlt. unfold WeChat.send_notification.
  rewrite He, (@get_token_cached n (sc_time c) (sc_net c) He Ht Hlt). cbn [negb]. rewrite Ht. reflexivity.
Qed.

Lemma send_all_cached (n : WeChat.Notifier) (calls : list SendCall) :
  WeChat.enabled n = true -> WeChat.truthy (WeChat.token n) = true ->
  Forall (fun c => (sc_time c < WeChat.token_expires_time n)%Q) calls ->
  send_all calls n
  = (n, map (fun c => accepted (sc_net c) (post_of (WeChat.token n) n c)) calls,
     map (post_of (WeChat.token n) n) calls).
Proof.
  intros He Ht. induction 1 as [|c calls Hc _ IH]; [reflexivity|].
  cbn [send_all]. rewrite (@send_cached n c He Ht Hc), IH. reflexivity.
Qed.

Lemma send_expired (n : WeChat.Notifier) (c : SendCall) :
  WeChat.enabled n = true ->
  (WeChat.token_expires_time n <= sc_time c)%Q ->
  exists rest,
    snd (WeChat.send_notification (sc_title c) (sc_content c) (sc_level c)
                                  (sc_time c) (sc_net c) n)
    = WeChat.GetToken (WeChat.corp_id n) (WeChat.corp_secret n) :: rest.
Proof.
  intros He Hle. unfold WeChat.send_notification. rewrite He. cbn [negb].
  assert (Hg : exists n1 tok,
             WeChat.get_token (sc_time c) (sc_net c) n
             = (n1, tok, [WeChat.GetToken (WeChat.corp_id n) (WeChat.corp_secret n)])).
  { unfold WeChat.get_token. rewrite He. cbn [negb].
    apply Qlt_bool_false_iff in Hle. rewrite Hle, andb_false_r.
    destruct (sc_net c _) as [j|]; [|eauto].
    destruct (WeChat.errcode_ok j) as [[|]|]; eauto.
    destruct (WeChat.get "expires_in" j ≫= WeChat.as_number); eauto. }
  destruct Hg as (n1 & tok & ->).
  destruct (negb (WeChat.truthy tok)); eexists; reflexivity.
Qed.

(** X26.  [WeChatNotifier] (both scripts), enabled and without a usable
    token at time [t0]: when the token request is answered with
    [errcode == 0], a non-empty [access_token] and a number [expires_in],
    [get_token] returns that token after one request, and every
    [send_notification] that runs before [t0 + expires_in - 200] issues one
    request only, the message carrying that token, returns whether its answer
    reports [errcode == 0], and leaves the notifier as it is; a call at or
    after that time starts with a new token request. *)
Theorem token_is_reused_until_200s_before_expiry (n : WeChat.Notifier) (t0 : Q)
    (net0 : WeChat.Net) (j tok : Config.Json) (e : Q) :
  WeChat.enabled n = true ->
  WeChat.truthy (WeChat.token n) && Qlt_bool t0 (WeChat.token_expires_time n) = false ->
  net0 (WeChat.GetToken (WeChat.corp_id n) (WeChat.corp_secret n)) = Some j ->
  WeChat.errcode_ok j = Some true ->
  WeChat.get "access_token" j = Some tok -> WeChat.truthy tok = true ->
  WeChat.get "expires_in" j ≫= WeChat.as_number = Some e ->
  exists n1,
    WeChat.get_token t0 net0 n
    = (n1, tok, [WeChat.GetToken (WeChat.corp_id n) (WeChat.corp_secret n)]) /\
    (forall calls,
        Forall (fun c => (sc_time c < t0 + e - 200)%Q) calls ->
        send_all calls n1
        = (n1, map (fun c => accepted (sc_net c) (post_of tok n c)) calls,
           map (post_of tok n) calls)) /\
    (forall c,
        (t0 + e - 200 <= sc_time c)%Q ->
        exists rest,
          snd (WeChat.send_notification (sc_title c) (sc_content c) (sc_level c)
                                        (sc_time c) (sc_net c) n1)
          = WeChat.GetToken (WeChat.corp_id n) (WeChat.corp_secret n) :: rest).
Proof.
  intros He Hold Hnet Hok Htok Htruthy Hexp.
  eexists. split; [|split].
  - unfold WeChat.get_token. rewrite He. cbn [negb]. rewrite Hold, Hnet, Hok, Htok, Hexp.
    reflexivity.
  - intros calls Hcalls.
    apply (@send_all_cached (WeChat.mkNotifier _ _ _ tok (t0 + e - 200) _));
      [reflexivity|exact Htruthy|exact Hcalls].
  - intros c Hc.
    apply (@send_expired (WeChat.mkNotifier _ _ _ tok (t0 + e - 200) _));
      [reflexivity|exact Hc].
Qed.

Lemma same_settings_refl (n : WeChat.Notifier) : same_settings n n.
Proof. repeat split. Qed.

Lemma same_settings_trans (a b c : WeChat.Notifier) :
  same_settings a b -> same_settings b c -> same_settings a c.
Proof.
  intros (H1 & H2 & H3 & H4) (K1 & K2 & K3 & K4). repeat split; congruence.
Qed.

Lemma request_of_settings (n n1 : WeChat.Notifier) (r : WeChat.Request) :
  same_settings n n1 -> request_of n1 r -> request_of n r.
Proof.
  intros (H1 & H2 & H3 & H4) [He Hr]. split; [congruence|].
  destruct r; destruct Hr; split; congruence.
Qed.

Lemma get_token_inv (t : Q) (net : WeChat.Net) (n : WeChat.Notifier) :
  same_settings n (fst (fst (WeChat.get_token t net n))) /\
  Forall (request_of n) (snd (WeChat.get_token t net n)) /\
  List.filter is_post (snd (WeChat.get_token t net n)) = [].
Proof.
  assert (Hfin : forall n1 (tok : Config.Json) reqs,
             same_settings n n1 -> Forall (request_of n) reqs ->
             List.filter is_post reqs = [] ->
             same_settings n (fst (fst (n1, tok, reqs))) /\
             Forall (request_of n) (snd (n1, tok, reqs)) /\
             List.filter is_post (snd (n1, tok, reqs)) = [])
    by (intros; cbn [fst snd]; auto).
  unfold WeChat.get_token.
  destruct (WeChat.enabled n) eqn:He; cbn [negb];
    [|apply Hfin; [apply same_settings_refl|constructor|reflexivity]].
  assert (Hr : Forall (request_of n)
                 [WeChat.GetToken (WeChat.corp_id n) (WeChat.corp_secret n)]).
  { constructor; [|constructor]. split; [exact He|split; reflexivity]. }
  destruct (WeChat.truthy (WeChat.token n) && _);
    [apply Hfin; [apply same_settings_refl|constructor|reflexivity]|].
  destruct (net _) as [j|];
    [|apply Hfin; [apply same_settings_refl|exact Hr|reflexivity]].
  destruct (WeChat.errcode_ok j) as [[|]|];
    try (apply Hfin; [apply same_settings_refl|exact Hr|reflexivity]).
  destruct (WeChat.get "expires_in" j ≫= WeChat.as_number);
    (apply Hfin; [repeat split; symmetry; exact He|exact Hr|reflexivity]).
Qed.

Lemma send_notification_inv (title content level : string) (t : Q) (net : WeChat.Net)
    (n : WeChat.Notifier) :
  let out := WeChat.send_notification title content level t net n in
  same_settings n (fst (fst out)) /\
  Forall (request_of n) (snd out) /\
  (Nat.b2n (snd (fst out)) <= length (List.filter is_post (snd out)) <= 1)%nat.
Proof.
  cbv zeta. unfold WeChat.send_notification.
  destruct (WeChat.enabled n) eqn:He; cbn [negb];
    [|split; [apply same_settings_refl|split; [constructor|simpl; lia]]].
  destruct (get_token_inv t net n) as (Hs & Hr & Hp).
  destruct (WeChat.get_token t net n) as [[n1 tok] reqs]. cbn [fst snd] in *.
  destruct (WeChat.truthy tok) eqn:Ht; cbn [negb fst snd].
  - split; [exact Hs|]. split.
    + apply List.Forall_app. split; [exact Hr|]. constructor; [|constructor].
      split; [exact He|]. split; [exact Ht|]. apply Hs.
    + rewrite List.filter_app, Hp. cbn [is_post List.filter app length].
      destruct (net _ ≫= WeChat.errcode_ok) as [[|]|]; simpl; lia.
  - split; [exact Hs|]. split; [exact Hr|]. rewrite Hp. simpl. lia.
Qed.

Lemma send_all_inv (calls : list SendCall) (n : WeChat.Notifier) :
  same_settings n (fst (fst (send_all calls n))) /\
  length (snd (fst (send_all calls n))) = length calls /\
  Forall (request_of n) (snd (send_all calls n)) /\
  (count_true (snd (fst (send_all calls n)))
   <= length (List.filter is_post (snd (send_all calls n))) <= length calls)%nat.
Proof.
  revert n. induction calls as [|c calls IH]; intros n.
  - cbn. split; [apply same_settings_refl|]. split; [reflexivity|].
    split; [constructor|lia].
  - cbn [send_all].
    pose proof (send_notification_inv (sc_title c) (sc_content c) (sc_level c)
                  (sc_time c) (sc_net c) n) as H. cbv zeta in H.
    destruct (WeChat.send_notification _ _ _ _ _ n) as [[n1 ok] reqs].
    cbn [fst snd] in H. destruct H as (Hs & Hr & Hp).
    specialize (IH n1).
    destruct (send_all calls n1) as [[n2 oks] reqs']. cbn [fst snd] in *.
    destruct IH as (Hs' & Hl & Hr' & Hp').
    split; [eapply same_settings_trans; eassumption|].
    split; [simpl; congruence|]. split.
    + apply List.Forall_app. split; [exact Hr|].
      eapply List.Forall_impl; [|exact Hr']. intros r. now apply request_of_settings.
    + rewrite List.filter_app, length_app. unfold count_true in *.
      destruct ok; cbn [List.filter length Nat.b2n] in *; lia.
Qed.

Lemma send_all_disabled (calls : list SendCall) (n : WeChat.Notifier) :
  WeChat.enabled n = false ->
  send_all calls n = (n, repeat false (length calls), []).
Proof.
  intros He. induction calls as [|c calls IH]; [reflexivity|].
  cbn [send_all]. unfold WeChat.send_notification. rewrite He. cbn [negb].
  rewrite IH. reflexivity.
Qed.

(** X27.  [WeChatNotifier] of [底分型.py]: when one of the corporation id,
    the secret and the agent id is missing or empty both among the arguments
    of the constructor and in the environment, [get_token] returns [None]
    and every [send_notification] returns [False], whatever the service
    would answer, and no request is ever issued. *)
Theorem notifier_without_settings_sends_nothing
    (cid sec aid ecid esec eaid : option string) (calls : list SendCall)
    (t : Q) (net : WeChat.Net) :
  (WeChat.truthy_str cid = false /\ WeChat.truthy_str ecid = false) \/
  (WeChat.truthy_str sec = false /\ WeChat.truthy_str esec = false) \/
  (WeChat.truthy_str aid = false /\ WeChat.truthy_str eaid = false) ->
  let n := WeChat.init cid sec aid ecid esec eaid in
  WeChat.get_token t net n = (n, Config.JNull, []) /\
  send_all calls n = (n, repeat false (length calls), []).
Proof.
  intros H. cbv zeta.
  assert (He : WeChat.enabled (WeChat.init cid sec aid ecid esec eaid) = false).
  { unfold WeChat.init, WeChat.py_or. cbn [WeChat.enabled].
    destruct H as [[H1 H2]|[[H1 H2]|[H1 H2]]]; rewrite H1, H2.
    - reflexivity.
    - apply andb_false_iff. left. apply andb_false_r.
    - apply andb_false_r. }
  split.
  - unfold WeChat.get_token. rewrite He. reflexivity.
  - now apply send_all_disabled.
Qed.

(** X28.  [WeChatNotifier.send_notification] (both scripts), any notifier,
    any sequence of calls and any answers of the service: each call returns
    a value; every request comes from an enabled notifier, a token request
    with its credentials and a message with its agent id and a token that
    is not empty; a call posts at most one message, and one that returns
    [True] has posted one; the settings of the notifier are never
    changed. *)
Theorem no_message_without_a_token (calls : list SendCall) (n : WeChat.Notifier) :
  same_settings n (fst (fst (send_all calls n))) /\
  length (snd (fst (send_all calls n))) = length calls /\
  Forall (request_of n) (snd (send_all calls n)) /\
  (count_true (snd (fst (send_all calls n)))
   <= length (List.filter is_post (snd (send_all calls n))) <= length calls)%nat.
Proof. apply send_all_inv. Qed.

Lemma token_is_reused_until_200s_before_expiry_witness :
  WeChat.enabled example_notifier = true /\
  WeChat.truthy (WeChat.token example_notifier)
  && Qlt_bool 1000 (WeChat.token_expires_time example_notifier) = false /\
  WeChat.errcode_ok token_answer = Some true /\
  WeChat.get "access_token" token_answer = Some (Config.JStr "tok") /\
  WeChat.truthy (Config.JStr "tok") = true /\
  WeChat.get "expires_in" token_answer ≫= WeChat.as_number = Some 7200%Q /\
  exists n1,
    WeChat.get_token 1000 (fun _ => Some token_answer) example_notifier
    = (n1, Config.JStr "tok",
       [WeChat.GetToken (WeChat.corp_id example_notifier)
                        (WeChat.corp_secret example_notifier)]) /\
    (forall calls,
        Forall (fun c => (sc_time c < 1000 + 7200 - 200)%Q) calls ->
        send_all calls n1
        = (n1, map (fun c => accepted (sc_net c)
                               (post_of (Config.JStr "tok") example_notifier c)) calls,
           map (post_of (Config.JStr "tok") example_notifier) calls)) /\
    (forall c,
        (1000 + 7200 - 200 <= sc_time c)%Q ->
        exists rest,
          snd (WeChat.send_notification (sc_title c) (sc_content c) (sc_level c)
                                        (sc_time c) (sc_net c) n1)
          = WeChat.GetToken (WeChat.corp_id example_notifier)
                            (WeChat.corp_secret example_notifier) :: rest).
Proof.
  assert (H1 : WeChat.enabled example_notifier = true) by reflexivity.
  assert (H2 : WeChat.truthy (WeChat.token example_notifier)
               && Qlt_bool 1000 (WeChat.token_expires_time example_notifier) = false)
    by reflexivity.
  assert (H3 : WeChat.errcode_ok token_answer = Some true) by (vm_compute; reflexivity).
  assert (H4 : WeChat.get "access_token" token_answer = Some (Config.JStr "tok"))
    by (vm_compute; reflexivity).
  assert (H5 : WeChat.truthy (Config.JStr "tok") = true) by reflexivity.
  assert (H6 : WeChat.get "expires_in" token_answer ≫= WeChat.as_number = Some 7200%Q)
    by (vm_compute; reflexivity).
  do 6 (split; [assumption|]).
  exact (@token_is_reused_until_200s_before_expiry example_notifier 1000
           (fun _ => Some token_answer) token_answer (Config.JStr "tok") 7200
           H1 H2 eq_refl H3 H4 H5 H6).
Defined.

Lemma notifier_without_settings_sends_nothing_witness :
  ((WeChat.truthy_str None = false /\ WeChat.truthy_str (Some EmptyString) = false) \/
   (WeChat.truthy_str (Some "secret"%string) = false /\ WeChat.truthy_str None = false) \/
   (WeChat.truthy_str (Some "1000002"%string) = false /\ WeChat.truthy_str None = false)) /\
  let n := WeChat.init None (Some "secret"%string) (Some "1000002"%string)
                       (Some EmptyString) None None in
  WeChat.get_token 1000 (fun _ => Some token_answer) n = (n, Config.JNull, []) /\
  send_all [mkSendCall "title" "content" "info" 1000 (fun _ => Some token_answer)] n
  = (n, repeat false
          (length [mkSendCall "title" "content" "info" 1000 (fun _ => Some token_answer)]),
     []).
Proof.
  assert (H : (WeChat.truthy_str None = false /\
               WeChat.truthy_str (Some EmptyString) = false) \/
              (WeChat.truthy_str (Some "secret"%string) = false /\
               WeChat.truthy_str None = false) \/
              (WeChat.truthy_str (Some "1000002"%string) = false /\
               WeChat.truthy_str None = false))
    by (left; split; reflexivity).
  split; [exact H|].
  exact (@notifier_without_settings_sends_nothing None (Some "secret"%string)
           (Some "1000002"%string) (Some EmptyString) None None
           [mkSendCall "title" "content" "info" 1000 (fun _ => Some token_answer)]
           1000 (fun _ => Some token_answer) H).
Defined.

(** ** The first script and its notifier *)


Lemma trailing_exit_raises_on_boundary_bars :
  exists df,
    get_data sqrt_floor (trailing_boundary_bars 11400) = Some df /\
    Fractal.backtest_with_notifier false default_params df = None /\
    map (fun t => (t_sell_date t, Qred (t_sell_price t), t_sell_reason t))
        (Fractal.backtest_trades default_params df)
    = [(14%Z, 114%Q, TrailingStop)] /\
    map (fun t => (t_sell_date t, Qred (t_sell_price t), t_sell_reason t))
        (FractalNotify.backtest_trades default_params df)
    = [(14%Z, 114%Q, TrailingStop)].
Proof.
  eexists. split; [vm_compute; reflexivity|].
  repeat split; vm_compute; reflexivity.
Qed.
